(** * dets: type-model extraction ([src/input/visit.ts])

    A shallow embedding of the recursive walk that turns the types exposed by
    the TypeScript checker into [TypeModel] nodes and fills the reference
    registry [context.refs], followed by the properties stated for it.

    Conventions of the embedding
    - every JavaScript object the walk touches (a [Type], a [Symbol], a syntax
      [Node], a [Signature], an [IndexInfo]) is an opaque handle [Obj]; the
      walk itself passes nodes where types are expected, so one handle type
      serves them all.  Property reads are the fields of [Oracle]; a read that
      gives [undefined] is [None];
    - the functions imported from ['../helpers'] and ['./utils'] are the
      fields of [Helpers];
    - [context.refs] is a finite map from names to [option TypeModel]: a key
      may be present with the value [undefined];
    - a JavaScript [TypeError] (property read on [undefined], call of
      something that is not a function) is the outcome [TypeError];
    - the three functions that close the recursion ([includeType],
      [getTypeModel], [includeAnonymous]) take a call-depth budget. *)

From Stdlib Require Import ZArith Lia Ascii String.
From stdpp Require Import base option list strings gmap fin_maps.

Local Open Scope string_scope.
Local Open Scope list_scope.
Local Open Scope Z_scope.

Set Warnings "-register-all".

(** ** Constants of the [typescript] package used by the walk *)

Module TypeFlags.
Definition Any : Z := 1.
Definition Unknown : Z := 2.
Definition String : Z := 4.
Definition Number : Z := 8.
Definition Boolean : Z := 16.
Definition Enum : Z := 32.
Definition BigInt : Z := 64.
Definition StringLiteral : Z := 128.
Definition NumberLiteral : Z := 256.
Definition BooleanLiteral : Z := 512.
Definition EnumLiteral : Z := 1024.
Definition BigIntLiteral : Z := 2048.
Definition ESSymbol : Z := 4096.
Definition UniqueESSymbol : Z := 8192.
Definition Void : Z := 16384.
Definition Undefined : Z := 32768.
Definition Null : Z := 65536.
Definition Never : Z := 131072.
Definition TypeParameter : Z := 262144.
Definition Object : Z := 524288.
Definition Union : Z := 1048576.
Definition Intersection : Z := 2097152.
Definition Index : Z := 4194304.
Definition IndexedAccess : Z := 8388608.
Definition Conditional : Z := 16777216.
Definition Substitution : Z := 33554432.
Definition NonPrimitive : Z := 67108864.
End TypeFlags.

Module ObjectFlags.
Definition Class : Z := 1.
Definition Interface : Z := 2.
Definition Reference : Z := 4.
Definition Tuple : Z := 8.
Definition Anonymous : Z := 16.
Definition Mapped : Z := 32.
End ObjectFlags.

Module SymbolFlags.
Definition ConstEnum : Z := 128.
Definition Prototype : Z := 4194304.
Definition Optional : Z := 16777216.
End SymbolFlags.

(** [Number.MAX_SAFE_INTEGER] *)
Definition MAX_SAFE_INTEGER : Z := 9007199254740991.

(** [a & b] used as a condition *)
Definition hasFlag (flags mask : Z) : bool := negb (Z.land flags mask =? 0).

(** ** Object handles *)

Definition Obj := nat.

(** The payload of a literal type ([type.value]); the walk only copies it. *)
Inductive JsValue :=
| JsString (s : string)
| JsNumber (n : Z)
| JsBoolean (b : bool)
| JsBigInt (negative : bool) (base10Value : string).

(** ** The type model (['../types']) *)

Inductive TypeModel :=
| TAny
| TUnknown
| TLiteral (value : option JsValue)
| TEnumLiteral (const : bool) (comment : option string) (values : list TypeModel)
| TEnum (comment : option string) (values : list TypeModel)
| TMember (name : string) (value : TypeModel) (comment : option string)
| TBigIntLiteral (value : option JsValue)
| TString
| TBoolean
| TNumber
| TBigInt
| TEsSymbol
| TUniqueEsSymbol
| TVoid
| TUndefined
| TNull
| TNever
| TConditional (extends check primary alternate : TypeModel)
| TSubstitution (variable : TypeModel)
| TNonPrimitive (name : option string)
| TPrefix (prefix : string) (value : TypeModel)
| TInfer (parameter : TypeModel)
| TTuple (types : list TypeModel)
| TUnion (types : list TypeModel)
| TIntersection (types : list TypeModel)
| TIndexedAccess (index object : option TypeModel)
| TRef (types : list TypeModel) (refName : option string) (external : option Obj)
| TTypeParameter (parameter : TypeModel) (constraint default : option TypeModel)
| TParameter (param modifiers : string) (spread optional : bool) (value : TypeModel)
| TFunction (types : list (option TypeModel)) (parameters : list TypeModel)
    (returnType : TypeModel) (comment : option string)
| TConstructor (types : list (option TypeModel)) (parameters : list TypeModel)
    (returnType : TypeModel) (comment : option string)
| TProp (name modifiers : string) (id : option nat) (optional : bool)
    (comment : option string) (valueType : TypeModel)
| TIndex (parameters : list TypeModel) (optional : bool) (valueType : TypeModel)
| TMapped (name : string) (constraint : option TypeModel) (optional : bool) (value : TypeModel)
| TInterface (extends : list TypeModel) (comment : option string) (props : list TypeModel)
    (types : list (option TypeModel)) (mapped : option TypeModel)
| TClass (extends : list TypeModel) (comment : option string) (props : list TypeModel)
    (types : list (option TypeModel)) (implements : list TypeModel)
| TAlias (comment : option string) (types : list (option TypeModel)) (child : TypeModel)
| TUnidentified.

(** The [kind] tag of a node. *)
Definition kind (m : TypeModel) : string :=
  match m with
  | TAny => "any" | TUnknown => "unknown" | TLiteral _ => "literal"
  | TEnumLiteral _ _ _ => "enumLiteral" | TEnum _ _ => "enum" | TMember _ _ _ => "member"
  | TBigIntLiteral _ => "bigintLiteral" | TString => "string" | TBoolean => "boolean"
  | TNumber => "number" | TBigInt => "bigint" | TEsSymbol => "esSymbol"
  | TUniqueEsSymbol => "uniqueEsSymbol" | TVoid => "void" | TUndefined => "undefined"
  | TNull => "null" | TNever => "never" | TConditional _ _ _ _ => "conditional"
  | TSubstitution _ => "substitution" | TNonPrimitive _ => "nonPrimitive"
  | TPrefix _ _ => "prefix" | TInfer _ => "infer" | TTuple _ => "tuple" | TUnion _ => "union"
  | TIntersection _ => "intersection" | TIndexedAccess _ _ => "indexedAccess"
  | TRef _ _ _ => "ref" | TTypeParameter _ _ _ => "typeParameter"
  | TParameter _ _ _ _ _ => "parameter" | TFunction _ _ _ _ => "function"
  | TConstructor _ _ _ _ => "constructor" | TProp _ _ _ _ _ _ => "prop"
  | TIndex _ _ _ => "index" | TMapped _ _ _ _ => "mapped" | TInterface _ _ _ _ _ => "interface"
  | TClass _ _ _ _ _ => "class" | TAlias _ _ _ => "alias" | TUnidentified => "unidentified"
  end.

Definition isRefNode (m : TypeModel) : bool :=
  match m with TRef _ _ _ => true | _ => false end.

(** [node.types?.length]: the kinds that carry a [types] list. *)
Definition typesLength (m : TypeModel) : option Z :=
  match m with
  | TTuple l | TUnion l | TIntersection l | TRef l _ _ => Some (Z.of_nat (length l))
  | TFunction l _ _ _ | TConstructor l _ _ _ | TInterface _ _ _ l _
  | TClass _ _ _ l _ | TAlias _ l _ => Some (Z.of_nat (length l))
  | _ => None
  end.

(** The placeholder stored under a name while its body is being built. *)
Definition placeholder (name : string) : TypeModel := TRef [] (Some name) None.

(** ** The oracle: what the walk reads from the TypeScript checker

    One field per property or method the walk reads.  The queries the
    compiler API declares to return a [Type] are total.  For the four
    [is...] methods, which the walk tests with [typeof] before most calls,
    [None] says that the object has no such method; for the other methods
    [None] is the result [undefined]. *)

Class Oracle := {
  (* types and nodes *)
  typeId : Obj -> option nat;
  flags : Obj -> Z;
  objectFlags : Obj -> option Z;
  symbol : Obj -> option Obj;
  aliasSymbol : Obj -> option Obj;
  aliasTypeArguments : Obj -> option (list Obj);
  typeArguments : Obj -> option (list Obj);
  typeParameters : Obj -> option (list Obj);
  target : Obj -> option Obj;
  stringsOnly : Obj -> option bool;
  type_ : Obj -> option Obj;
  types : Obj -> option (list Obj);
  value : Obj -> option JsValue;
  intrinsicName : Obj -> option string;
  root : Obj -> option Obj;
  extendsType : Obj -> option Obj;
  checkType : Obj -> option Obj;
  trueType : Obj -> option Obj;
  falseType : Obj -> option Obj;
  typeVariable : Obj -> option Obj;
  indexType : Obj -> option Obj;
  objectType : Obj -> option Obj;
  typeParameter : Obj -> option Obj;
  nodeKind : Obj -> option Z;
  isStringLiteral : Obj -> option bool;
  isNumberLiteral : Obj -> option bool;
  isUnion : Obj -> option bool;
  isIntersection : Obj -> option bool;
  getProperties : Obj -> option (list Obj);
  getStringIndexType : Obj -> option Obj;
  getNumberIndexType : Obj -> option Obj;
  getCallSignatures : Obj -> option (list Obj);
  getConstraint : Obj -> option Obj;
  declaredNumberIndexInfo : Obj -> option Obj;
  declaredStringIndexInfo : Obj -> option Obj;
  (* declarations *)
  default_ : Obj -> option Obj;
  constraint : Obj -> option Obj;
  parent : Obj -> option Obj;
  heritageClauses : Obj -> option (list Obj);
  token : Obj -> option Z;
  expression : Obj -> option Obj;
  text : Obj -> option string;
  typeName : Obj -> option Obj;
  questionToken : Obj -> option Obj;
  dotDotDotToken : Obj -> option Obj;
  parameters : Obj -> option (list Obj);
  sourceFileName : Obj -> option string;
  isIdentifier : option Obj -> bool;
  isInterfaceDeclaration : Obj -> bool;
  isClassDeclaration : Obj -> bool;
  isMethodSignature : Obj -> bool;
  (* symbols *)
  symbolName : Obj -> string;
  symbolId : Obj -> option nat;
  symbolFlags : Obj -> Z;
  declarations : Obj -> option (list Obj);
  valueDeclaration : Obj -> option Obj;
  symbolTarget : Obj -> option Obj;
  getDocumentationComment : Obj -> list string;
  (* signatures *)
  getParameters : Obj -> list Obj;
  getReturnType : Obj -> Obj;
  (* the checker *)
  getTypeAtLocation : Obj -> Obj;
  getTypeFromTypeNode : Obj -> Obj;
  (* what those two answer when they are handed [undefined] instead of a
     node: the checker's error type *)
  checkerErrorType : Obj;
  getDeclaredTypeOfSymbol : Obj -> Obj;
  getTypeOfSymbolAtLocation : Obj -> Obj -> Obj;
  getSignatureFromDeclaration : Obj -> option Obj;
  getExportsOfModule : Obj -> list Obj;
  (* syntax kinds, whose numbering depends on the compiler version *)
  TypeAliasDeclaration : Z;
  ExtendsKeyword : Z;
  ImplementsKeyword : Z;
}.

(** ** The functions of ['../helpers'] and ['./utils']

    [Imports] is the part of the context [createBinding] keeps its books in;
    [getLib] already has [context.availableImports]. *)

Class Helpers := {
  Imports : Type;
  createBinding : Imports -> string -> option string -> string * Imports;
  getLib : option string -> option string;
  isBaseLib : option string -> bool;
  isGlobal : option Obj -> bool;
  getGlobalName : option Obj -> string;
  isAnonymous : option string -> bool;
  isAnonymousObject : Obj -> bool;
  isObjectType : Obj -> bool;
  isReferenceType : Obj -> bool;
  isTupleType : Obj -> bool;
  isIndexType : Obj -> bool;
  isBigIntLiteral : Obj -> bool;
  isConditionalType : Obj -> bool;
  isSubstitutionType : Obj -> bool;
  isKeyOfType : option Obj -> bool;
  isUnionType : option Obj -> bool;
  isIdentifierType : option Obj -> bool;
  isInferType : option Obj -> bool;
  isHiddenAnonymousType : option Obj -> bool;
  getKeyName : option Obj -> string;
  getConstructors : Obj -> option (list Obj);
  getModifiers : Obj -> string;
}.

(** ** The walk's monad: the mutable context, exceptions, call depth *)

Section Monad.
Context `{Hp : Helpers}.

Record DeclVisitorContext := {
  refs : gmap string (option TypeModel);
  usedImports : Imports;
}.

Inductive Outcome (A : Type) :=
| Returned (a : A) (c : DeclVisitorContext)
| TypeError
| Exhausted.

Definition M (A : Type) : Type := DeclVisitorContext -> Outcome A.

Definition ret {A} (a : A) : M A := fun c => Returned A a c.

Definition bind {A B} (m : M A) (k : A -> M B) : M B :=
  fun c => match m c with
           | Returned _ a c' => k a c'
           | TypeError _ => TypeError B
           | Exhausted _ => Exhausted B
           end.

Definition throw {A} : M A := fun _ => TypeError A.

Definition exhausted {A} : M A := fun _ => Exhausted A.

(** a read that must not give [undefined] *)
Definition need {A} (o : option A) : M A :=
  match o with Some a => ret a | None => throw end.

Definition getRefs : M (gmap string (option TypeModel)) := fun c => Returned _ (refs c) c.

(** [context.refs[name] = node] *)
Definition setRef (name : string) (node : option TypeModel) : M unit :=
  fun c => Returned _ tt {| refs := <[name := node]> (refs c); usedImports := usedImports c |}.

Definition withImports {A} (f : Imports -> A * Imports) : M A :=
  fun c => let '(a, u) := f (usedImports c) in
           Returned _ a {| refs := refs c; usedImports := u |}.

End Monad.

Arguments Returned {_ _} a c.
Arguments TypeError {_ _}.
Arguments Exhausted {_ _}.

Notation "x <- m ;; k" := (bind m (fun x => k))
  (at level 100, m at next level, right associativity).
Notation "m ;;; k" := (bind m (fun _ => k))
  (at level 100, right associativity).

Section MonadOps.
Context `{Hp : Helpers}.

(** [xs.map(f)] for an effectful [f]: left to right *)
Fixpoint mapM {A B} (f : A -> M B) (xs : list A) : M (list B) :=
  match xs with
  | [] => ret []
  | x :: xs' => y <- f x ;; ys <- mapM f xs' ;; ret (y :: ys)
  end.

(** [a ?? b] on computations: [b] runs only when [a] gave [undefined] *)
Definition orElse {A} (a : M (option A)) (b : M (option A)) : M (option A) :=
  r <- a ;; match r with Some x => ret (Some x) | None => b end.

End MonadOps.

(** ** Small JavaScript idioms *)

(** truthiness of a number that may be [undefined] *)
Definition truthyId (i : option nat) : bool :=
  match i with Some (S _) => true | _ => false end.

(** truthiness of a string that may be [undefined] *)
Definition truthyName (s : option string) : bool :=
  match s with Some "" | None => false | Some _ => true end.

(** [a || b] on ids *)
Definition orId (a b : option nat) : option nat := if truthyId a then a else b.

(** [a || b] on names *)
Definition orName (a b : option string) : option string := if truthyName a then a else b.

(** the property key a name that may be [undefined] is turned into *)
Definition keyOf (n : option string) : string := default "undefined" n.

Definition newline : string := String "010"%char "".

(** [parts.join('\n')] *)
Fixpoint joinLines (parts : list string) : string :=
  match parts with
  | [] => ""
  | [p] => p
  | p :: rest => p +:+ newline +:+ joinLines rest
  end.

(** [types.pop()] *)
Definition pop {A} (l : list A) : list A := removelast l.

Definition isDefined {A} (o : option A) : bool :=
  match o with Some _ => true | None => false end.

(** [xs?.[0]] *)
Definition first {A} (xs : option (list A)) : option A := xs ≫= head.

(** [xs.includes(x)] *)
Definition includes (xs : list (option nat)) (x : option nat) : bool := bool_decide (x ∈ xs).

(** ** The walk *)

(** The functions through which the walk calls itself. *)
Class Walk `{Hp : Helpers} := {
  includeType : Obj -> M TypeModel;
  getTypeModel : Obj -> option string -> M TypeModel;
  includeAnonymous : Obj -> M TypeModel;
  getAllPropIds : list TypeModel -> M (list (option nat));
}.

Section Visit.
Context `{Orc : Oracle} `{Hp : Helpers} `{W : !Walk}.

Definition allowedBaseTypes : list string := ["object"; "class"].

Definition isClassOrObject (type : option TypeModel) : bool :=
  match type with
  | Some t => bool_decide (kind t ∈ allowedBaseTypes)
  | None => false
  end.

Definition getTypeArguments (type : Obj) : M (list TypeModel) :=
  match typeArguments type with
  | Some ts => mapM includeType ts
  | None => ret []
  end.

(** [symbol?.declarations?.[0]] *)
Definition declarationOf (sym : option Obj) : option Obj :=
  s ← sym; first (declarations s).

Definition getDefaultTypeId (type : Obj) : option nat :=
  decl ← declarationOf (symbol type);
  defaultNode ← default_ decl;
  typeId (getTypeAtLocation defaultNode).

Definition getComment (sym : option Obj) : option string :=
  (fun s => joinLines (getDocumentationComment s)) <$> sym.

Definition getKeyOfType (type : Obj) : M TypeModel :=
  v <- includeType type ;;
  ret (TPrefix "keyof" v).

Definition getUnion (types : list Obj) : M TypeModel :=
  ts <- mapM includeType types ;;
  ret (TUnion ts).

(** [context.checker.getTypeAtLocation(node)] where [node] may be [undefined] *)
Definition getTypeAtLocationOf (node : option Obj) : Obj :=
  match node with
  | Some n => getTypeAtLocation n
  | None => checkerErrorType
  end.

(** [context.checker.getTypeFromTypeNode(node)] where [node] may be [undefined] *)
Definition getTypeFromTypeNodeOf (node : option Obj) : Obj :=
  match node with
  | Some n => getTypeFromTypeNode n
  | None => checkerErrorType
  end.

Definition includeNode (type : option Obj) : M (option TypeModel) :=
  if isKeyOfType type then
    n <- need type ;;
    r <- getKeyOfType (getTypeFromTypeNodeOf (type_ n)) ;;
    ret (Some r)
  else if isUnionType type then
    n <- need type ;;
    ts <- need (types n) ;;
    r <- getUnion (map getTypeFromTypeNode ts) ;;
    ret (Some r)
  else ret None.

Definition includeConstraint (type : Obj) : M (option TypeModel) :=
  sym <- need (symbol type) ;;
  let decl := first (declarations sym) in
  let c := decl ≫= constraint in
  let constraint' :=
    match c ≫= type_ with
    | Some t => Some t
    | None => getConstraint type
    end in
  if isKeyOfType c then
    c' <- need c ;;
    r <- getKeyOfType (getTypeAtLocationOf (type_ c')) ;;
    ret (Some r)
  else
    match c with
    | Some c' => r <- includeType (getTypeAtLocation c') ;; ret (Some r)
    | None =>
        match constraint' with
        | Some t => r <- includeType t ;; ret (Some r)
        | None => ret None
        end
    end.

Definition includeDefaultTypeArgument (type : Obj) : M (option TypeModel) :=
  sym <- need (symbol type) ;;
  match first (declarations sym) ≫= default_ with
  | Some defaultNode => r <- includeType (getTypeAtLocation defaultNode) ;; ret (Some r)
  | None => ret None
  end.

Definition includeTypeParameter (type : Obj) : M (option TypeModel) :=
  match symbol type with
  | Some sym =>
      c <- includeConstraint type ;;
      d <- includeDefaultTypeArgument type ;;
      ret (Some (TTypeParameter (TRef [] (Some (symbolName sym)) None) c d))
  | None => ret None
  end.

Definition getTypeParameters (type : Obj) : M (list (option TypeModel)) :=
  match typeParameters type with
  | Some ts => mapM includeTypeParameter ts
  | None => ret []
  end.

Definition includeAnonymousNode (type : option Obj) : M TypeModel :=
  r <- includeNode type ;;
  match r with
  | Some m => ret m
  | None => includeAnonymous (getTypeFromTypeNodeOf type)
  end.

Definition getParameterType (type : option Obj) : M TypeModel :=
  if isIdentifierType type then
    n <- need type ;;
    tn <- need (typeName n) ;;
    getTypeModel (getTypeAtLocation n) (text tn)
  else if isInferType type then
    n <- need type ;;
    tp <- need (typeParameter n) ;;
    sym <- need (symbol tp) ;;
    p <- includeType (getDeclaredTypeOfSymbol sym) ;;
    ret (TInfer p)
  else includeAnonymousNode type.

Definition getFunctionParameters (params : list (option Obj)) : M (list TypeModel) :=
  mapM (fun param =>
          p <- need param ;;
          decl <- need (valueDeclaration p) ;;
          v <- getParameterType (type_ decl) ;;
          ret (TParameter (symbolName p) "" (isDefined (dotDotDotToken decl))
                 (isDefined (questionToken decl)) v)) params.

Definition getFunctionType (sign : Obj) : M TypeModel :=
  ts <- getTypeParameters sign ;;
  ps <- getFunctionParameters (map Some (getParameters sign)) ;;
  r <- includeType (getReturnType sign) ;;
  ret (TFunction ts ps r None).

(** [{ ...type, kind: 'constructor' }] *)
Definition asConstructor (m : TypeModel) : TypeModel :=
  match m with
  | TFunction ts ps r c => TConstructor ts ps r c
  | _ => m
  end.

Definition getConstructorTypes (type : Obj) : M (list TypeModel) :=
  match getConstructors type with
  | Some ctors =>
      mapM (fun ctor =>
              signature <- need (getSignatureFromDeclaration ctor) ;;
              f <- getFunctionType signature ;;
              ret (asConstructor f)) ctors
  | None => ret []
  end.

Definition getPropValue (prop : Obj) : M TypeModel :=
  ds <- need (declarations prop) ;;
  decl <- need (head ds) ;;
  n <- includeNode (type_ decl) ;;
  type <- match n with
          | Some m => ret m
          | None => includeType (getTypeOfSymbolAtLocation prop decl)
          end ;;
  if isMethodSignature decl then
    nodes <- need (parameters decl) ;;
    ps <- getFunctionParameters (map symbol nodes) ;;
    ts <- getTypeParameters decl ;;
    ret (TFunction ts ps type None)
  else ret type.

(** [prop.id || prop.target?.id] *)
Definition propId (prop : Obj) : option nat :=
  orId (symbolId prop) (symbolTarget prop ≫= symbolId).

Definition getPropType (prop : Obj) : M TypeModel :=
  valueType <- getPropValue prop ;;
  ret (TProp (symbolName prop) (getModifiers prop) (propId prop)
         (hasFlag (symbolFlags prop) SymbolFlags.Optional) (getComment (Some prop)) valueType).

Definition getIndexType (type : Obj) (keyType : TypeModel) (info : option Obj) : M TypeModel :=
  v <- includeType type ;;
  ret (TIndex [TParameter (getKeyName info) "" false false keyType] false v).

(** [while (types.length > maxTypes) types.pop()]; the loop body runs at most
    [types.length] times, which is the [steps] it is started with. *)
Fixpoint popDownTo (steps : nat) (maxTypes : Z) (types : list TypeModel) : list TypeModel :=
  match steps with
  | O => types
  | S n =>
      if Z.of_nat (length types) >? maxTypes
      then popDownTo n maxTypes (pop types)
      else types
  end.

(** [for (let i = typeParameterIds.length; i--; ) { ... }] entered with the
    counter at [i] *)
Fixpoint dropDefaults (i : nat) (typeParameterIds typeArgumentIds : list (option nat))
    (types : list TypeModel) : list TypeModel :=
  match i with
  | O => types
  | S i' =>
      let id := mjoin (typeParameterIds !! i') in
      if negb (truthyId id) || negb (bool_decide (id = mjoin (typeArgumentIds !! i')))
      then types
      else dropDefaults i' typeParameterIds typeArgumentIds (pop types)
  end.

Definition maxTypesOf (rs : gmap string (option TypeModel)) (refName : option string) : Z :=
  default MAX_SAFE_INTEGER (mjoin (rs !! keyOf refName) ≫= typesLength).

Definition typeParameterIdsOf (decl : option Obj) : list (option nat) :=
  default [] (map getDefaultTypeId <$> (decl ≫= typeParameters)).

Definition typeArgumentIdsOf (type : Obj) : list (option nat) :=
  match aliasTypeArguments type with
  | Some l => map typeId l
  | None => default [] (map typeId <$> typeArguments type)
  end.

Definition normalizeTypeParameters (type : Obj) (decl : option Obj)
    (types : list TypeModel) (refName : option string) : M (list TypeModel) :=
  rs <- getRefs ;;
  let maxTypes := maxTypesOf rs refName in
  let typeParameterIds := typeParameterIdsOf decl in
  let typeArgumentIds := typeArgumentIdsOf type in
  let types := popDownTo (length types) maxTypes types in
  ret (dropDefaults (length typeParameterIds) typeParameterIds typeArgumentIds types).

Definition includeRef (type : Obj) (refName : option string) (external : option Obj)
    : M TypeModel :=
  decl <- match symbol type with
          | Some sym => ds <- need (declarations sym) ;; ret (head ds)
          | None => ret None
          end ;;
  types <- getTypeArguments type ;;
  ts <- normalizeTypeParameters type decl types refName ;;
  ret (TRef ts refName external).

Definition includeHiddenAnonymous (type : Obj) : M (option TypeModel) :=
  let name := symbolName <$> symbol type in
  if isAnonymous name then
    let parent' := declarationOf (symbol type) ≫= parent in
    let hiddenType := (((parent' ≫= type_) ≫= parent) ≫= parent) ≫= parent in
    if isHiddenAnonymousType hiddenType then
      let hiddenTypeName := symbolName <$> (hiddenType ≫= symbol) in
      if truthyName hiddenTypeName then
        h <- need hiddenType ;;
        r <- includeType h ;;
        ret (Some r)
      else ret None
    else ret None
  else ret None.

Definition includeExternal (type : Obj) : M (option TypeModel) :=
  if isGlobal (symbol type) then
    let globalName := getGlobalName (symbol type) in
    r <- includeRef type (Some globalName) None ;;
    ret (Some r)
  else
    let name := symbolName <$> symbol type in
    let fn := (declarationOf (symbol type) ≫= parent) ≫= sourceFileName in
    if isBaseLib fn then
      r <- includeRef type name (Some type) ;;
      ret (Some r)
    else
      let lib := getLib fn in
      if truthyName lib then
        if isAnonymous name then includeHiddenAnonymous type
        else if negb (isAnonymousObject type) then
          binding <- withImports (fun u => createBinding u (keyOf lib) name) ;;
          r <- includeRef type (Some binding) (Some type) ;;
          ret (Some r)
        else ret None
      else ret None.

Definition includeMember (type : Obj) : M TypeModel :=
  sym <- need (symbol type) ;;
  v <- includeAnonymous type ;;
  ret (TMember (symbolName sym) v (getComment (symbol type))).

(** [flag && type.isUnion()] *)
Definition andIsUnion (flag : bool) (type : Obj) : M bool :=
  if flag then need (isUnion type) else ret false.

Definition includeBasic (type : Obj) : M (option TypeModel) :=
  if hasFlag (flags type) TypeFlags.Any then ret (Some TAny)
  else if hasFlag (flags type) TypeFlags.Unknown then ret (Some TUnknown)
  else if bool_decide (isStringLiteral type = Some true) then ret (Some (TLiteral (value type)))
  else if bool_decide (isNumberLiteral type = Some true) then ret (Some (TLiteral (value type)))
  else if hasFlag (flags type) TypeFlags.BooleanLiteral then
    ret (Some (TLiteral (Some (JsBoolean (bool_decide (intrinsicName type = Some "true"))))))
  else
    enumLiteral <- andIsUnion (hasFlag (flags type) TypeFlags.EnumLiteral) type ;;
    if enumLiteral then
      sym <- need (symbol type) ;;
      members <- need (types type) ;;
      values <- mapM includeMember members ;;
      ret (Some (TEnumLiteral (symbolFlags sym =? SymbolFlags.ConstEnum)
                   (getComment (symbol type)) values))
    else
      enum <- andIsUnion (hasFlag (flags type) TypeFlags.Enum) type ;;
      if enum then
        members <- need (types type) ;;
        values <- mapM includeMember members ;;
        ret (Some (TEnum (getComment (symbol type)) values))
      else if isBigIntLiteral type then ret (Some (TBigIntLiteral (value type)))
      else if hasFlag (flags type) TypeFlags.String then ret (Some TString)
      else if hasFlag (flags type) TypeFlags.Boolean then ret (Some TBoolean)
      else if hasFlag (flags type) TypeFlags.Number then ret (Some TNumber)
      else if hasFlag (flags type) TypeFlags.BigInt then ret (Some TBigInt)
      else if hasFlag (flags type) TypeFlags.ESSymbol then ret (Some TEsSymbol)
      else if hasFlag (flags type) TypeFlags.UniqueESSymbol then ret (Some TUniqueEsSymbol)
      else if hasFlag (flags type) TypeFlags.Void then ret (Some TVoid)
      else if hasFlag (flags type) TypeFlags.Undefined then ret (Some TUndefined)
      else if hasFlag (flags type) TypeFlags.Null then ret (Some TNull)
      else if hasFlag (flags type) TypeFlags.Never then ret (Some TNever)
      else if isConditionalType type then
        r <- need (root type) ;;
        e <- need (extendsType r) ;;
        extends <- includeType e ;;
        c <- need (checkType r) ;;
        check <- includeType c ;;
        t <- need (trueType r) ;;
        primary <- includeType t ;;
        f <- need (falseType r) ;;
        alternate <- includeType f ;;
        ret (Some (TConditional extends check primary alternate))
      else if isSubstitutionType type then
        v <- need (typeVariable type) ;;
        variable <- includeType v ;;
        ret (Some (TSubstitution variable))
      else if hasFlag (flags type) TypeFlags.NonPrimitive then
        ret (Some (TNonPrimitive (intrinsicName type)))
      else ret None.

(** the callback of [type.types?.map(...)] in [includeInheritedTypes] *)
Definition heritageItem (t : Obj) : M TypeModel :=
  let ti := getTypeAtLocation t in
  res <- includeType ti ;;
  if negb (isRefNode res) && isIdentifier (expression t) then
    e <- need (expression t) ;;
    ret (TRef [] (text e) (Some ti))
  else ret res.

(** the loop over the heritage clauses; [result] is [(extends, implements)] *)
Fixpoint includeHeritage (clauses : list Obj) (result : list TypeModel * list TypeModel)
    : M (list TypeModel * list TypeModel) :=
  match clauses with
  | [] => ret result
  | clause :: rest =>
      items <- match types clause with
               | Some ts => mapM heritageItem ts
               | None => ret []
               end ;;
      includeHeritage rest
        (if bool_decide (token clause = Some ExtendsKeyword)
         then (fst result ++ items, snd result)
         else if bool_decide (token clause = Some ImplementsKeyword)
         then (fst result, snd result ++ items)
         else result)
  end.

Definition includeInheritedTypes (type : Obj) : M (list TypeModel * list TypeModel) :=
  match declarationOf (symbol type) with
  | Some decl =>
      if isInterfaceDeclaration decl || isClassDeclaration decl
      then includeHeritage (default [] (heritageClauses decl)) ([], [])
      else ret ([], [])
  | None => ret ([], [])
  end.

Definition refNameOf (m : TypeModel) : option string :=
  match m with TRef _ n _ => n | _ => None end.

Definition externalOf (m : TypeModel) : option Obj :=
  match m with TRef _ _ e => e | _ => None end.

Definition propsOf (m : TypeModel) : list TypeModel :=
  match m with
  | TInterface _ _ ps _ _ | TClass _ _ ps _ _ => ps
  | _ => []
  end.

Definition extendsOf (m : TypeModel) : list TypeModel :=
  match m with
  | TInterface es _ _ _ _ | TClass es _ _ _ _ => es
  | _ => []
  end.

(** [(prop as any).id] of a member stored in the registry *)
Definition memberId (m : TypeModel) : option nat :=
  match m with TProp _ _ i _ _ _ => i | _ => None end.

(** The body of [getAllPropIds]: the loop over [types] is the recursion on
    the list, the call on [baseType.extends] goes through [Walk]. *)
Fixpoint getAllPropIdsBody (types : list TypeModel) : M (list (option nat)) :=
  match types with
  | [] => ret []
  | type :: rest =>
      rs <- getRefs ;;
      let baseType := mjoin (rs !! keyOf (refNameOf type)) in
      here <- (if isClassOrObject baseType then
                 let base := default TUnidentified baseType in
                 inheritedIds <- getAllPropIds (extendsOf base) ;;
                 ret (List.filter truthyId (map memberId (propsOf base)) ++ inheritedIds)
               else
                 match externalOf type with
                 | Some ext => ret (map propId (default [] (getProperties ext)))
                 | None => ret []
                 end) ;;
      more <- getAllPropIdsBody rest ;;
      ret (here ++ more)
  end.

(** [inherited.some(m => m.external?.getXIndexType() === indexType)] *)
Definition inheritsIndex (getIndex : Obj -> option Obj) (inherited : list TypeModel)
    (indexType : Obj) : bool :=
  existsb (fun m => bool_decide ((externalOf m ≫= getIndex) = Some indexType)) inherited.

(** the two [if]s that push an [index] member *)
Definition includeIndexMember (getIndex : Obj -> option Obj) (inherited : list TypeModel)
    (type : Obj) (keyType : TypeModel) (info : option Obj) : M (list TypeModel) :=
  match getIndex type with
  | Some indexType =>
      if negb (inheritsIndex getIndex inherited indexType)
      then m <- getIndexType indexType keyType info ;; ret [m]
      else ret []
  | None => ret []
  end.

Definition includeStandardObject (type : Obj) : M TypeModel :=
  inheritedTypes <- includeInheritedTypes type ;;
  let inherited := fst inheritedTypes ++ snd inheritedTypes in
  targets <- getAllPropIds inherited ;;
  props <- need (getProperties type) ;;
  own <- mapM getPropType
           (List.filter (fun prop => negb (includes targets (propId prop))) props) ;;
  numberIndex <- includeIndexMember getNumberIndexType inherited type TNumber
                   (declaredNumberIndexInfo type) ;;
  stringIndex <- includeIndexMember getStringIndexType inherited type TString
                   (declaredStringIndexInfo type) ;;
  calls <- match getCallSignatures type with
           | Some signs => mapM getFunctionType signs
           | None => ret []
           end ;;
  ts <- getTypeParameters type ;;
  ret (TInterface (fst inheritedTypes) (getComment (symbol type))
         (own ++ numberIndex ++ stringIndex ++ calls) ts None).

(** [{ ...obj, implements, kind: 'class' }] with the members pushed on [obj.props] *)
Definition asClass (obj : TypeModel) (more implements : list TypeModel) : TypeModel :=
  match obj with
  | TInterface es c ps ts _ => TClass es c (ps ++ more) ts implements
  | _ => obj
  end.

Definition includeClassObject (type : Obj) : M TypeModel :=
  obj <- includeStandardObject type ;;
  inheritedTypes <- includeInheritedTypes type ;;
  sym <- need (symbol type) ;;
  statics <- mapM (fun m =>
                     decl <- need (valueDeclaration m) ;;
                     s <- need (symbol decl) ;;
                     getPropType s)
               (List.filter (fun m => negb (hasFlag (symbolFlags m) SymbolFlags.Prototype))
                  (getExportsOfModule sym)) ;;
  ctors <- getConstructorTypes type ;;
  ret (asClass obj (statics ++ ctors) (snd inheritedTypes)).

Definition includeMappedObject (type : Obj) : M TypeModel :=
  tp <- need (typeParameter type) ;;
  tsym <- need (symbol tp) ;;
  tds <- need (declarations tsym) ;;
  tdecl <- need (head tds) ;;
  parent' <- need (parent tdecl) ;;
  let index := typeParameter parent' in
  sym <- need (symbol type) ;;
  ds <- need (declarations sym) ;;
  decl <- need (head ds) ;;
  let declType := type_ decl in
  let valueType := getTypeFromTypeNodeOf declType in
  index' <- need index ;;
  isym <- need (symbol index') ;;
  c <- includeConstraint index' ;;
  v <- includeType valueType ;;
  ret (TInterface [] (getComment (symbol type)) [] []
         (Some (TMapped (symbolName isym) c (isDefined (questionToken parent')) v))).

Definition includeObject (type : Obj) : M (option TypeModel) :=
  if isObjectType type then
    if bool_decide (objectFlags type = Some ObjectFlags.Mapped) then
      r <- includeMappedObject type ;; ret (Some r)
    else if bool_decide (objectFlags type
                         = Some (Z.lor ObjectFlags.Class ObjectFlags.Reference)) then
      r <- includeClassObject type ;; ret (Some r)
    else
      r <- includeStandardObject type ;; ret (Some r)
  else ret None.

Definition includeIndex (type : option Obj) : M (option TypeModel) :=
  match type with
  | Some t =>
      if flags t =? TypeFlags.TypeParameter then
        r <- includeType t ;; ret (Some r)
      else if flags t =? TypeFlags.Index then
        operand <- need (type_ t) ;;
        r <- getKeyOfType operand ;; ret (Some r)
      else ret None
  | None => ret None
  end.

Definition includeCombinator (type : Obj) : M (option TypeModel) :=
  if isTupleType type then
    elements <- need (typeArguments type) ;;
    ts <- mapM includeType elements ;;
    ret (Some (TTuple ts))
  else if isReferenceType type then
    sym <- need (symbol type) ;;
    ts <- getTypeArguments type ;;
    ret (Some (TRef ts (Some (symbolName sym)) (Some type)))
  else if bool_decide (isUnion type = Some true) then
    members <- need (types type) ;;
    r <- getUnion members ;; ret (Some r)
  else if bool_decide (isIntersection type = Some true) then
    members <- need (types type) ;;
    ts <- mapM includeType members ;;
    ret (Some (TIntersection ts))
  else if isIndexType type then
    index <- includeIndex (indexType type) ;;
    object <- match objectType type with
              | Some o => r <- includeType o ;; ret (Some r)
              | None => ret None
              end ;;
    ret (Some (TIndexedAccess index object))
  else ret None.

Definition includeReference (type : Obj) : M (option TypeModel) :=
  if bool_decide (nodeKind type = Some TypeAliasDeclaration) then
    ts <- getTypeParameters type ;;
    child <- getParameterType (type_ type) ;;
    ret (Some (TAlias (getComment (symbol type)) ts child))
  else ret None.

Definition includeNamed (type : Obj) : M (option TypeModel) :=
  orElse (includeBasic type) (orElse (includeObject type) (includeReference type)).

(** [cb] reads its argument at once, so an [undefined] target throws there. *)
Definition makeRef (type : Obj) (name : string) (cb : Obj -> M (option TypeModel))
    : M TypeModel :=
  let refType := type in
  rs <- getRefs ;;
  match rs !! name with
  | None =>
      setRef name (Some (placeholder name)) ;;;
      type <- (if isObjectType type && isReferenceType type
               then need (target type) else ret type) ;;
      node <- cb type ;;
      setRef name node
  | Some _ => ret tt
  end ;;;
  includeRef refType (Some name) None.

Definition makeAliasRef (type : Obj) (name : string) : M TypeModel :=
  asym <- need (aliasSymbol type) ;;
  ds <- need (declarations asym) ;;
  decl <- need (head ds) ;;
  ext <- includeExternal decl ;;
  name <- match ext with
          | Some (TRef _ refName _) => ret refName
          | _ =>
              rs <- getRefs ;;
              match rs !! name with
              | None =>
                  setRef name (Some (placeholder name)) ;;;
                  ts <- match typeParameters decl with
                        | Some l => mapM includeTypeParameter l
                        | None => ret []
                        end ;;
                  child <- includeAnonymous (getTypeAtLocation decl) ;;
                  setRef name (Some (TAlias (getComment (symbol decl)) ts child))
              | Some _ => ret tt
              end ;;;
              ret (Some name)
          end ;;
  types <- match aliasTypeArguments type with
           | Some l => mapM includeType l
           | None => ret []
           end ;;
  ts <- normalizeTypeParameters type (Some decl) types name ;;
  ret (TRef ts name None).

Definition includeAnonymousBody (type : Obj) : M TypeModel :=
  r <- orElse (includeBasic type)
         (orElse (includeCombinator type)
            (orElse (includeHiddenAnonymous type) (includeObject type))) ;;
  ret (default TUnidentified r).

(** [type.aliasSymbol.id !== type.symbol.id], with [!type.symbol] before it *)
Definition aliasDiffers (type : Obj) : bool :=
  negb (isDefined (symbol type))
  || negb (bool_decide ((aliasSymbol type ≫= symbolId) = (symbol type ≫= symbolId))).

Definition getTypeModelBody (type : Obj) (name : option string) : M TypeModel :=
  if truthyName name then
    if isDefined (aliasSymbol type) && aliasDiffers type then makeAliasRef type (keyOf name)
    else
      ext <- includeExternal type ;;
      match ext with
      | Some m => ret m
      | None =>
          if negb (isAnonymous name) && negb (isAnonymousObject type)
          then makeRef type (keyOf name) includeNamed
          else includeAnonymous type
      end
  else includeAnonymous type.

Definition includeTypeBody (type : Obj) : M TypeModel :=
  if bool_decide (stringsOnly type = Some false) then
    operand <- need (type_ type) ;;
    v <- includeType operand ;;
    ret (TPrefix "keyof" v)
  else
    let alias := symbolName <$> aliasSymbol type in
    getTypeModel type (orName alias (symbolName <$> symbol type)).

Definition includeExportedType (type : Obj) : M unit :=
  sym <- need (symbol type) ;;
  let name := symbolName sym in
  node <- includeType type ;;
  if negb (isRefNode node) then setRef name (Some node) else ret tt.

End Visit.

(** ** Closing the recursion: [fuel] bounds the depth of the calls through [Walk] *)

Fixpoint walk `{Orc : Oracle} `{Hp : Helpers} (fuel : nat) : Walk :=
  match fuel with
  | O => {| includeType := fun _ => exhausted;
            getTypeModel := fun _ _ => exhausted;
            includeAnonymous := fun _ => exhausted;
            getAllPropIds := fun _ => exhausted |}
  | S n => {| includeType := @includeTypeBody _ _ (walk n);
              getTypeModel := @getTypeModelBody _ _ (walk n);
              includeAnonymous := @includeAnonymousBody _ _ (walk n);
              getAllPropIds := @getAllPropIdsBody _ _ (walk n) |}
  end.


(** Running a request of the driver: the walk at depth [fuel]. *)
Definition runIncludeType `{Orc : Oracle} `{Hp : Helpers} (fuel : nat) (type : Obj) : M TypeModel :=
  @includeType _ (walk fuel) type.

(** * Concrete programs

    A program the checker has analysed is given as a heap of JavaScript
    objects: each object is a list of properties, a method being the
    property that holds its result.  [Demo.oracle] reads such a heap. *)

Module Demo.

Inductive Val :=
| VZ (z : Z)
| VN (n : nat)
| VB (b : bool)
| VS (s : string)
| VO (o : Obj)
| VL (l : list Obj)
| VSL (l : list string)
| VJ (v : JsValue).

Definition Heap := list (Obj * list (string * Val)).

Definition prop (h : Heap) (o : Obj) (p : string) : option Val :=
  match List.find (fun e => Nat.eqb (fst e) o) h with
  | Some (_, fields) => snd <$> List.find (fun f => String.eqb (fst f) p) fields
  | None => None
  end.

Definition asZ (v : option Val) : option Z := match v with Some (VZ z) => Some z | _ => None end.
Definition asN (v : option Val) : option nat := match v with Some (VN n) => Some n | _ => None end.
Definition asB (v : option Val) : option bool := match v with Some (VB b) => Some b | _ => None end.
Definition asS (v : option Val) : option string := match v with Some (VS s) => Some s | _ => None end.
Definition asO (v : option Val) : option Obj := match v with Some (VO o) => Some o | _ => None end.
Definition asL (v : option Val) : option (list Obj) := match v with Some (VL l) => Some l | _ => None end.
Definition asSL (v : option Val) : option (list string) :=
  match v with Some (VSL l) => Some l | _ => None end.
Definition asJ (v : option Val) : option JsValue := match v with Some (VJ j) => Some j | _ => None end.

(** Syntax kinds (the numbering of one compiler version). *)
Module SyntaxKind.
Definition Identifier : Z := 78.
Definition ExtendsKeyword : Z := 93.
Definition ImplementsKeyword : Z := 116.
Definition MethodSignature : Z := 164.
Definition TypeReference : Z := 173.
Definition UnionType : Z := 182.
Definition InferType : Z := 185.
Definition TypeOperator : Z := 188.
Definition ClassDeclaration : Z := 252.
Definition InterfaceDeclaration : Z := 253.
Definition TypeAliasDeclaration : Z := 254.
End SyntaxKind.

Definition hasKind (h : Heap) (k : Z) (o : Obj) : bool :=
  bool_decide (asZ (prop h o "kind") = Some k).

(** The object the checker answers with when it has nothing better. *)
Definition errorType : Obj := 0%nat.

Definition oracle (h : Heap) : Oracle := {|
  typeId o := asN (prop h o "id");
  flags o := default 0 (asZ (prop h o "flags"));
  objectFlags o := asZ (prop h o "objectFlags");
  symbol o := asO (prop h o "symbol");
  aliasSymbol o := asO (prop h o "aliasSymbol");
  aliasTypeArguments o := asL (prop h o "aliasTypeArguments");
  typeArguments o := asL (prop h o "typeArguments");
  typeParameters o := asL (prop h o "typeParameters");
  target o := asO (prop h o "target");
  stringsOnly o := asB (prop h o "stringsOnly");
  type_ o := asO (prop h o "type");
  types o := asL (prop h o "types");
  value o := asJ (prop h o "value");
  intrinsicName o := asS (prop h o "intrinsicName");
  root o := asO (prop h o "root");
  extendsType o := asO (prop h o "extendsType");
  checkType o := asO (prop h o "checkType");
  trueType o := asO (prop h o "trueType");
  falseType o := asO (prop h o "falseType");
  typeVariable o := asO (prop h o "typeVariable");
  indexType o := asO (prop h o "indexType");
  objectType o := asO (prop h o "objectType");
  typeParameter o := asO (prop h o "typeParameter");
  nodeKind o := asZ (prop h o "kind");
  isStringLiteral o := asB (prop h o "isStringLiteral()");
  isNumberLiteral o := asB (prop h o "isNumberLiteral()");
  isUnion o := asB (prop h o "isUnion()");
  isIntersection o := asB (prop h o "isIntersection()");
  getProperties o := asL (prop h o "getProperties()");
  getStringIndexType o := asO (prop h o "getStringIndexType()");
  getNumberIndexType o := asO (prop h o "getNumberIndexType()");
  getCallSignatures o := asL (prop h o "getCallSignatures()");
  getConstraint o := asO (prop h o "getConstraint()");
  declaredNumberIndexInfo o := asO (prop h o "declaredNumberIndexInfo");
  declaredStringIndexInfo o := asO (prop h o "declaredStringIndexInfo");
  default_ o := asO (prop h o "default");
  constraint o := asO (prop h o "constraint");
  parent o := asO (prop h o "parent");
  heritageClauses o := asL (prop h o "heritageClauses");
  token o := asZ (prop h o "token");
  expression o := asO (prop h o "expression");
  text o := asS (prop h o "text");
  typeName o := asO (prop h o "typeName");
  questionToken o := asO (prop h o "questionToken");
  dotDotDotToken o := asO (prop h o "dotDotDotToken");
  parameters o := asL (prop h o "parameters");
  sourceFileName o := asS (prop h o "getSourceFile().fileName");
  isIdentifier o := match o with Some n => hasKind h SyntaxKind.Identifier n | None => false end;
  isInterfaceDeclaration := hasKind h SyntaxKind.InterfaceDeclaration;
  isClassDeclaration := hasKind h SyntaxKind.ClassDeclaration;
  isMethodSignature := hasKind h SyntaxKind.MethodSignature;
  symbolName o := default "" (asS (prop h o "name"));
  symbolId o := asN (prop h o "id");
  symbolFlags o := default 0 (asZ (prop h o "flags"));
  declarations o := asL (prop h o "declarations");
  valueDeclaration o := asO (prop h o "valueDeclaration");
  symbolTarget o := asO (prop h o "target");
  getDocumentationComment o := default [] (asSL (prop h o "getDocumentationComment()"));
  getParameters o := default [] (asL (prop h o "getParameters()"));
  getReturnType o := default errorType (asO (prop h o "getReturnType()"));
  getTypeAtLocation o := default errorType (asO (prop h o "getTypeAtLocation"));
  getTypeFromTypeNode o := default errorType (asO (prop h o "getTypeFromTypeNode"));
  checkerErrorType := errorType;
  getDeclaredTypeOfSymbol o := default errorType (asO (prop h o "getDeclaredTypeOfSymbol"));
  getTypeOfSymbolAtLocation o _ := default errorType (asO (prop h o "getTypeOfSymbolAtLocation"));
  getSignatureFromDeclaration o := asO (prop h o "getSignatureFromDeclaration");
  getExportsOfModule o := default [] (asL (prop h o "getExportsOfModule"));
  TypeAliasDeclaration := SyntaxKind.TypeAliasDeclaration;
  ExtendsKeyword := SyntaxKind.ExtendsKeyword;
  ImplementsKeyword := SyntaxKind.ImplementsKeyword;
|}.

(** Helpers for the concrete programs: the type guards test the flags the
    compiler sets, the node guards test the syntax kind; files named
    [lib.d.ts] are the base library and files under [node_modules/] belong
    to the library named by the next path segment. *)
Definition helpers (h : Heap) : Helpers :=
  let O := oracle h in {|
  Imports := list string;
  createBinding u lib name := (lib +:+ "." +:+ default "undefined" name, u ++ [lib]);
  getLib fn :=
    match fn with
    | Some f => if String.prefix "node_modules/" f then Some (String.substring 13 3 f) else None
    | None => None
    end;
  isBaseLib fn := bool_decide (fn = Some "lib.d.ts");
  isGlobal sym := match sym with Some s => default false (asB (prop h s "global")) | None => false end;
  getGlobalName sym := match sym with Some s => symbolName s | None => "" end;
  isAnonymous name :=
    bool_decide (name = Some "__type") || bool_decide (name = Some "__object")
    || bool_decide (name = Some "__function");
  isAnonymousObject t :=
    hasFlag (flags t) TypeFlags.Object
    && hasFlag (default 0 (objectFlags t)) ObjectFlags.Anonymous;
  isObjectType t := hasFlag (flags t) TypeFlags.Object;
  isReferenceType t := hasFlag (default 0 (objectFlags t)) ObjectFlags.Reference;
  isTupleType t :=
    hasFlag (default 0 (objectFlags t)) ObjectFlags.Reference
    && hasFlag (default 0 (target t ≫= objectFlags)) ObjectFlags.Tuple;
  isIndexType t := hasFlag (flags t) TypeFlags.IndexedAccess;
  isBigIntLiteral t := hasFlag (flags t) TypeFlags.BigIntLiteral;
  isConditionalType t := hasFlag (flags t) TypeFlags.Conditional;
  isSubstitutionType t := hasFlag (flags t) TypeFlags.Substitution;
  isKeyOfType n := match n with Some o => hasKind h SyntaxKind.TypeOperator o | None => false end;
  isUnionType n := match n with Some o => hasKind h SyntaxKind.UnionType o | None => false end;
  isIdentifierType n := match n with Some o => hasKind h SyntaxKind.TypeReference o | None => false end;
  isInferType n := match n with Some o => hasKind h SyntaxKind.InferType o | None => false end;
  isHiddenAnonymousType n :=
    match n with Some o => hasKind h SyntaxKind.TypeAliasDeclaration o | None => false end;
  getKeyName info := default "index" (info ≫= fun i => asS (prop h i "keyName"));
  getConstructors _ := None;
  getModifiers _ := "";
|}.

(** a context with the given registry and no import used yet *)
Definition contextOf (h : Heap) (rs : gmap string (option TypeModel))
    : @DeclVisitorContext (helpers h) :=
  {| refs := rs; usedImports := ([] : @Imports (helpers h)) |}.

Definition emptyContext (h : Heap) : @DeclVisitorContext (helpers h) := contextOf h ∅.

(** What a run leaves behind, in a form that is easy to read off. *)
Definition registryOf {h A} (o : @Outcome (helpers h) A) : option (list (string * option TypeModel)) :=
  match o with
  | Returned _ c => Some (map_to_list (refs c))
  | _ => None
  end.

Definition resultOf {h A} (o : @Outcome (helpers h) A) : option A :=
  match o with
  | Returned a _ => Some a
  | _ => None
  end.

End Demo.

(** ** Two interfaces, one extending the other

<<
  // demo.ts
  interface Base { a: string }
  interface Derived extends Base { b: string }
>> *)

Module Inheritance.
Import Demo.

Definition stringType : Obj := 1%nat.
Definition baseType : Obj := 10%nat.
Definition derivedType : Obj := 11%nat.
Definition baseSymbol : Obj := 20%nat.
Definition derivedSymbol : Obj := 21%nat.
Definition aSymbol : Obj := 30%nat.
Definition bSymbol : Obj := 31%nat.
Definition baseDecl : Obj := 40%nat.
Definition aDecl : Obj := 41%nat.
Definition stringKeyword : Obj := 42%nat.
Definition derivedDecl : Obj := 43%nat.
Definition extendsClause : Obj := 44%nat.
Definition baseExpression : Obj := 45%nat.
Definition baseIdentifier : Obj := 46%nat.
Definition bDecl : Obj := 47%nat.
Definition sourceFile : Obj := 90%nat.

Definition heap : Heap := [
  (stringType, [("id", VN 5); ("flags", VZ TypeFlags.String); ("intrinsicName", VS "string");
                ("isStringLiteral()", VB false); ("isNumberLiteral()", VB false);
                ("isUnion()", VB false); ("isIntersection()", VB false)]);
  (baseType, [("id", VN 70); ("flags", VZ TypeFlags.Object);
              ("objectFlags", VZ ObjectFlags.Interface); ("symbol", VO baseSymbol);
              ("isStringLiteral()", VB false); ("isNumberLiteral()", VB false);
              ("isUnion()", VB false); ("isIntersection()", VB false);
              ("getProperties()", VL [aSymbol]); ("getCallSignatures()", VL [])]);
  (derivedType, [("id", VN 71); ("flags", VZ TypeFlags.Object);
                 ("objectFlags", VZ ObjectFlags.Interface); ("symbol", VO derivedSymbol);
                 ("isStringLiteral()", VB false); ("isNumberLiteral()", VB false);
                 ("isUnion()", VB false); ("isIntersection()", VB false);
                 ("getProperties()", VL [bSymbol; aSymbol]); ("getCallSignatures()", VL [])]);
  (baseSymbol, [("id", VN 101); ("name", VS "Base"); ("flags", VZ 64);
                ("declarations", VL [baseDecl])]);
  (derivedSymbol, [("id", VN 102); ("name", VS "Derived"); ("flags", VZ 64);
                   ("declarations", VL [derivedDecl])]);
  (aSymbol, [("id", VN 103); ("name", VS "a"); ("flags", VZ 4); ("declarations", VL [aDecl]);
             ("getTypeOfSymbolAtLocation", VO stringType)]);
  (bSymbol, [("id", VN 104); ("name", VS "b"); ("flags", VZ 4); ("declarations", VL [bDecl]);
             ("getTypeOfSymbolAtLocation", VO stringType)]);
  (baseDecl, [("kind", VZ SyntaxKind.InterfaceDeclaration); ("symbol", VO baseSymbol);
              ("parent", VO sourceFile)]);
  (aDecl, [("kind", VZ 163); ("symbol", VO aSymbol); ("type", VO stringKeyword);
           ("parent", VO baseDecl)]);
  (stringKeyword, [("kind", VZ 147); ("getTypeFromTypeNode", VO stringType)]);
  (derivedDecl, [("kind", VZ SyntaxKind.InterfaceDeclaration); ("symbol", VO derivedSymbol);
                 ("parent", VO sourceFile); ("heritageClauses", VL [extendsClause])]);
  (extendsClause, [("kind", VZ 286); ("token", VZ SyntaxKind.ExtendsKeyword);
                   ("types", VL [baseExpression]); ("parent", VO derivedDecl)]);
  (baseExpression, [("kind", VZ 223); ("expression", VO baseIdentifier);
                    ("getTypeAtLocation", VO baseType)]);
  (baseIdentifier, [("kind", VZ SyntaxKind.Identifier); ("text", VS "Base")]);
  (bDecl, [("kind", VZ 163); ("symbol", VO bSymbol); ("type", VO stringKeyword);
           ("parent", VO derivedDecl)]);
  (sourceFile, [("kind", VZ 297); ("getSourceFile().fileName", VS "demo.ts")])
].

End Inheritance.

(** * Notions used in the statements *)

Section Notions.
Context `{Orc : Oracle}.

(** [type.typeParameter.symbol.declarations[0].parent]: the mapped type node *)
Definition mappedDeclaration (type : Obj) : option Obj :=
  tp ← typeParameter type; s ← symbol tp; d ← first (declarations s); parent d.

End Notions.

(** ** The priority list of the primitive/literal classifier, as specified

    The cases in the order the specification gives them, what each of them
    recognizes, and the node each of them builds.  [includeBasic] above is
    the chain of [if]s of the source; the two are compared below. *)

Inductive BasicCase :=
| IsAny | IsUnknown | IsStringLiteral | IsNumberLiteral | IsBooleanLiteral
| IsEnumLiteralUnion | IsEnumUnion | IsBigIntLiteral | IsString | IsBoolean
| IsNumber | IsBigInt | IsSymbol | IsUniqueSymbol | IsVoid | IsUndefined
| IsNull | IsNever | IsConditional | IsSubstitution | IsNonPrimitive.

Definition basicPriority : list BasicCase :=
  [IsAny; IsUnknown; IsStringLiteral; IsNumberLiteral; IsBooleanLiteral;
   IsEnumLiteralUnion; IsEnumUnion; IsBigIntLiteral; IsString; IsBoolean;
   IsNumber; IsBigInt; IsSymbol; IsUniqueSymbol; IsVoid; IsUndefined;
   IsNull; IsNever; IsConditional; IsSubstitution; IsNonPrimitive].

Definition kindOfCase (k : BasicCase) : string :=
  match k with
  | IsAny => "any" | IsUnknown => "unknown"
  | IsStringLiteral | IsNumberLiteral | IsBooleanLiteral => "literal"
  | IsEnumLiteralUnion => "enumLiteral" | IsEnumUnion => "enum"
  | IsBigIntLiteral => "bigintLiteral" | IsString => "string" | IsBoolean => "boolean"
  | IsNumber => "number" | IsBigInt => "bigint" | IsSymbol => "esSymbol"
  | IsUniqueSymbol => "uniqueEsSymbol" | IsVoid => "void" | IsUndefined => "undefined"
  | IsNull => "null" | IsNever => "never" | IsConditional => "conditional"
  | IsSubstitution => "substitution" | IsNonPrimitive => "nonPrimitive"
  end.

(** the cases whose node has no sub-node *)
Definition isTerminalCase (k : BasicCase) : bool :=
  match k with
  | IsEnumLiteralUnion | IsEnumUnion | IsConditional | IsSubstitution => false
  | _ => true
  end.

Section BasicSpec.
Context `{Orc : Oracle} `{Hp : Helpers} `{W : !Walk}.

Definition recognizes (k : BasicCase) (type : Obj) : bool :=
  match k with
  | IsAny => hasFlag (flags type) TypeFlags.Any
  | IsUnknown => hasFlag (flags type) TypeFlags.Unknown
  | IsStringLiteral => bool_decide (isStringLiteral type = Some true)
  | IsNumberLiteral => bool_decide (isNumberLiteral type = Some true)
  | IsBooleanLiteral => hasFlag (flags type) TypeFlags.BooleanLiteral
  | IsEnumLiteralUnion =>
      hasFlag (flags type) TypeFlags.EnumLiteral && bool_decide (isUnion type = Some true)
  | IsEnumUnion =>
      hasFlag (flags type) TypeFlags.Enum && bool_decide (isUnion type = Some true)
  | IsBigIntLiteral => isBigIntLiteral type
  | IsString => hasFlag (flags type) TypeFlags.String
  | IsBoolean => hasFlag (flags type) TypeFlags.Boolean
  | IsNumber => hasFlag (flags type) TypeFlags.Number
  | IsBigInt => hasFlag (flags type) TypeFlags.BigInt
  | IsSymbol => hasFlag (flags type) TypeFlags.ESSymbol
  | IsUniqueSymbol => hasFlag (flags type) TypeFlags.UniqueESSymbol
  | IsVoid => hasFlag (flags type) TypeFlags.Void
  | IsUndefined => hasFlag (flags type) TypeFlags.Undefined
  | IsNull => hasFlag (flags type) TypeFlags.Null
  | IsNever => hasFlag (flags type) TypeFlags.Never
  | IsConditional => isConditionalType type
  | IsSubstitution => isSubstitutionType type
  | IsNonPrimitive => hasFlag (flags type) TypeFlags.NonPrimitive
  end.

(** first match wins *)
Definition firstMatch (type : Obj) : option BasicCase :=
  List.find (fun k => recognizes k type) basicPriority.

Definition buildBasic (k : BasicCase) (type : Obj) : M TypeModel :=
  match k with
  | IsAny => ret TAny
  | IsUnknown => ret TUnknown
  | IsStringLiteral | IsNumberLiteral => ret (TLiteral (value type))
  | IsBooleanLiteral =>
      ret (TLiteral (Some (JsBoolean (bool_decide (intrinsicName type = Some "true")))))
  | IsEnumLiteralUnion =>
      sym <- need (symbol type) ;;
      members <- need (types type) ;;
      values <- mapM includeMember members ;;
      ret (TEnumLiteral (symbolFlags sym =? SymbolFlags.ConstEnum)
             (getComment (symbol type)) values)
  | IsEnumUnion =>
      members <- need (types type) ;;
      values <- mapM includeMember members ;;
      ret (TEnum (getComment (symbol type)) values)
  | IsBigIntLiteral => ret (TBigIntLiteral (value type))
  | IsString => ret TString
  | IsBoolean => ret TBoolean
  | IsNumber => ret TNumber
  | IsBigInt => ret TBigInt
  | IsSymbol => ret TEsSymbol
  | IsUniqueSymbol => ret TUniqueEsSymbol
  | IsVoid => ret TVoid
  | IsUndefined => ret TUndefined
  | IsNull => ret TNull
  | IsNever => ret TNever
  | IsConditional =>
      r <- need (root type) ;;
      e <- need (extendsType r) ;;
      extends <- includeType e ;;
      c <- need (checkType r) ;;
      check <- includeType c ;;
      t <- need (trueType r) ;;
      primary <- includeType t ;;
      f <- need (falseType r) ;;
      alternate <- includeType f ;;
      ret (TConditional extends check primary alternate)
  | IsSubstitution =>
      v <- need (typeVariable type) ;;
      variable <- includeType v ;;
      ret (TSubstitution variable)
  | IsNonPrimitive => ret (TNonPrimitive (intrinsicName type))
  end.

End BasicSpec.

(** ** The trimming of type arguments, in closed form and as specified *)

(** How many declared parameters, going down from position [i], have a
    default whose id is set, is not [0], and is the id of the argument
    supplied at the same position. *)
Fixpoint trailingMatches (i : nat) (defaults args : list (option nat)) : nat :=
  match i with
  | O => O
  | S i' =>
      let id := mjoin (defaults !! i') in
      if truthyId id && bool_decide (id = mjoin (args !! i'))
      then S (trailingMatches i' defaults args)
      else O
  end.

(** The specification's wording of the second step: going down from the
    last declared parameter, drop the last argument when the parameter has a
    default and the argument supplied for it is that default. *)
Fixpoint dropAsSpecified (i : nat) (defaults args : list (option nat))
    (types : list TypeModel) : list TypeModel :=
  match i with
  | O => types
  | S i' =>
      match mjoin (defaults !! i') with
      | Some d =>
          if bool_decide (mjoin (args !! i') = Some d)
          then dropAsSpecified i' defaults args (removelast types)
          else types
      | None => types
      end
  end.

(** The specification's wording of the whole: truncate to the declared
    parameter count, then drop the trailing defaults. *)
Definition normalizeAsSpecified `{Orc : Oracle} (type : Obj) (decl : option Obj)
    (types : list TypeModel) : list TypeModel :=
  let defaults := typeParameterIdsOf decl in
  dropAsSpecified (length defaults) defaults (typeArgumentIdsOf type)
    (take (length defaults) types).

(** ** A generic interface with a defaulted parameter

<<
  // demo.ts
  interface Pair<T, U = string> { }
  declare const x: Pair<number, string>, y: Pair<number, boolean>

  // lib.d.ts
  interface Result<T> { }
>>
    [resultWithThis] is the reference [Result<number>] in the form the checker
    gives it when it resolves members: with the [this] type as one more type
    argument. *)

Module Generics.
Import Demo.

Definition stringType : Obj := 1%nat.
Definition numberType : Obj := 2%nat.
Definition booleanType : Obj := 3%nat.
Definition pairType : Obj := 10%nat.
Definition tType : Obj := 12%nat.
Definition uType : Obj := 13%nat.
Definition pairNumberString : Obj := 20%nat.
Definition pairNumberBoolean : Obj := 21%nat.
Definition pairSymbol : Obj := 30%nat.
Definition tSymbol : Obj := 32%nat.
Definition uSymbol : Obj := 33%nat.
Definition pairDecl : Obj := 40%nat.
Definition tDecl : Obj := 42%nat.
Definition uDecl : Obj := 43%nat.
Definition stringKeyword : Obj := 44%nat.
Definition resultType : Obj := 50%nat.
Definition resultThis : Obj := 51%nat.
Definition resultWithThis : Obj := 52%nat.
Definition resultSymbol : Obj := 53%nat.
Definition resultDecl : Obj := 54%nat.
Definition rDecl : Obj := 55%nat.
Definition rSymbol : Obj := 56%nat.
Definition rType : Obj := 57%nat.
Definition sourceFile : Obj := 90%nat.
Definition libFile : Obj := 91%nat.

Definition typeMethods : list (string * Val) :=
  [("isStringLiteral()", VB false); ("isNumberLiteral()", VB false);
   ("isUnion()", VB false); ("isIntersection()", VB false)].

Definition heap : Heap := [
  (stringType, [("id", VN 5); ("flags", VZ TypeFlags.String)] ++ typeMethods);
  (numberType, [("id", VN 6); ("flags", VZ TypeFlags.Number)] ++ typeMethods);
  (booleanType, [("id", VN 7); ("flags", VZ TypeFlags.Boolean)] ++ typeMethods);
  (pairType, [("id", VN 70); ("flags", VZ TypeFlags.Object);
              ("objectFlags", VZ (Z.lor ObjectFlags.Interface ObjectFlags.Reference));
              ("symbol", VO pairSymbol); ("target", VO pairType);
              ("typeParameters", VL [tType; uType]); ("typeArguments", VL [tType; uType]);
              ("getProperties()", VL []); ("getCallSignatures()", VL [])] ++ typeMethods);
  (tType, [("id", VN 72); ("flags", VZ TypeFlags.TypeParameter); ("symbol", VO tSymbol)]
          ++ typeMethods);
  (uType, [("id", VN 73); ("flags", VZ TypeFlags.TypeParameter); ("symbol", VO uSymbol)]
          ++ typeMethods);
  (pairNumberString, [("id", VN 74); ("flags", VZ TypeFlags.Object);
                      ("objectFlags", VZ ObjectFlags.Reference); ("symbol", VO pairSymbol);
                      ("target", VO pairType);
                      ("typeArguments", VL [numberType; stringType])] ++ typeMethods);
  (pairNumberBoolean, [("id", VN 75); ("flags", VZ TypeFlags.Object);
                       ("objectFlags", VZ ObjectFlags.Reference); ("symbol", VO pairSymbol);
                       ("target", VO pairType);
                       ("typeArguments", VL [numberType; booleanType])] ++ typeMethods);
  (pairSymbol, [("id", VN 101); ("name", VS "Pair"); ("flags", VZ 64);
                ("declarations", VL [pairDecl])]);
  (tSymbol, [("id", VN 102); ("name", VS "T"); ("flags", VZ 262144);
             ("declarations", VL [tDecl])]);
  (uSymbol, [("id", VN 103); ("name", VS "U"); ("flags", VZ 262144);
             ("declarations", VL [uDecl])]);
  (pairDecl, [("kind", VZ SyntaxKind.InterfaceDeclaration); ("symbol", VO pairSymbol);
              ("typeParameters", VL [tDecl; uDecl]); ("parent", VO sourceFile)]);
  (tDecl, [("kind", VZ 160); ("symbol", VO tSymbol); ("parent", VO pairDecl)]);
  (uDecl, [("kind", VZ 160); ("symbol", VO uSymbol); ("parent", VO pairDecl);
           ("default", VO stringKeyword)]);
  (stringKeyword, [("kind", VZ 147); ("getTypeAtLocation", VO stringType);
                   ("getTypeFromTypeNode", VO stringType)]);
  (resultType, [("id", VN 80); ("flags", VZ TypeFlags.Object);
                ("objectFlags", VZ (Z.lor ObjectFlags.Interface ObjectFlags.Reference));
                ("symbol", VO resultSymbol); ("target", VO resultType);
                ("typeParameters", VL [rType]); ("typeArguments", VL [rType]);
                ("getProperties()", VL []); ("getCallSignatures()", VL [])] ++ typeMethods);
  (resultThis, [("id", VN 81); ("flags", VZ TypeFlags.TypeParameter);
                ("symbol", VO resultSymbol); ("isThisType", VB true)] ++ typeMethods);
  (resultWithThis, [("id", VN 82); ("flags", VZ TypeFlags.Object);
                    ("objectFlags", VZ ObjectFlags.Reference); ("symbol", VO resultSymbol);
                    ("target", VO resultType);
                    ("typeArguments", VL [numberType; resultThis])] ++ typeMethods);
  (resultSymbol, [("id", VN 104); ("name", VS "Result"); ("flags", VZ 64);
                  ("declarations", VL [resultDecl])]);
  (resultDecl, [("kind", VZ SyntaxKind.InterfaceDeclaration); ("symbol", VO resultSymbol);
                ("typeParameters", VL [rDecl]); ("parent", VO libFile)]);
  (rDecl, [("kind", VZ 160); ("symbol", VO rSymbol); ("parent", VO resultDecl)]);
  (rSymbol, [("id", VN 105); ("name", VS "T"); ("flags", VZ 262144);
             ("declarations", VL [rDecl])]);
  (rType, [("id", VN 83); ("flags", VZ TypeFlags.TypeParameter); ("symbol", VO rSymbol)]
          ++ typeMethods);
  (sourceFile, [("kind", VZ 297); ("getSourceFile().fileName", VS "demo.ts")]);
  (libFile, [("kind", VZ 297); ("getSourceFile().fileName", VS "lib.d.ts")])
].

(** the registry once [Pair] has been built *)
Definition registered : @DeclVisitorContext (helpers heap) :=
  contextOf heap
    {[ "Pair" := Some (TInterface [] (Some "") []
                         [Some (TTypeParameter (TRef [] (Some "T") None) None None);
                          Some (TTypeParameter (TRef [] (Some "U") None) None (Some TString))]
                         None) ]}.

End Generics.

Section RegistryNotions.
Context `{Orc : Oracle} `{Hp : Helpers}.

(** [type.aliasSymbol.declarations[0]] *)
Definition aliasDeclaration (type : Obj) : option Obj :=
  asym ← aliasSymbol type; first (declarations asym).

(** the context once [node] is stored under [name] *)
Definition stored (name : string) (node : option TypeModel) (c : DeclVisitorContext)
    : DeclVisitorContext :=
  {| refs := <[name := node]> (refs c); usedImports := usedImports c |}.

(** the external resolution answered with a [ref] *)
Definition isExternalRef (ext : option TypeModel) : bool :=
  match ext with Some m => isRefNode m | None => false end.

(** the entries the registry holds for [name] *)
Definition entriesFor (name : string) (rs : gmap string (option TypeModel))
    : list (string * option TypeModel) :=
  filter (fun kv => kv.1 = name) (map_to_list rs).

End RegistryNotions.

Section AliasNotions.
Context `{Orc : Oracle} `{Hp : Helpers} `{W : !Walk}.

(** the node [makeAliasRef] stores under the name:
    [{ kind: 'alias', comment, types, child }] *)
Definition buildAlias (decl : Obj) : M (option TypeModel) :=
  ts <- match typeParameters decl with
        | Some l => mapM includeTypeParameter l
        | None => ret []
        end ;;
  child <- includeAnonymous (getTypeAtLocation decl) ;;
  ret (Some (TAlias (getComment (symbol decl)) ts child)).

(** the [ref] [makeAliasRef] answers with *)
Definition aliasRef (type decl : Obj) (name : option string) : M TypeModel :=
  types <- match aliasTypeArguments type with
           | Some l => mapM includeType l
           | None => ret []
           end ;;
  ts <- normalizeTypeParameters type (Some decl) types name ;;
  ret (TRef ts name None).

(** the target [makeRef] hands to its callback *)
Definition refTarget (type : Obj) : M Obj :=
  if isObjectType type && isReferenceType type then need (target type) else ret type.

End AliasNotions.

Section IndexNotions.
Context `{Orc : Oracle} `{Hp : Helpers}.

(** the condition under which [includeStandardObject] pushes an [index]
    member for the index type read by [getIndex] *)
Definition emitsIndex (getIndex : Obj -> option Obj) (inherited : list TypeModel)
    (type : Obj) : bool :=
  match getIndex type with
  | Some indexType => negb (inheritsIndex getIndex inherited indexType)
  | None => false
  end.

(** the [index] member pushed for a key type *)
Definition indexMember (keyType : TypeModel) (info : option Obj) (valueType : TypeModel)
    : TypeModel :=
  TIndex [TParameter (getKeyName info) "" false false keyType] false valueType.

Definition isPropNode (m : TypeModel) : bool :=
  match m with TProp _ _ _ _ _ _ => true | _ => false end.

Definition isFunctionNode (m : TypeModel) : bool :=
  match m with TFunction _ _ _ _ => true | _ => false end.

End IndexNotions.

(** ** An index signature, inherited

<<
  // demo.ts
  interface Dict { [key: string]: string; (): string }
  interface Sub extends Dict { }
>> *)

Module Indexed.
Import Demo.

Definition stringType : Obj := 1%nat.
Definition dictType : Obj := 10%nat.
Definition subType : Obj := 11%nat.
Definition dictSymbol : Obj := 20%nat.
Definition subSymbol : Obj := 21%nat.
Definition dictDecl : Obj := 40%nat.
Definition subDecl : Obj := 41%nat.
Definition extendsClause : Obj := 42%nat.
Definition dictExpression : Obj := 43%nat.
Definition dictIdentifier : Obj := 44%nat.
Definition indexInfo : Obj := 45%nat.
Definition callSignature : Obj := 46%nat.
Definition sourceFile : Obj := 90%nat.

Definition typeMethods : list (string * Val) :=
  [("isStringLiteral()", VB false); ("isNumberLiteral()", VB false);
   ("isUnion()", VB false); ("isIntersection()", VB false)].

Definition heap : Heap := [
  (stringType, [("id", VN 5); ("flags", VZ TypeFlags.String)] ++ typeMethods);
  (dictType, [("id", VN 70); ("flags", VZ TypeFlags.Object);
              ("objectFlags", VZ ObjectFlags.Interface); ("symbol", VO dictSymbol);
              ("getProperties()", VL []); ("getCallSignatures()", VL [callSignature]);
              ("getStringIndexType()", VO stringType);
              ("declaredStringIndexInfo", VO indexInfo)] ++ typeMethods);
  (subType, [("id", VN 71); ("flags", VZ TypeFlags.Object);
             ("objectFlags", VZ ObjectFlags.Interface); ("symbol", VO subSymbol);
             ("getProperties()", VL []); ("getCallSignatures()", VL [callSignature]);
             ("getStringIndexType()", VO stringType)] ++ typeMethods);
  (dictSymbol, [("id", VN 101); ("name", VS "Dict"); ("flags", VZ 64);
                ("declarations", VL [dictDecl])]);
  (subSymbol, [("id", VN 102); ("name", VS "Sub"); ("flags", VZ 64);
               ("declarations", VL [subDecl])]);
  (dictDecl, [("kind", VZ SyntaxKind.InterfaceDeclaration); ("symbol", VO dictSymbol);
              ("parent", VO sourceFile)]);
  (subDecl, [("kind", VZ SyntaxKind.InterfaceDeclaration); ("symbol", VO subSymbol);
             ("parent", VO sourceFile); ("heritageClauses", VL [extendsClause])]);
  (extendsClause, [("kind", VZ 286); ("token", VZ SyntaxKind.ExtendsKeyword);
                   ("types", VL [dictExpression]); ("parent", VO subDecl)]);
  (dictExpression, [("kind", VZ 223); ("expression", VO dictIdentifier);
                    ("getTypeAtLocation", VO dictType)]);
  (dictIdentifier, [("kind", VZ SyntaxKind.Identifier); ("text", VS "Dict")]);
  (indexInfo, [("keyName", VS "key"); ("type", VO stringType)]);
  (callSignature, [("getParameters()", VL []); ("getReturnType()", VO stringType)]);
  (sourceFile, [("kind", VZ 297); ("getSourceFile().fileName", VS "demo.ts")])
].

End Indexed.

(** ** A union, a tuple and a mapped type

<<
  // demo.ts
  declare const u: string | number | boolean
  declare const t: [string, number, boolean]
  type Keys = 'x' | 'y'
  declare const m: { [K in Keys]?: number }
>> *)

Module Structural.
Import Demo.

Definition stringType : Obj := 1%nat.
Definition numberType : Obj := 2%nat.
Definition booleanType : Obj := 3%nat.
Definition unionType : Obj := 10%nat.
Definition tupleType : Obj := 11%nat.
Definition tupleTarget : Obj := 12%nat.
Definition xLiteral : Obj := 13%nat.
Definition yLiteral : Obj := 14%nat.
Definition keysType : Obj := 15%nat.
Definition mappedType : Obj := 16%nat.
Definition kType : Obj := 17%nat.
Definition keysSymbol : Obj := 20%nat.
Definition mappedSymbol : Obj := 21%nat.
Definition kSymbol : Obj := 22%nat.
Definition keysDecl : Obj := 40%nat.
Definition mappedNode : Obj := 41%nat.
Definition kDecl : Obj := 42%nat.
Definition keysReference : Obj := 43%nat.
Definition numberKeyword : Obj := 44%nat.
Definition questionMark : Obj := 45%nat.
Definition sourceFile : Obj := 90%nat.

Definition typeMethods (union : bool) : list (string * Val) :=
  [("isStringLiteral()", VB false); ("isNumberLiteral()", VB false);
   ("isUnion()", VB union); ("isIntersection()", VB false)].

Definition heap : Heap := [
  (stringType, [("id", VN 5); ("flags", VZ TypeFlags.String)] ++ typeMethods false);
  (numberType, [("id", VN 6); ("flags", VZ TypeFlags.Number)] ++ typeMethods false);
  (booleanType, [("id", VN 7); ("flags", VZ TypeFlags.Boolean)] ++ typeMethods false);
  (unionType, [("id", VN 70); ("flags", VZ TypeFlags.Union);
               ("types", VL [stringType; numberType; booleanType])] ++ typeMethods true);
  (tupleType, [("id", VN 71); ("flags", VZ TypeFlags.Object);
               ("objectFlags", VZ ObjectFlags.Reference); ("target", VO tupleTarget);
               ("typeArguments", VL [stringType; numberType; booleanType])]
              ++ typeMethods false);
  (tupleTarget, [("id", VN 72); ("flags", VZ TypeFlags.Object);
                 ("objectFlags", VZ (Z.lor ObjectFlags.Reference ObjectFlags.Tuple))]
                ++ typeMethods false);
  (xLiteral, [("id", VN 73); ("flags", VZ TypeFlags.StringLiteral); ("value", VJ (JsString "x"));
              ("isStringLiteral()", VB true); ("isNumberLiteral()", VB false);
              ("isUnion()", VB false); ("isIntersection()", VB false)]);
  (yLiteral, [("id", VN 74); ("flags", VZ TypeFlags.StringLiteral); ("value", VJ (JsString "y"));
              ("isStringLiteral()", VB true); ("isNumberLiteral()", VB false);
              ("isUnion()", VB false); ("isIntersection()", VB false)]);
  (keysType, [("id", VN 75); ("flags", VZ TypeFlags.Union); ("aliasSymbol", VO keysSymbol);
              ("types", VL [xLiteral; yLiteral])] ++ typeMethods true);
  (mappedType, [("id", VN 76); ("flags", VZ TypeFlags.Object);
                ("objectFlags", VZ ObjectFlags.Mapped); ("symbol", VO mappedSymbol);
                ("typeParameter", VO kType)] ++ typeMethods false);
  (kType, [("id", VN 77); ("flags", VZ TypeFlags.TypeParameter); ("symbol", VO kSymbol)]
          ++ typeMethods false);
  (keysSymbol, [("id", VN 101); ("name", VS "Keys"); ("flags", VZ 524288);
                ("declarations", VL [keysDecl])]);
  (mappedSymbol, [("id", VN 102); ("name", VS "__type"); ("flags", VZ 2048);
                  ("declarations", VL [mappedNode])]);
  (kSymbol, [("id", VN 103); ("name", VS "K"); ("flags", VZ 262144);
             ("declarations", VL [kDecl])]);
  (keysDecl, [("kind", VZ SyntaxKind.TypeAliasDeclaration); ("symbol", VO keysSymbol);
              ("parent", VO sourceFile); ("getTypeAtLocation", VO keysType)]);
  (mappedNode, [("kind", VZ 190); ("symbol", VO mappedSymbol); ("typeParameter", VO kDecl);
                ("questionToken", VO questionMark); ("type", VO numberKeyword);
                ("parent", VO sourceFile)]);
  (kDecl, [("kind", VZ 160); ("symbol", VO kSymbol); ("parent", VO mappedNode);
           ("constraint", VO keysReference)]);
  (keysReference, [("kind", VZ SyntaxKind.TypeReference); ("getTypeAtLocation", VO keysType)]);
  (numberKeyword, [("kind", VZ 144); ("getTypeFromTypeNode", VO numberType)]);
  (questionMark, [("kind", VZ 57)]);
  (sourceFile, [("kind", VZ 297); ("getSourceFile().fileName", VS "demo.ts")])
].

End Structural.

(** * Further entry points of the walk

    [includeExportedFunction] and [includeExportedTypeAlias] of
    [src/input/visit.ts].  The alias entry point reads the [name] node of the
    declaration, which is one more property of the oracle. *)

Class DeclarationNames := {
  declarationName : Obj -> option Obj;
}.

Section EntryPoints.
Context `{Orc : Oracle} `{Hp : Helpers} `{W : !Walk}.

(** [{ ...funcType, comment }] *)
Definition withComment (m : TypeModel) (comment : option string) : TypeModel :=
  match m with
  | TFunction ts ps r _ => TFunction ts ps r comment
  | _ => m
  end.

Definition includeExportedFunction (func : Obj) (name : string) : M unit :=
  let type := getTypeAtLocation func in
  signs <- need (getCallSignatures type) ;;
  signature <- need (head signs) ;;
  funcType <- getFunctionType signature ;;
  setRef name (Some (withComment funcType (getComment (symbol func)))).

Definition includeExportedTypeAlias `{Names : DeclarationNames} (variable : Obj) : M unit :=
  id <- need (declarationName variable) ;;
  let name := text id in
  ts <- getTypeParameters variable ;;
  child <- getParameterType (type_ variable) ;;
  setRef (keyOf name) (Some (TAlias (getComment (symbol variable)) ts child)).

End EntryPoints.

(** the [name] node of a declaration of a concrete program *)
Definition demoNames (h : Demo.Heap) : DeclarationNames :=
  {| declarationName o := Demo.asO (Demo.prop h o "name") |}.

(** ** An exported function and an exported alias

<<
  // demo.ts
  export function greet(name: string, ...rest: number[]): string
  export function echo(value): string
  export type Id = string
>>
    The parameter [value] has no type annotation; the checker's answer for
    the missing node is its error type, which is an [any]. *)

Module Exports.
Import Demo.

Definition stringType : Obj := 1%nat.
Definition numberArray : Obj := 2%nat.
Definition greetType : Obj := 10%nat.
Definition greetSignature : Obj := 11%nat.
Definition greetSymbol : Obj := 20%nat.
Definition nameSymbol : Obj := 21%nat.
Definition restSymbol : Obj := 22%nat.
Definition idSymbol : Obj := 23%nat.
Definition greetDecl : Obj := 40%nat.
Definition nameDecl : Obj := 41%nat.
Definition restDecl : Obj := 42%nat.
Definition stringKeyword : Obj := 43%nat.
Definition arrayNode : Obj := 44%nat.
Definition dots : Obj := 45%nat.
Definition idDecl : Obj := 46%nat.
Definition idIdentifier : Obj := 47%nat.
Definition orphanParameter : Obj := 48%nat.
Definition orphanSignature : Obj := 49%nat.
Definition echoType : Obj := 12%nat.
Definition echoSignature : Obj := 13%nat.
Definition echoSymbol : Obj := 24%nat.
Definition valueSymbol : Obj := 25%nat.
Definition echoDecl : Obj := 50%nat.
Definition valueDecl : Obj := 51%nat.
Definition sourceFile : Obj := 90%nat.

Definition typeMethods : list (string * Val) :=
  [("isStringLiteral()", VB false); ("isNumberLiteral()", VB false);
   ("isUnion()", VB false); ("isIntersection()", VB false)].

Definition heap : Heap := [
  (errorType, [("id", VN 1); ("flags", VZ TypeFlags.Any); ("intrinsicName", VS "error")]
              ++ typeMethods);
  (stringType, [("id", VN 5); ("flags", VZ TypeFlags.String)] ++ typeMethods);
  (numberArray, [("id", VN 6); ("flags", VZ TypeFlags.Any)] ++ typeMethods);
  (echoType, [("id", VN 71); ("flags", VZ TypeFlags.Object);
              ("objectFlags", VZ ObjectFlags.Anonymous); ("symbol", VO echoSymbol);
              ("getCallSignatures()", VL [echoSignature])] ++ typeMethods);
  (echoSignature, [("getParameters()", VL [valueSymbol]);
                   ("getReturnType()", VO stringType)]);
  (echoSymbol, [("id", VN 106); ("name", VS "echo"); ("flags", VZ 16);
                ("declarations", VL [echoDecl])]);
  (valueSymbol, [("id", VN 107); ("name", VS "value"); ("flags", VZ 1);
                 ("declarations", VL [valueDecl]); ("valueDeclaration", VO valueDecl)]);
  (echoDecl, [("kind", VZ 251); ("symbol", VO echoSymbol); ("parent", VO sourceFile);
              ("getTypeAtLocation", VO echoType)]);
  (valueDecl, [("kind", VZ 161); ("symbol", VO valueSymbol); ("parent", VO echoDecl)]);
  (greetType, [("id", VN 70); ("flags", VZ TypeFlags.Object);
               ("objectFlags", VZ ObjectFlags.Anonymous); ("symbol", VO greetSymbol);
               ("getCallSignatures()", VL [greetSignature])] ++ typeMethods);
  (greetSignature, [("getParameters()", VL [nameSymbol; restSymbol]);
                    ("getReturnType()", VO stringType)]);
  (greetSymbol, [("id", VN 101); ("name", VS "greet"); ("flags", VZ 16);
                 ("declarations", VL [greetDecl]);
                 ("getDocumentationComment()", VSL ["Says hello."; "Twice."])]);
  (nameSymbol, [("id", VN 102); ("name", VS "name"); ("flags", VZ 1);
                ("declarations", VL [nameDecl]); ("valueDeclaration", VO nameDecl)]);
  (restSymbol, [("id", VN 103); ("name", VS "rest"); ("flags", VZ 1);
                ("declarations", VL [restDecl]); ("valueDeclaration", VO restDecl)]);
  (idSymbol, [("id", VN 104); ("name", VS "Id"); ("flags", VZ 524288);
              ("declarations", VL [idDecl])]);
  (greetDecl, [("kind", VZ 251); ("symbol", VO greetSymbol); ("parent", VO sourceFile);
               ("getTypeAtLocation", VO greetType)]);
  (nameDecl, [("kind", VZ 161); ("symbol", VO nameSymbol); ("type", VO stringKeyword)]);
  (restDecl, [("kind", VZ 161); ("symbol", VO restSymbol); ("type", VO arrayNode);
              ("dotDotDotToken", VO dots)]);
  (stringKeyword, [("kind", VZ 147); ("getTypeFromTypeNode", VO stringType)]);
  (arrayNode, [("kind", VZ 178); ("getTypeFromTypeNode", VO numberArray)]);
  (dots, [("kind", VZ 25)]);
  (idDecl, [("kind", VZ SyntaxKind.TypeAliasDeclaration); ("symbol", VO idSymbol);
            ("name", VO idIdentifier); ("type", VO stringKeyword);
            ("parent", VO sourceFile)]);
  (idIdentifier, [("kind", VZ SyntaxKind.Identifier); ("text", VS "Id")]);
  (orphanParameter, [("id", VN 105); ("name", VS "lost"); ("flags", VZ 1)]);
  (orphanSignature, [("getParameters()", VL [orphanParameter]);
                     ("getReturnType()", VO stringType)]);
  (sourceFile, [("kind", VZ 297); ("getSourceFile().fileName", VS "demo.ts")])
].

End Exports.

(** What a run returns, whatever the helpers are. *)
Definition resultIn `{Hp : Helpers} {A} (o : Outcome A) : option A :=
  match o with
  | Returned a _ => Some a
  | _ => None
  end.

(** ** Two classes, one extending the other

<<
  // demo.ts
  class Animal { name: string; constructor(name: string) }
  class Dog extends Animal { bark: string; static count: string }
>> *)

Module Classes.
Import Demo.

Definition stringType : Obj := 1%nat.
Definition animalType : Obj := 10%nat.
Definition dogType : Obj := 11%nat.
Definition animalSymbol : Obj := 20%nat.
Definition dogSymbol : Obj := 21%nat.
Definition nameSymbol : Obj := 30%nat.
Definition barkSymbol : Obj := 31%nat.
Definition countSymbol : Obj := 32%nat.
Definition prototypeSymbol : Obj := 33%nat.
Definition argSymbol : Obj := 34%nat.
Definition animalDecl : Obj := 40%nat.
Definition nameDecl : Obj := 41%nat.
Definition stringKeyword : Obj := 42%nat.
Definition dogDecl : Obj := 43%nat.
Definition extendsClause : Obj := 44%nat.
Definition animalExpression : Obj := 45%nat.
Definition animalIdentifier : Obj := 46%nat.
Definition barkDecl : Obj := 47%nat.
Definition countDecl : Obj := 48%nat.
Definition ctorDecl : Obj := 49%nat.
Definition ctorSignature : Obj := 50%nat.
Definition argDecl : Obj := 51%nat.
Definition sourceFile : Obj := 90%nat.

Definition classFlags : Z := Z.lor ObjectFlags.Class ObjectFlags.Reference.

Definition typeMethods : list (string * Val) :=
  [("isStringLiteral()", VB false); ("isNumberLiteral()", VB false);
   ("isUnion()", VB false); ("isIntersection()", VB false)].

Definition heap : Heap := [
  (stringType, [("id", VN 5); ("flags", VZ TypeFlags.String)] ++ typeMethods);
  (animalType, [("id", VN 70); ("flags", VZ TypeFlags.Object); ("objectFlags", VZ classFlags);
                ("symbol", VO animalSymbol); ("target", VO animalType);
                ("getProperties()", VL [nameSymbol]); ("getCallSignatures()", VL []);
                ("getConstructors", VL [ctorDecl])] ++ typeMethods);
  (dogType, [("id", VN 71); ("flags", VZ TypeFlags.Object); ("objectFlags", VZ classFlags);
             ("symbol", VO dogSymbol); ("target", VO dogType);
             ("getProperties()", VL [barkSymbol; nameSymbol]);
             ("getCallSignatures()", VL [])] ++ typeMethods);
  (animalSymbol, [("id", VN 101); ("name", VS "Animal"); ("flags", VZ 32);
                  ("declarations", VL [animalDecl]);
                  ("getExportsOfModule", VL [prototypeSymbol])]);
  (dogSymbol, [("id", VN 102); ("name", VS "Dog"); ("flags", VZ 32);
               ("declarations", VL [dogDecl]);
               ("getExportsOfModule", VL [countSymbol; prototypeSymbol])]);
  (nameSymbol, [("id", VN 103); ("name", VS "name"); ("flags", VZ 4);
                ("declarations", VL [nameDecl]); ("valueDeclaration", VO nameDecl);
                ("getTypeOfSymbolAtLocation", VO stringType)]);
  (barkSymbol, [("id", VN 104); ("name", VS "bark"); ("flags", VZ 4);
                ("declarations", VL [barkDecl]); ("valueDeclaration", VO barkDecl);
                ("getTypeOfSymbolAtLocation", VO stringType)]);
  (countSymbol, [("id", VN 105); ("name", VS "count"); ("flags", VZ 4);
                 ("declarations", VL [countDecl]); ("valueDeclaration", VO countDecl);
                 ("getTypeOfSymbolAtLocation", VO stringType)]);
  (prototypeSymbol, [("id", VN 106); ("name", VS "prototype");
                     ("flags", VZ (Z.lor 4 SymbolFlags.Prototype))]);
  (argSymbol, [("id", VN 107); ("name", VS "name"); ("flags", VZ 1);
               ("declarations", VL [argDecl]); ("valueDeclaration", VO argDecl)]);
  (animalDecl, [("kind", VZ SyntaxKind.ClassDeclaration); ("symbol", VO animalSymbol);
                ("parent", VO sourceFile)]);
  (nameDecl, [("kind", VZ 163); ("symbol", VO nameSymbol); ("type", VO stringKeyword);
              ("parent", VO animalDecl)]);
  (stringKeyword, [("kind", VZ 147); ("getTypeFromTypeNode", VO stringType)]);
  (dogDecl, [("kind", VZ SyntaxKind.ClassDeclaration); ("symbol", VO dogSymbol);
             ("parent", VO sourceFile); ("heritageClauses", VL [extendsClause])]);
  (extendsClause, [("kind", VZ 286); ("token", VZ SyntaxKind.ExtendsKeyword);
                   ("types", VL [animalExpression]); ("parent", VO dogDecl)]);
  (animalExpression, [("kind", VZ 223); ("expression", VO animalIdentifier);
                      ("getTypeAtLocation", VO animalType)]);
  (animalIdentifier, [("kind", VZ SyntaxKind.Identifier); ("text", VS "Animal")]);
  (barkDecl, [("kind", VZ 163); ("symbol", VO barkSymbol); ("type", VO stringKeyword);
              ("parent", VO dogDecl)]);
  (countDecl, [("kind", VZ 163); ("symbol", VO countSymbol); ("type", VO stringKeyword);
               ("parent", VO dogDecl)]);
  (ctorDecl, [("kind", VZ 166); ("parent", VO animalDecl);
              ("getSignatureFromDeclaration", VO ctorSignature)]);
  (ctorSignature, [("getParameters()", VL [argSymbol]); ("getReturnType()", VO animalType)]);
  (argDecl, [("kind", VZ 161); ("symbol", VO argSymbol); ("type", VO stringKeyword);
             ("parent", VO ctorDecl)]);
  (sourceFile, [("kind", VZ 297); ("getSourceFile().fileName", VS "demo.ts")])
].

(** the helpers of [Demo], with [getConstructors] reading the constructor
    declarations of the class off the heap *)
Definition helpers (h : Heap) : Helpers :=
  let H := Demo.helpers h in {|
  Imports := @Imports H;
  createBinding := @createBinding H;
  getLib := @getLib H;
  isBaseLib := @isBaseLib H;
  isGlobal := @isGlobal H;
  getGlobalName := @getGlobalName H;
  isAnonymous := @isAnonymous H;
  isAnonymousObject := @isAnonymousObject H;
  isObjectType := @isObjectType H;
  isReferenceType := @isReferenceType H;
  isTupleType := @isTupleType H;
  isIndexType := @isIndexType H;
  isBigIntLiteral := @isBigIntLiteral H;
  isConditionalType := @isConditionalType H;
  isSubstitutionType := @isSubstitutionType H;
  isKeyOfType := @isKeyOfType H;
  isUnionType := @isUnionType H;
  isIdentifierType := @isIdentifierType H;
  isInferType := @isInferType H;
  isHiddenAnonymousType := @isHiddenAnonymousType H;
  getKeyName := @getKeyName H;
  getConstructors o := asL (prop h o "getConstructors");
  getModifiers := @getModifiers H;
|}.

Definition emptyContext : @DeclVisitorContext (helpers heap) :=
  {| refs := ∅; usedImports := ([] : @Imports (helpers heap)) |}.

(** the node the walk registers for [Animal] *)
Definition animalNode : TypeModel :=
  TClass [] (Some "")
    [TProp "name" "" (Some 103%nat) false (Some "") TString;
     TConstructor [] [TParameter "name" "" false false TString]
       (TRef [] (Some "Animal") None) None]
    [] [].

(** the context once [Animal] is registered *)
Definition animalRegistered : @DeclVisitorContext (helpers heap) :=
  {| refs := {["Animal" := Some animalNode]}; usedImports := ([] : @Imports (helpers heap)) |}.

End Classes.

(** ** An enumeration

<<
  // demo.ts
  /** The colours. */
  enum Color { Red, Green }
>> *)

Module Enums.
Import Demo.

Definition colorType : Obj := 10%nat.
Definition redType : Obj := 11%nat.
Definition greenType : Obj := 12%nat.
Definition colorSymbol : Obj := 20%nat.
Definition redSymbol : Obj := 21%nat.
Definition greenSymbol : Obj := 22%nat.
Definition colorDecl : Obj := 40%nat.
Definition redDecl : Obj := 41%nat.
Definition greenDecl : Obj := 42%nat.
Definition sourceFile : Obj := 90%nat.

Definition memberFlags : Z := Z.lor TypeFlags.EnumLiteral 256.

Definition heap : Heap := [
  (colorType, [("id", VN 70); ("flags", VZ (Z.lor TypeFlags.EnumLiteral TypeFlags.Union));
               ("symbol", VO colorSymbol); ("types", VL [redType; greenType]);
               ("isStringLiteral()", VB false); ("isNumberLiteral()", VB false);
               ("isUnion()", VB true); ("isIntersection()", VB false)]);
  (redType, [("id", VN 71); ("flags", VZ memberFlags); ("symbol", VO redSymbol);
             ("value", VJ (JsNumber 0));
             ("isStringLiteral()", VB false); ("isNumberLiteral()", VB true);
             ("isUnion()", VB false); ("isIntersection()", VB false)]);
  (greenType, [("id", VN 72); ("flags", VZ memberFlags); ("symbol", VO greenSymbol);
               ("value", VJ (JsNumber 1));
               ("isStringLiteral()", VB false); ("isNumberLiteral()", VB true);
               ("isUnion()", VB false); ("isIntersection()", VB false)]);
  (colorSymbol, [("id", VN 101); ("name", VS "Color"); ("flags", VZ 256);
                 ("declarations", VL [colorDecl]);
                 ("getDocumentationComment()", VSL ["The colours."])]);
  (redSymbol, [("id", VN 102); ("name", VS "Red"); ("flags", VZ 8);
               ("declarations", VL [redDecl])]);
  (greenSymbol, [("id", VN 103); ("name", VS "Green"); ("flags", VZ 8);
                 ("declarations", VL [greenDecl])]);
  (colorDecl, [("kind", VZ 255); ("symbol", VO colorSymbol); ("parent", VO sourceFile)]);
  (redDecl, [("kind", VZ 291); ("symbol", VO redSymbol); ("parent", VO colorDecl)]);
  (greenDecl, [("kind", VZ 291); ("symbol", VO greenSymbol); ("parent", VO colorDecl)]);
  (sourceFile, [("kind", VZ 297); ("getSourceFile().fileName", VS "demo.ts")])
].

End Enums.

(** ** A self-referential generic interface

<<
  // demo.ts
  interface Node<T> { next: Node<T> }
>>
    The type arguments of the reference [Node<T>] are the checker's: the
    declared parameter followed by the [this] type. *)

Module Recursive.
Import Demo.

Definition nodeType : Obj := 10%nat.
Definition tType : Obj := 11%nat.
Definition thisType : Obj := 12%nat.
Definition nodeSymbol : Obj := 20%nat.
Definition tSymbol : Obj := 21%nat.
Definition nextSymbol : Obj := 22%nat.
Definition nodeDecl : Obj := 40%nat.
Definition tDecl : Obj := 41%nat.
Definition nextDecl : Obj := 42%nat.
Definition nextTypeNode : Obj := 43%nat.
Definition sourceFile : Obj := 90%nat.

Definition typeMethods : list (string * Val) :=
  [("isStringLiteral()", VB false); ("isNumberLiteral()", VB false);
   ("isUnion()", VB false); ("isIntersection()", VB false)].

Definition heap : Heap := [
  (nodeType, [("id", VN 70); ("flags", VZ TypeFlags.Object);
              ("objectFlags", VZ (Z.lor ObjectFlags.Interface ObjectFlags.Reference));
              ("symbol", VO nodeSymbol); ("target", VO nodeType);
              ("typeParameters", VL [tType]); ("typeArguments", VL [tType; thisType]);
              ("getProperties()", VL [nextSymbol]); ("getCallSignatures()", VL [])]
             ++ typeMethods);
  (tType, [("id", VN 71); ("flags", VZ TypeFlags.TypeParameter); ("symbol", VO tSymbol)]
          ++ typeMethods);
  (thisType, [("id", VN 72); ("flags", VZ TypeFlags.TypeParameter);
              ("symbol", VO nodeSymbol); ("isThisType", VB true)] ++ typeMethods);
  (nodeSymbol, [("id", VN 101); ("name", VS "Node"); ("flags", VZ 64);
                ("declarations", VL [nodeDecl])]);
  (tSymbol, [("id", VN 102); ("name", VS "T"); ("flags", VZ 262144);
             ("declarations", VL [tDecl])]);
  (nextSymbol, [("id", VN 103); ("name", VS "next"); ("flags", VZ 4);
                ("declarations", VL [nextDecl]); ("valueDeclaration", VO nextDecl);
                ("getTypeOfSymbolAtLocation", VO nodeType)]);
  (nodeDecl, [("kind", VZ SyntaxKind.InterfaceDeclaration); ("symbol", VO nodeSymbol);
              ("typeParameters", VL [tDecl]); ("parent", VO sourceFile)]);
  (tDecl, [("kind", VZ 160); ("symbol", VO tSymbol); ("parent", VO nodeDecl)]);
  (nextDecl, [("kind", VZ 163); ("symbol", VO nextSymbol); ("type", VO nextTypeNode);
              ("parent", VO nodeDecl)]);
  (nextTypeNode, [("kind", VZ SyntaxKind.TypeReference); ("getTypeAtLocation", VO nodeType);
                  ("getTypeFromTypeNode", VO nodeType)]);
  (sourceFile, [("kind", VZ 297); ("getSourceFile().fileName", VS "demo.ts")])
].

End Recursive.

(** ** Two more mapped types

<<
  // demo.ts
  type Keys = 'x' | 'y'
  interface Point { x: number }
  declare const bare: { [K in Keys] }      // no value type written
  declare const some: Partial<Point>       // an instantiated mapped type
>>
    The checker marks the instantiation of a mapped type with the object
    flags [Mapped | Instantiated]. *)

Module MappedTypes.
Import Demo.

Definition Instantiated : Z := 64.

Definition numberType : Obj := 2%nat.
Definition xLiteral : Obj := 13%nat.
Definition yLiteral : Obj := 14%nat.
Definition keysType : Obj := 15%nat.
Definition bareType : Obj := 16%nat.
Definition kType : Obj := 17%nat.
Definition partialPoint : Obj := 18%nat.
Definition keysSymbol : Obj := 20%nat.
Definition bareSymbol : Obj := 21%nat.
Definition kSymbol : Obj := 22%nat.
Definition partialSymbol : Obj := 23%nat.
Definition xSymbol : Obj := 24%nat.
Definition keysDecl : Obj := 40%nat.
Definition bareNode : Obj := 41%nat.
Definition kDecl : Obj := 42%nat.
Definition keysReference : Obj := 43%nat.
Definition partialNode : Obj := 44%nat.
Definition xDecl : Obj := 45%nat.
Definition numberKeyword : Obj := 46%nat.
Definition sourceFile : Obj := 90%nat.

Definition typeMethods (union : bool) : list (string * Val) :=
  [("isStringLiteral()", VB false); ("isNumberLiteral()", VB false);
   ("isUnion()", VB union); ("isIntersection()", VB false)].

Definition heap : Heap := [
  (errorType, [("id", VN 1); ("flags", VZ TypeFlags.Any); ("intrinsicName", VS "error")]
              ++ typeMethods false);
  (numberType, [("id", VN 6); ("flags", VZ TypeFlags.Number)] ++ typeMethods false);
  (xLiteral, [("id", VN 73); ("flags", VZ TypeFlags.StringLiteral); ("value", VJ (JsString "x"));
              ("isStringLiteral()", VB true); ("isNumberLiteral()", VB false);
              ("isUnion()", VB false); ("isIntersection()", VB false)]);
  (yLiteral, [("id", VN 74); ("flags", VZ TypeFlags.StringLiteral); ("value", VJ (JsString "y"));
              ("isStringLiteral()", VB true); ("isNumberLiteral()", VB false);
              ("isUnion()", VB false); ("isIntersection()", VB false)]);
  (keysType, [("id", VN 75); ("flags", VZ TypeFlags.Union); ("aliasSymbol", VO keysSymbol);
              ("types", VL [xLiteral; yLiteral])] ++ typeMethods true);
  (bareType, [("id", VN 76); ("flags", VZ TypeFlags.Object);
              ("objectFlags", VZ ObjectFlags.Mapped); ("symbol", VO bareSymbol);
              ("typeParameter", VO kType)] ++ typeMethods false);
  (kType, [("id", VN 77); ("flags", VZ TypeFlags.TypeParameter); ("symbol", VO kSymbol)]
          ++ typeMethods false);
  (partialPoint, [("id", VN 78); ("flags", VZ TypeFlags.Object);
                  ("objectFlags", VZ (Z.lor ObjectFlags.Mapped Instantiated));
                  ("symbol", VO partialSymbol); ("typeParameter", VO kType);
                  ("getProperties()", VL [xSymbol]); ("getCallSignatures()", VL [])]
                 ++ typeMethods false);
  (keysSymbol, [("id", VN 101); ("name", VS "Keys"); ("flags", VZ 524288);
                ("declarations", VL [keysDecl])]);
  (bareSymbol, [("id", VN 102); ("name", VS "__type"); ("flags", VZ 2048);
                ("declarations", VL [bareNode])]);
  (kSymbol, [("id", VN 103); ("name", VS "K"); ("flags", VZ 262144);
             ("declarations", VL [kDecl])]);
  (partialSymbol, [("id", VN 104); ("name", VS "__type"); ("flags", VZ 2048);
                   ("declarations", VL [partialNode])]);
  (xSymbol, [("id", VN 105); ("name", VS "x"); ("flags", VZ (Z.lor 4 SymbolFlags.Optional));
             ("declarations", VL [xDecl]); ("valueDeclaration", VO xDecl);
             ("getTypeOfSymbolAtLocation", VO numberType)]);
  (keysDecl, [("kind", VZ SyntaxKind.TypeAliasDeclaration); ("symbol", VO keysSymbol);
              ("parent", VO sourceFile); ("getTypeAtLocation", VO keysType)]);
  (bareNode, [("kind", VZ 190); ("symbol", VO bareSymbol); ("typeParameter", VO kDecl);
              ("parent", VO sourceFile)]);
  (kDecl, [("kind", VZ 160); ("symbol", VO kSymbol); ("parent", VO bareNode);
           ("constraint", VO keysReference)]);
  (keysReference, [("kind", VZ SyntaxKind.TypeReference); ("getTypeAtLocation", VO keysType)]);
  (partialNode, [("kind", VZ 190); ("symbol", VO partialSymbol); ("parent", VO sourceFile)]);
  (xDecl, [("kind", VZ 163); ("symbol", VO xSymbol); ("type", VO numberKeyword)]);
  (numberKeyword, [("kind", VZ 144); ("getTypeFromTypeNode", VO numberType)]);
  (sourceFile, [("kind", VZ 297); ("getSourceFile().fileName", VS "demo.ts")])
].

End MappedTypes.
(** * Reasoning about the walk *)

(** ** The monad *)

Section MonadFacts.
Context `{Hp : Helpers}.

Lemma bind_Returned {A B} (m : M A) (k : A -> M B) c b c'' :
  bind m k c = Returned b c'' ->
  exists a c', m c = Returned a c' /\ k a c' = Returned b c''.
Proof.
  unfold bind. destruct (m c) as [a c'| |]; [eauto | discriminate | discriminate].
Qed.

Lemma bind_Returned_intro {A B} (m : M A) (k : A -> M B) c a c' :
  m c = Returned a c' -> bind m k c = k a c'.
Proof. unfold bind. intros ->. reflexivity. Qed.

Lemma ret_Returned {A} (a b : A) c c' : ret a c = Returned b c' -> b = a /\ c' = c.
Proof. unfold ret. intros [= -> ->]. auto. Qed.

Lemma need_Returned {A} (o : option A) a c c' :
  need o c = Returned a c' -> o = Some a /\ c' = c.
Proof. destruct o; simpl; [intros [= -> ->]; auto | discriminate]. Qed.

Lemma getRefs_Returned c rs c' : getRefs c = Returned rs c' -> rs = refs c /\ c' = c.
Proof. unfold getRefs. intros [= <- <-]. auto. Qed.

Lemma setRef_Returned name node c u c' :
  setRef name node c = Returned u c' ->
  refs c' = <[name := node]> (refs c) /\ usedImports c' = usedImports c.
Proof. unfold setRef. intros [= _ <-]. auto. Qed.

Lemma withImports_Returned {A} (f : Imports -> A * Imports) c a c' :
  withImports f c = Returned a c' -> refs c' = refs c.
Proof. unfold withImports. destruct (f _). intros [= _ <-]. reflexivity. Qed.

(** ** Computations that keep every registered entry as it is

    [grows m]: whatever is stored under a name when [m] starts is still
    stored under it, unchanged, when [m] returns. *)

Definition grows {A} (m : M A) : Prop :=
  forall c a c', m c = Returned a c' -> refs c ⊆ refs c'.

Lemma grows_ret {A} (a : A) : grows (ret a).
Proof. intros c b c' [_ ->]%ret_Returned. reflexivity. Qed.

Lemma grows_throw {A} : grows (@throw _ A).
Proof. intros c b c'. discriminate. Qed.

Lemma grows_exhausted {A} : grows (@exhausted _ A).
Proof. intros c b c'. discriminate. Qed.

Lemma grows_need {A} (o : option A) : grows (need o).
Proof. intros c b c' [_ ->]%need_Returned. reflexivity. Qed.

Lemma grows_getRefs : grows getRefs.
Proof. intros c b c' [_ ->]%getRefs_Returned. reflexivity. Qed.

Lemma grows_withImports {A} (f : Imports -> A * Imports) : grows (withImports f).
Proof. intros c b c' ->%withImports_Returned. reflexivity. Qed.

Lemma grows_bind {A B} (m : M A) (k : A -> M B) :
  grows m -> (forall a, grows (k a)) -> grows (bind m k).
Proof.
  intros Hm Hk c b c'' (a & c' & H1 & H2)%bind_Returned.
  etransitivity; [eapply Hm | eapply Hk]; eassumption.
Qed.

Lemma grows_mapM {A B} (f : A -> M B) (xs : list A) :
  (forall x, grows (f x)) -> grows (mapM f xs).
Proof.
  intros Hf. induction xs as [|x xs IH]; simpl.
  - apply grows_ret.
  - apply grows_bind; [apply Hf|]. intros y.
    apply grows_bind; [apply IH|]. intros ys. apply grows_ret.
Qed.

Lemma grows_orElse {A} (a b : M (option A)) : grows a -> grows b -> grows (orElse a b).
Proof.
  intros Ha Hb. apply grows_bind; [exact Ha|]. intros [x|]; [apply grows_ret | exact Hb].
Qed.

End MonadFacts.

Create HintDb grows.
#[export] Hint Resolve grows_ret grows_throw grows_exhausted grows_need grows_getRefs
  grows_withImports grows_orElse : grows.

(** One step of a [grows] proof: follow the shape of the computation. *)
Ltac grows_step :=
  match goal with
  | |- grows (bind _ _) => apply grows_bind; [| intros ?]
  | |- grows (mapM _ _) => apply grows_mapM; intros ?
  | |- grows (orElse _ _) => apply grows_orElse
  | |- grows (if ?b then _ else _) => destruct b
  | |- grows (match ?x with _ => _ end) => destruct x
  | |- grows _ => solve [auto with grows]
  end.

Ltac grows_auto := repeat grows_step.

(** ** Every function of the walk keeps the registered entries *)

Record WalkGrows `{Hp : Helpers} (W : Walk) : Prop := {
  includeType_grows : forall t, grows (includeType t);
  getTypeModel_grows : forall t n, grows (getTypeModel t n);
  includeAnonymous_grows : forall t, grows (includeAnonymous t);
  getAllPropIds_grows : forall l, grows (getAllPropIds l);
}.

Section Frame.
Context `{Orc : Oracle} `{Hp : Helpers} `{W : !Walk}.
Hypothesis HW : WalkGrows W.

Lemma rec_includeType_grows t : grows (includeType t).
Proof. apply HW. Qed.

Lemma rec_getTypeModel_grows t n : grows (getTypeModel t n).
Proof. apply HW. Qed.

Lemma rec_includeAnonymous_grows t : grows (includeAnonymous t).
Proof. apply HW. Qed.

Lemma rec_getAllPropIds_grows l : grows (getAllPropIds l).
Proof. apply HW. Qed.

Local Hint Resolve rec_includeType_grows rec_getTypeModel_grows
  rec_includeAnonymous_grows rec_getAllPropIds_grows : grows.

Lemma getTypeArguments_grows t : grows (getTypeArguments t).
Proof. unfold getTypeArguments. grows_auto. Qed.

Lemma getKeyOfType_grows t : grows (getKeyOfType t).
Proof. unfold getKeyOfType. grows_auto. Qed.

Lemma getUnion_grows ts : grows (getUnion ts).
Proof. unfold getUnion. grows_auto. Qed.

Local Hint Resolve getTypeArguments_grows getKeyOfType_grows getUnion_grows : grows.

Lemma includeNode_grows t : grows (includeNode t).
Proof. unfold includeNode. grows_auto. Qed.

Lemma includeConstraint_grows t : grows (includeConstraint t).
Proof. unfold includeConstraint. grows_auto. Qed.

Lemma includeDefaultTypeArgument_grows t : grows (includeDefaultTypeArgument t).
Proof. unfold includeDefaultTypeArgument. grows_auto. Qed.

Local Hint Resolve includeNode_grows includeConstraint_grows
  includeDefaultTypeArgument_grows : grows.

Lemma includeTypeParameter_grows t : grows (includeTypeParameter t).
Proof. unfold includeTypeParameter. grows_auto. Qed.

Local Hint Resolve includeTypeParameter_grows : grows.

Lemma getTypeParameters_grows t : grows (getTypeParameters t).
Proof. unfold getTypeParameters. grows_auto. Qed.

Lemma includeAnonymousNode_grows t : grows (includeAnonymousNode t).
Proof. unfold includeAnonymousNode. grows_auto. Qed.

Local Hint Resolve getTypeParameters_grows includeAnonymousNode_grows : grows.

Lemma getParameterType_grows t : grows (getParameterType t).
Proof. unfold getParameterType. grows_auto. Qed.

Local Hint Resolve getParameterType_grows : grows.

Lemma getFunctionParameters_grows ps : grows (getFunctionParameters ps).
Proof. unfold getFunctionParameters. grows_auto. Qed.

Local Hint Resolve getFunctionParameters_grows : grows.

Lemma getFunctionType_grows s : grows (getFunctionType s).
Proof. unfold getFunctionType. grows_auto. Qed.

Local Hint Resolve getFunctionType_grows : grows.

Lemma getConstructorTypes_grows t : grows (getConstructorTypes t).
Proof. unfold getConstructorTypes. grows_auto. Qed.

Lemma getPropValue_grows p : grows (getPropValue p).
Proof. unfold getPropValue. grows_auto. Qed.

Local Hint Resolve getConstructorTypes_grows getPropValue_grows : grows.

Lemma getPropType_grows p : grows (getPropType p).
Proof. unfold getPropType. grows_auto. Qed.

Lemma getIndexType_grows t k i : grows (getIndexType t k i).
Proof. unfold getIndexType. grows_auto. Qed.

Lemma normalizeTypeParameters_grows t d ts n : grows (normalizeTypeParameters t d ts n).
Proof. unfold normalizeTypeParameters. grows_auto. Qed.

Local Hint Resolve getPropType_grows getIndexType_grows normalizeTypeParameters_grows : grows.

Lemma includeRef_grows t n e : grows (includeRef t n e).
Proof. unfold includeRef. grows_auto. Qed.

Lemma includeHiddenAnonymous_grows t : grows (includeHiddenAnonymous t).
Proof. unfold includeHiddenAnonymous. grows_auto. Qed.

Local Hint Resolve includeRef_grows includeHiddenAnonymous_grows : grows.

Lemma includeExternal_grows t : grows (includeExternal t).
Proof. unfold includeExternal. grows_auto. Qed.

Lemma includeMember_grows t : grows (includeMember t).
Proof. unfold includeMember. grows_auto. Qed.

Local Hint Resolve includeExternal_grows includeMember_grows : grows.

Lemma andIsUnion_grows b t : grows (andIsUnion b t).
Proof. unfold andIsUnion. grows_auto. Qed.

Local Hint Resolve andIsUnion_grows : grows.

Lemma includeBasic_grows t : grows (includeBasic t).
Proof. unfold includeBasic. grows_auto. Qed.

Lemma heritageItem_grows t : grows (heritageItem t).
Proof. unfold heritageItem. grows_auto. Qed.

Local Hint Resolve includeBasic_grows heritageItem_grows : grows.

Lemma includeHeritage_grows cs r : grows (includeHeritage cs r).
Proof. revert r. induction cs as [|c cs IH]; intros r; simpl; grows_auto; apply IH. Qed.

Local Hint Resolve includeHeritage_grows : grows.

Lemma includeInheritedTypes_grows t : grows (includeInheritedTypes t).
Proof. unfold includeInheritedTypes. grows_auto. Qed.

Lemma getAllPropIdsBody_grows ts : grows (getAllPropIdsBody ts).
Proof. induction ts as [|t ts IH]; simpl; grows_auto. Qed.

Lemma includeIndexMember_grows g inh t k i : grows (includeIndexMember g inh t k i).
Proof. unfold includeIndexMember. grows_auto. Qed.

Local Hint Resolve includeInheritedTypes_grows includeIndexMember_grows : grows.

Lemma includeStandardObject_grows t : grows (includeStandardObject t).
Proof. unfold includeStandardObject. grows_auto. Qed.

Local Hint Resolve includeStandardObject_grows : grows.

Lemma includeClassObject_grows t : grows (includeClassObject t).
Proof. unfold includeClassObject. grows_auto. Qed.

Lemma includeMappedObject_grows t : grows (includeMappedObject t).
Proof. unfold includeMappedObject. grows_auto. Qed.

Local Hint Resolve includeClassObject_grows includeMappedObject_grows : grows.

Lemma includeObject_grows t : grows (includeObject t).
Proof. unfold includeObject. grows_auto. Qed.

Lemma includeIndex_grows t : grows (includeIndex t).
Proof. unfold includeIndex. grows_auto. Qed.

Local Hint Resolve includeObject_grows includeIndex_grows : grows.

Lemma includeCombinator_grows t : grows (includeCombinator t).
Proof. unfold includeCombinator. grows_auto. Qed.

Lemma includeReference_grows t : grows (includeReference t).
Proof. unfold includeReference. grows_auto. Qed.

Local Hint Resolve includeCombinator_grows includeReference_grows : grows.

Lemma includeNamed_grows t : grows (includeNamed t).
Proof. unfold includeNamed. grows_auto. Qed.

(** Filling a name that was absent: the placeholder and the node that
    replaces it are both new with respect to the registry at the start. *)
Lemma fill_subseteq (rs rs1 rs2 rs3 : gmap string (option TypeModel)) name p node :
  rs !! name = None ->
  rs1 = <[name := p]> rs ->
  rs1 ⊆ rs2 ->
  rs3 = <[name := node]> rs2 ->
  rs ⊆ rs3.
Proof.
  intros Hnone -> Hsub ->. apply map_subseteq_spec. intros k v Hk.
  destruct (decide (name = k)) as [->|Hne]; [congruence|].
  rewrite lookup_insert_ne by done.
  eapply lookup_weaken; [|exact Hsub].
  rewrite lookup_insert_ne by done. exact Hk.
Qed.

Lemma makeRef_grows t name cb : (forall x, grows (cb x)) -> grows (makeRef t name cb).
Proof.
  intros Hcb c a c' Hrun. unfold makeRef in Hrun.
  apply bind_Returned in Hrun as (rs & c0 & [-> ->]%getRefs_Returned & Hrun).
  apply bind_Returned in Hrun as (u & c1 & H1 & H2).
  transitivity (refs c1); [|eapply includeRef_grows; exact H2].
  destruct (refs c !! name) eqn:E.
  - apply ret_Returned in H1 as [_ ->]. reflexivity.
  - apply bind_Returned in H1 as (u1 & c2 & [Ha _]%setRef_Returned & H1).
    apply bind_Returned in H1 as (ty & c3 & Hb & H1).
    apply bind_Returned in H1 as (node & c4 & Hc & [Hd _]%setRef_Returned).
    eapply fill_subseteq; [exact E | exact Ha | | exact Hd].
    transitivity (refs c3); [|eapply Hcb; exact Hc].
    destruct (isObjectType t && isReferenceType t).
    + apply need_Returned in Hb as [_ ->]. reflexivity.
    + apply ret_Returned in Hb as [_ ->]. reflexivity.
Qed.

Lemma makeAliasRef_grows t name : grows (makeAliasRef t name).
Proof.
  unfold makeAliasRef.
  apply grows_bind; [auto with grows | intros asym].
  apply grows_bind; [auto with grows | intros ds].
  apply grows_bind; [auto with grows | intros decl].
  apply grows_bind; [auto with grows | intros ext].
  apply grows_bind; [|intros ?; grows_auto].
  assert (Hreg : grows (rs <- getRefs ;;
            match rs !! name with
            | None =>
                setRef name (Some (placeholder name)) ;;;
                ts <- match typeParameters decl with
                      | Some l => mapM includeTypeParameter l
                      | None => ret []
                      end ;;
                child <- includeAnonymous (getTypeAtLocation decl) ;;
                setRef name (Some (TAlias (getComment (symbol decl)) ts child))
            | Some _ => ret tt
            end ;;; ret (Some name))).
  { intros c a c' Hrun.
    apply bind_Returned in Hrun as (rs & c0 & [-> ->]%getRefs_Returned & Hrun).
    apply bind_Returned in Hrun as (u & c1 & H1 & [_ ->]%ret_Returned).
    destruct (refs c !! name) eqn:E.
    - apply ret_Returned in H1 as [_ ->]. reflexivity.
    - apply bind_Returned in H1 as (u1 & c2 & [Ha _]%setRef_Returned & H1).
      apply bind_Returned in H1 as (ts & c3 & Hb & H1).
      apply bind_Returned in H1 as (child & c4 & Hc & [Hd _]%setRef_Returned).
      eapply fill_subseteq; [exact E | exact Ha | | exact Hd].
      transitivity (refs c3); [|eapply rec_includeAnonymous_grows; exact Hc].
      revert Hb. apply (getTypeParameters_grows decl). }
  destruct ext as [m|]; [destruct m|]; solve [exact Hreg | apply grows_ret].
Qed.

Local Hint Resolve includeNamed_grows makeRef_grows makeAliasRef_grows : grows.

Lemma includeAnonymousBody_grows t : grows (includeAnonymousBody t).
Proof. unfold includeAnonymousBody. grows_auto. Qed.

Lemma getTypeModelBody_grows t n : grows (getTypeModelBody t n).
Proof. unfold getTypeModelBody. grows_auto. Qed.

Lemma includeTypeBody_grows t : grows (includeTypeBody t).
Proof. unfold includeTypeBody. grows_auto. Qed.

End Frame.

(** The walk, at every depth, keeps the registered entries. *)
Lemma walk_grows `{Orc : Oracle} `{Hp : Helpers} (fuel : nat) : WalkGrows (walk fuel).
Proof.
  induction fuel as [|n IH].
  - split; intros; apply grows_exhausted.
  - split; intros; simpl.
    + apply includeTypeBody_grows, IH.
    + apply getTypeModelBody_grows, IH.
    + apply includeAnonymousBody_grows, IH.
    + apply getAllPropIdsBody_grows, IH.
Qed.

(** ** Taking a successful run apart *)

Ltac run_inv_step :=
  match goal with
  | H : bind _ _ _ = Returned _ _ |- _ =>
      let a := fresh "a" in let c := fresh "c" in let Ha := fresh "Hrun" in
      apply bind_Returned in H as (a & c & Ha & H)
  | H : ret _ _ = Returned _ _ |- _ => apply ret_Returned in H as [? ?]; subst
  | H : need _ _ = Returned _ _ |- _ => apply need_Returned in H as [? ?]; subst
  | H : getRefs _ = Returned _ _ |- _ => apply getRefs_Returned in H as [? ?]; subst
  | H : throw _ = Returned _ _ |- _ => discriminate H
  | H : exhausted _ = Returned _ _ |- _ => discriminate H
  end.

Ltac run_inv := repeat run_inv_step.

Section ListRuns.
Context `{Hp : Helpers}.

(** [runsInOrder f xs ys c c']: [ys] are the results of [f] on the elements
    of [xs], one by one from the left, each run starting in the context the
    previous one left. *)
Inductive runsInOrder {A B} (f : A -> M B) :
    list A -> list B -> DeclVisitorContext -> DeclVisitorContext -> Prop :=
| runs_nil c : runsInOrder f [] [] c c
| runs_cons x xs y ys c c1 c2 :
    f x c = Returned y c1 ->
    runsInOrder f xs ys c1 c2 ->
    runsInOrder f (x :: xs) (y :: ys) c c2.

Lemma mapM_runsInOrder {A B} (f : A -> M B) xs ys c c' :
  mapM f xs c = Returned ys c' <-> runsInOrder f xs ys c c'.
Proof.
  split.
  - revert ys c. induction xs as [|x xs IH]; intros ys c Hrun; simpl in Hrun.
    + run_inv. constructor.
    + run_inv. econstructor; eauto.
  - induction 1 as [|x xs y ys c c1 c2 Hx _ IH]; simpl.
    + reflexivity.
    + rewrite (bind_Returned_intro _ _ _ _ _ Hx).
      rewrite (bind_Returned_intro _ _ _ _ _ IH). reflexivity.
Qed.

Lemma runsInOrder_length {A B} (f : A -> M B) xs ys c c' :
  runsInOrder f xs ys c c' -> length ys = length xs.
Proof. induction 1; simpl; congruence. Qed.

(** the [i]-th result is the run of [f] on the [i]-th element *)
Lemma runsInOrder_lookup {A B} (f : A -> M B) xs ys c c' (i : nat) x :
  runsInOrder f xs ys c c' -> xs !! i = Some x ->
  exists y ci ci', ys !! i = Some y /\ f x ci = Returned y ci'.
Proof.
  intros Hruns. revert i. induction Hruns as [|x0 xs y0 ys c c1 c2 Hx _ IH]; intros i Hi.
  - discriminate.
  - destruct i as [|i]; simpl in *.
    + injection Hi as <-. eauto.
    + apply IH in Hi as (y & ci & ci' & ? & ?). eauto.
Qed.

End ListRuns.

(** ** The shape of the object nodes *)

Section Shapes.
Context `{Orc : Oracle} `{Hp : Helpers} `{W : !Walk}.

Lemma includeStandardObject_interface type c m c' :
  includeStandardObject type c = Returned m c' ->
  exists es cm ps ts, m = TInterface es cm ps ts None.
Proof. unfold includeStandardObject. intros Hrun. run_inv. eauto. Qed.

Lemma includeClassObject_class type c m c' :
  includeClassObject type c = Returned m c' ->
  exists es cm ps ts impl, m = TClass es cm ps ts impl.
Proof.
  unfold includeClassObject. intros Hrun. run_inv.
  match goal with
  | Hs : includeStandardObject _ _ = Returned _ _ |- _ =>
      apply includeStandardObject_interface in Hs as (es & cm & ps & ts & ->)
  end.
  simpl. eauto 10.
Qed.

Lemma includeMappedObject_mapped type c m c' :
  includeMappedObject type c = Returned m c' ->
  exists cm n k o v, m = TInterface [] cm [] [] (Some (TMapped n k o v)).
Proof. unfold includeMappedObject. intros Hrun. run_inv. eauto 10. Qed.

End Shapes.

(** * The claims *)

Section Claims.
Context `{Orc : Oracle} `{Hp : Helpers} `{W : !Walk}.

(** C9.  For an object type, [includeObject] takes the mapped builder when
    [objectFlags] is exactly [Mapped], the class builder when it is exactly
    [Class | Reference], and the standard builder for every other value (for
    instance [Class] alone, or [Mapped] together with another flag); the three
    builders answer with a node carrying a [mapped] descriptor, a [class]
    node and a plain [interface] node respectively. *)
Theorem includeObject_dispatch type :
  isObjectType type = true ->
  (objectFlags type = Some ObjectFlags.Mapped ->
     includeObject type = (r <- includeMappedObject type ;; ret (Some r))
     /\ forall c m c', includeObject type c = Returned m c' ->
          exists cm n k o v, m = Some (TInterface [] cm [] [] (Some (TMapped n k o v))))
  /\ (objectFlags type = Some (Z.lor ObjectFlags.Class ObjectFlags.Reference) ->
        includeObject type = (r <- includeClassObject type ;; ret (Some r))
        /\ forall c m c', includeObject type c = Returned m c' ->
             exists es cm ps ts impl, m = Some (TClass es cm ps ts impl))
  /\ (objectFlags type <> Some ObjectFlags.Mapped ->
      objectFlags type <> Some (Z.lor ObjectFlags.Class ObjectFlags.Reference) ->
        includeObject type = (r <- includeStandardObject type ;; ret (Some r))
        /\ forall c m c', includeObject type c = Returned m c' ->
             exists es cm ps ts, m = Some (TInterface es cm ps ts None))
  /\ (objectFlags type = Some ObjectFlags.Class \/
      objectFlags type = Some (Z.lor ObjectFlags.Mapped ObjectFlags.Anonymous) ->
        includeObject type = (r <- includeStandardObject type ;; ret (Some r))).
Proof.
  intros Hobj. unfold includeObject. rewrite Hobj.
  split; [|split; [|split]].
  - intros E. rewrite bool_decide_eq_true_2 by assumption. split; [reflexivity|].
    intros c m c' Hrun. run_inv.
    match goal with
    | Hm : includeMappedObject _ _ = Returned _ _ |- _ =>
        apply includeMappedObject_mapped in Hm as (cm & n & k & o & v & ->)
    end. eauto 10.
  - intros E. rewrite bool_decide_eq_false_2 by (rewrite E; discriminate).
    rewrite bool_decide_eq_true_2 by assumption. split; [reflexivity|].
    intros c m c' Hrun. run_inv.
    match goal with
    | Hm : includeClassObject _ _ = Returned _ _ |- _ =>
        apply includeClassObject_class in Hm as (es & cm & ps & ts & impl & ->)
    end. eauto 10.
  - intros E1 E2. rewrite !bool_decide_eq_false_2 by assumption. split; [reflexivity|].
    intros c m c' Hrun. run_inv.
    match goal with
    | Hm : includeStandardObject _ _ = Returned _ _ |- _ =>
        apply includeStandardObject_interface in Hm as (es & cm & ps & ts & ->)
    end. eauto 10.
  - intros [E|E]; rewrite E; reflexivity.
Qed.

(** C7.  The [tuple] node built for a tuple type and the [union] node built
    for a union type list the classifications of the oracle's elements
    (resp. members) one by one, in the oracle's order: the [types] list has
    the length of the oracle's list and its [i]-th entry is what
    [includeType] answers for the [i]-th element. *)
Theorem union_tuple_order type c m c' :
  (isTupleType type = true ->
     includeCombinator type c = Returned m c' <->
     exists elements ts,
       typeArguments type = Some elements /\ m = Some (TTuple ts)
       /\ runsInOrder includeType elements ts c c')
  /\ (isTupleType type = false -> isReferenceType type = false ->
      isUnion type = Some true ->
        includeCombinator type c = Returned m c' <->
        exists members ts,
          types type = Some members /\ m = Some (TUnion ts)
          /\ runsInOrder includeType members ts c c')
  /\ (forall xs ys,
        runsInOrder includeType xs ys c c' ->
        length ys = length xs
        /\ forall (i : nat) x, xs !! i = Some x ->
             exists y ci ci', ys !! i = Some y /\ includeType x ci = Returned y ci').
Proof.
  split; [|split].
  - intros Ht. unfold includeCombinator. rewrite Ht. split.
    + intros Hrun. run_inv.
      match goal with
      | Hm : mapM _ _ _ = Returned _ _ |- _ => apply mapM_runsInOrder in Hm
      end. eauto.
    + intros (elements & ts & -> & -> & Hruns).
      apply mapM_runsInOrder in Hruns.
      unfold bind, need, ret. rewrite Hruns. reflexivity.
  - intros Ht Hr Hu. unfold includeCombinator, getUnion. rewrite Ht, Hr.
    rewrite bool_decide_eq_true_2 by assumption. split.
    + intros Hrun. run_inv.
      match goal with
      | Hm : mapM _ _ _ = Returned _ _ |- _ => apply mapM_runsInOrder in Hm
      end. eauto.
    + intros (members & ts & -> & -> & Hruns).
      apply mapM_runsInOrder in Hruns.
      unfold bind, need, ret. rewrite Hruns. reflexivity.
  - intros xs ys Hruns. split.
    + eapply runsInOrder_length; eassumption.
    + intros i x Hi. eapply runsInOrder_lookup; eassumption.
Qed.

(** C8 (amended).  An object type whose [objectFlags] are exactly [Mapped]
    is built by [includeMappedObject], whose answer is an [interface] node
    with no [extends], no own property, no type parameter and a [mapped]
    descriptor holding the name of the index variable, the classification of
    its constraint, an [optional] flag that is set exactly when the mapped
    type node has a [questionToken], and the classification of the type the
    checker gives for the value-type node of the declaration; where the
    declaration writes no value type, that is the checker's answer for a
    missing node.  The builder returns exactly when the mapped type node,
    its index variable and the declaration are there and the two
    classifications return. *)
Theorem mapped_type_shape type c m c' :
  (isObjectType type = true -> objectFlags type = Some ObjectFlags.Mapped ->
     includeObject type c = (r <- includeMappedObject type ;; ret (Some r)) c)
  /\ (includeMappedObject type c = Returned m c' <->
      exists node index isym decl k v c1,
        mappedDeclaration type = Some node
        /\ typeParameter node = Some index
        /\ symbol index = Some isym
        /\ declarationOf (symbol type) = Some decl
        /\ includeConstraint index c = Returned k c1
        /\ includeType (getTypeFromTypeNodeOf (type_ decl)) c1 = Returned v c'
        /\ m = TInterface [] (getComment (symbol type)) [] []
                 (Some (TMapped (symbolName isym) k (isDefined (questionToken node)) v)))
  /\ (forall decl,
        declarationOf (symbol type) = Some decl -> type_ decl = None ->
        forall node index isym k v c1,
          mappedDeclaration type = Some node ->
          typeParameter node = Some index ->
          symbol index = Some isym ->
          includeConstraint index c = Returned k c1 ->
          includeType checkerErrorType c1 = Returned v c' ->
          includeMappedObject type c
          = Returned (TInterface [] (getComment (symbol type)) [] []
                        (Some (TMapped (symbolName isym) k (isDefined (questionToken node)) v)))
              c').
Proof.
  assert (Hback : forall m c',
            (exists node index isym decl k v c1,
               mappedDeclaration type = Some node
               /\ typeParameter node = Some index
               /\ symbol index = Some isym
               /\ declarationOf (symbol type) = Some decl
               /\ includeConstraint index c = Returned k c1
               /\ includeType (getTypeFromTypeNodeOf (type_ decl)) c1 = Returned v c'
               /\ m = TInterface [] (getComment (symbol type)) [] []
                        (Some (TMapped (symbolName isym) k (isDefined (questionToken node)) v)))
            -> includeMappedObject type c = Returned m c').
  { clear m c'. intros m c'.
    unfold includeMappedObject, mappedDeclaration, declarationOf, first.
    intros (node & index & isym & decl & k & v & c1 & Hn & Hi & Hs & Hd & Hk & Hr & ->).
    destruct (typeParameter type) as [tp|]; [simpl in Hn|discriminate].
    destruct (symbol tp) as [tsym|] eqn:E1; [simpl in Hn|discriminate].
    destruct (declarations tsym) as [[|tdecl tds]|] eqn:E2;
      [discriminate|simpl in Hn|discriminate].
    destruct (symbol type) as [sym|]; [simpl in Hd|discriminate].
    destruct (declarations sym) as [[|decl0 ds]|] eqn:E3;
      [discriminate|simpl in Hd|discriminate].
    injection Hd as ->.
    unfold bind, need, ret. simpl.
    rewrite E1, E2. simpl. rewrite Hn, E3. simpl.
    rewrite Hi, Hs, Hk, Hr. reflexivity. }
  split; [|split].
  - intros Hobj Hflags. unfold includeObject. rewrite Hobj.
    rewrite bool_decide_eq_true_2 by assumption. reflexivity.
  - split; [|apply Hback].
    unfold includeMappedObject, mappedDeclaration, declarationOf, first.
    intros Hrun. run_inv.
    lazymatch goal with
    | Hc : includeConstraint ?i c = Returned ?k ?c1,
      Hv : includeType (getTypeFromTypeNodeOf (type_ ?d)) ?c1 = Returned ?v _,
      Hp : typeParameter ?n = Some ?i,
      Hs : symbol ?i = Some ?s |- _ => exists n, i, s, d, k, v, c1
    end.
    repeat match goal with
           | E : ?x = Some _ |- context [?x] => rewrite E; simpl
           end.
    auto 10.
  - intros decl Hd Hnone node index isym k v c1 Hn Hi Hs Hk Hv.
    apply Hback. exists node, index, isym, decl, k, v, c1.
    rewrite Hnone. simpl. auto 10.
Qed.

Lemma find_first {A} (p : A -> bool) (l : list A) (x : A) :
  List.find p l = Some x ->
  exists before after,
    l = before ++ x :: after /\ p x = true /\ Forall (fun y => p y = false) before.
Proof.
  induction l as [|y l IH]; simpl; [discriminate|].
  destruct (p y) eqn:E.
  - intros [= ->]. exists [], l. auto.
  - intros (before & after & -> & Hx & Hb)%IH.
    exists (y :: before), after. auto.
Qed.

(** the outcome of a [bind] whose continuation only wraps the result *)
Ltac by_outcomes :=
  unfold bind, ret, need, throw;
  repeat match goal with
         | |- context [match ?o with Some _ => _ | None => _ end] => destruct o
         | |- context [match ?m ?c with Returned _ _ => _ | TypeError => _ | Exhausted => _ end] =>
             destruct (m c)
         end;
  try reflexivity.

Lemma bind_ret_l {A B} (a : A) (k : A -> M B) c : bind (ret a) k c = k a c.
Proof. reflexivity. Qed.

(** C5.  [includeBasic] is the first-match-wins classifier over the
    priority list any, unknown, string literal, number literal, boolean
    literal, enum-literal union, enum union, bigint literal, string, boolean,
    number, bigint, symbol, unique symbol, void, undefined, null, never,
    conditional, substitution, non-primitive: on a type object (one that has
    the [isUnion] method) it answers with the node built for the first case
    of the list that recognizes the type, whatever later cases recognize it
    too, and with no match, without failing and without touching the
    context, when no case does. *)
Theorem includeBasic_first_match type c :
  is_Some (isUnion type) ->
  includeBasic type c =
    match firstMatch type with
    | Some k => (r <- buildBasic k type ;; ret (Some r)) c
    | None => Returned None c
    end
  /\ (forall k, firstMatch type = Some k ->
        exists before after,
          basicPriority = before ++ k :: after
          /\ recognizes k type = true
          /\ Forall (fun k' => recognizes k' type = false) before)
  /\ (forall k m c', buildBasic k type c = Returned m c' -> kind m = kindOfCase k)
  /\ (forall k, isTerminalCase k = true -> exists m, buildBasic k type c = Returned m c).
Proof.
  intros [u Hu]. split; [|split; [|split]].
  - unfold includeBasic, firstMatch, basicPriority, andIsUnion.
    cbn [List.find recognizes]. rewrite Hu.
    do 5 (match goal with
          | |- (if ?b then _ else _) _ = _ => destruct b eqn:?; [reflexivity|]
          end).
    assert (Et : bool_decide (Some true = Some true) = true) by reflexivity.
    assert (Ef : bool_decide (Some false = Some true) = false) by reflexivity.
    destruct (hasFlag (flags type) TypeFlags.EnumLiteral) eqn:?;
      destruct (hasFlag (flags type) TypeFlags.Enum) eqn:?;
      destruct u; cbn [andb need]; rewrite ?Et, ?Ef;
      rewrite !bind_ret_l; cbn [buildBasic].
    all: repeat match goal with
                | |- (if ?b then _ else _) _ = _ => destruct b eqn:?; cbn [buildBasic]
                end.
    all: by_outcomes.
  - intros k Hk. apply find_first in Hk. exact Hk.
  - intros k m c' Hrun. destruct k; cbn [buildBasic] in Hrun; run_inv; reflexivity.
  - intros k Hk. destruct k; try discriminate; cbn [buildBasic]; eexists; reflexivity.
Qed.

Lemma pop_take {A} (l : list A) : pop l = take (length l - 1) l.
Proof.
  unfold pop. induction l as [|x l IH]; [reflexivity|].
  destruct l as [|y l]; [reflexivity|].
  change (removelast (x :: y :: l)) with (x :: removelast (y :: l)).
  rewrite IH. simpl. rewrite Nat.sub_0_r. reflexivity.
Qed.

Lemma popDownTo_take (n : nat) (maxTypes : Z) (types : list TypeModel) :
  (0 <= maxTypes)%Z -> (length types <= n)%nat ->
  popDownTo n maxTypes types = take (Z.to_nat maxTypes) types.
Proof.
  intros Hmax. revert types. induction n as [|n IH]; intros types Hlen.
  - destruct types; [|simpl in Hlen; lia]. rewrite take_nil. reflexivity.
  - simpl. destruct (Z.gtb_spec (Z.of_nat (length types)) maxTypes) as [Hgt|Hle].
    + rewrite IH by (rewrite pop_take, length_take; lia).
      rewrite pop_take, take_take. f_equal. lia.
    + rewrite take_ge by lia. reflexivity.
Qed.

Lemma dropDefaults_take (i : nat) defaults args (types : list TypeModel) :
  dropDefaults i defaults args types
  = take (length types - trailingMatches i defaults args) types.
Proof.
  revert types. induction i as [|i IH]; intros types; simpl.
  - rewrite Nat.sub_0_r, firstn_all. reflexivity.
  - destruct (truthyId (mjoin (defaults !! i))); simpl.
    + destruct (bool_decide (mjoin (defaults !! i) = mjoin (args !! i))); simpl.
      * rewrite IH, pop_take, length_take, take_take. f_equal. lia.
      * rewrite Nat.sub_0_r, firstn_all. reflexivity.
    + rewrite Nat.sub_0_r, firstn_all. reflexivity.
Qed.

Lemma typesLength_nonneg m n : typesLength m = Some n -> (0 <= n)%Z.
Proof. destruct m; simpl; intros [= <-]; lia. Qed.

(** X16.  [normalizeTypeParameters] first cuts the supplied arguments down
    to the length of the [types] list of the node registered under the
    [ref] name and leaves them uncut when there is no such node or list;
    then, going down from the last declared parameter, it drops the last
    remaining argument as long as the parameter's default has an id that is
    set, not [0], and equal to the id of the argument supplied at the same
    position, and stops at the first parameter for which this fails.  So
    for [<T, U = string>], when both arguments survive the cut, the
    arguments [<number, string>] are cut down to [number] and the arguments
    [<number, boolean>] are both kept. *)
Theorem normalizeTypeParameters_trims type decl types refName c :
  (Z.of_nat (length types) <= MAX_SAFE_INTEGER)%Z ->
  let bound := mjoin (refs c !! keyOf refName) ≫= typesLength in
  let kept := match bound with
              | Some n => take (Z.to_nat n) types
              | None => types
              end in
  let defaults := typeParameterIdsOf decl in
  let args := typeArgumentIdsOf type in
  normalizeTypeParameters type decl types refName c
    = Returned (take (length kept - trailingMatches (length defaults) defaults args) kept) c
  /\ (forall (s n b : nat) (t1 t2 : TypeModel),
        s <> 0%nat -> b <> s -> types = [t1; t2] -> kept = types ->
        defaults = [None; Some s] ->
        (args = [Some n; Some s] ->
           normalizeTypeParameters type decl types refName c = Returned [t1] c)
        /\ (args = [Some n; Some b] ->
              normalizeTypeParameters type decl types refName c = Returned [t1; t2] c)).
Proof.
  intros Hlen bound kept defaults args.
  assert (Hrun : normalizeTypeParameters type decl types refName c
    = Returned (take (length kept - trailingMatches (length defaults) defaults args) kept) c).
  { unfold normalizeTypeParameters, bind, getRefs, ret. f_equal.
    rewrite dropDefaults_take. fold defaults args.
    assert (Hkept : popDownTo (length types) (maxTypesOf (refs c) refName) types = kept).
    { unfold maxTypesOf, kept, bound.
      destruct (mjoin (refs c !! keyOf refName) ≫= typesLength) as [n|] eqn:E; simpl.
      - apply popDownTo_take; [|lia].
        destruct (mjoin (refs c !! keyOf refName)) as [m|]; [|discriminate].
        eapply typesLength_nonneg. exact E.
      - rewrite popDownTo_take by (unfold MAX_SAFE_INTEGER; lia).
        apply take_ge. lia. }
    rewrite Hkept. reflexivity. }
  split; [exact Hrun|].
  intros s n b t1 t2 Hs Hb Ht Hk Hd. rewrite Hrun, Hk, Ht, Hd.
  split; intros ->; f_equal; simpl.
  - destruct s as [|s]; [congruence|]. simpl.
    rewrite bool_decide_eq_true_2 by reflexivity. reflexivity.
  - destruct s as [|s]; [congruence|]. simpl.
    rewrite bool_decide_eq_false_2 by congruence. reflexivity.
Qed.

(** ** "No match" leaves the context alone *)

Lemma includeBasic_None type c c' : includeBasic type c = Returned None c' -> c' = c.
Proof.
  unfold includeBasic, andIsUnion. intros Hrun.
  repeat match type of Hrun with
         | (if ?b then _ else _) _ = _ => destruct b
         | bind _ _ _ = _ =>
             let a := fresh "a" in let c1 := fresh "c" in let Hs := fresh "Hstep" in
             apply bind_Returned in Hrun as (a & c1 & Hs & Hrun)
         end;
    apply ret_Returned in Hrun as [Hrun ->]; try discriminate Hrun.
  repeat match goal with
         | Hs : (if ?b then _ else _) _ = Returned _ _ |- _ => destruct b
         end;
    run_inv; reflexivity.
Qed.

Lemma includeCombinator_None type c c' : includeCombinator type c = Returned None c' -> c' = c.
Proof.
  unfold includeCombinator. intros Hrun.
  repeat match type of Hrun with
         | (if ?b then _ else _) _ = _ => destruct b
         end;
    run_inv; try discriminate; reflexivity.
Qed.

Lemma includeHiddenAnonymous_None type c c' :
  includeHiddenAnonymous type c = Returned None c' -> c' = c.
Proof.
  unfold includeHiddenAnonymous. intros Hrun.
  repeat match type of Hrun with
         | (if ?b then _ else _) _ = _ => destruct b
         end;
    run_inv; try discriminate; reflexivity.
Qed.

Lemma includeObject_None type c c' :
  includeObject type c = Returned None c' -> c' = c /\ isObjectType type = false.
Proof.
  unfold includeObject. intros Hrun.
  destruct (isObjectType type); [|run_inv; auto].
  repeat match type of Hrun with
         | (if ?b then _ else _) _ = _ => destruct b
         end;
    run_inv; discriminate.
Qed.

Lemma includeReference_None type c c' : includeReference type c = Returned None c' -> c' = c.
Proof.
  unfold includeReference. intros Hrun.
  destruct (bool_decide _); run_inv; try discriminate; reflexivity.
Qed.

(** ** Index and call members of an object shape *)

Lemma inheritsIndex_spec (getIndex : Obj -> option Obj) inherited indexType :
  inheritsIndex getIndex inherited indexType = true <->
  exists m e, m ∈ inherited /\ externalOf m = Some e /\ getIndex e = Some indexType.
Proof.
  unfold inheritsIndex. rewrite existsb_exists. split.
  - intros (m & Hin & Hm). apply bool_decide_eq_true_1 in Hm.
    destruct (externalOf m) as [e|] eqn:E; [|discriminate].
    exists m, e. rewrite list_elem_of_In. auto.
  - intros (m & e & Hin & He & Hg). exists m. rewrite <- list_elem_of_In.
    split; [exact Hin|]. apply bool_decide_eq_true_2. rewrite He. exact Hg.
Qed.

Lemma emitsIndex_spec (getIndex : Obj -> option Obj) inherited type :
  emitsIndex getIndex inherited type = true <->
  exists indexType,
    getIndex type = Some indexType
    /\ forall m e, m ∈ inherited -> externalOf m = Some e -> getIndex e <> Some indexType.
Proof.
  unfold emitsIndex. destruct (getIndex type) as [it|]; split.
  - intros Hn%negb_true_iff. exists it. split; [reflexivity|].
    intros m e Hin He Hg.
    assert (inheritsIndex getIndex inherited it = true) by (apply inheritsIndex_spec; eauto).
    congruence.
  - intros (it' & [= <-] & Hall). apply negb_true_iff.
    destruct (inheritsIndex getIndex inherited it) eqn:E; [|reflexivity].
    apply inheritsIndex_spec in E as (m & e & Hin & He & Hg).
    exfalso. eapply Hall; eassumption.
  - discriminate.
  - intros (it & [=] & _).
Qed.

Lemma includeIndexMember_spec getIndex inherited type keyType info c l c' :
  includeIndexMember getIndex inherited type keyType info c = Returned l c' ->
  (emitsIndex getIndex inherited type = true
   /\ exists indexType v,
        getIndex type = Some indexType
        /\ includeType indexType c = Returned v c'
        /\ l = [indexMember keyType info v])
  \/ (emitsIndex getIndex inherited type = false /\ l = [] /\ c' = c).
Proof.
  unfold includeIndexMember, emitsIndex, getIndexType, indexMember.
  destruct (getIndex type) as [it|]; [|intros Hrun; run_inv; auto].
  destruct (inheritsIndex getIndex inherited it); simpl; intros Hrun; run_inv.
  - right. auto.
  - left. split; [reflexivity|]. eauto 10.
Qed.

Lemma getPropType_prop prop c m c' :
  getPropType prop c = Returned m c' -> isPropNode m = true.
Proof. unfold getPropType. intros Hrun. run_inv. reflexivity. Qed.

Lemma getFunctionType_function sign c m c' :
  getFunctionType sign c = Returned m c' -> isFunctionNode m = true.
Proof. unfold getFunctionType. intros Hrun. run_inv. reflexivity. Qed.

Lemma runsInOrder_Forall {A B} (f : A -> M B) (P : B -> Prop) xs ys c c' :
  (forall x c0 y c1, f x c0 = Returned y c1 -> P y) ->
  runsInOrder f xs ys c c' -> Forall P ys.
Proof. intros Hf. induction 1; constructor; eauto. Qed.

(** X17.  The members of the node [includeStandardObject] builds are, in
    this order: the own properties, the [index] member of the number index,
    the [index] member of the string index, and one [function] member per
    call signature, the [i]-th of them being the function node of the
    [i]-th signature.  The [index] member of a kind is there exactly when
    the type has an index type of that kind and no inherited [ref] that
    carries its oracle type ([external]) has that same index type; an
    inherited base whose [ref] carries no oracle type is not looked at.  The
    member has the one parameter named by [getKeyName] of the declared index
    info, typed [number] resp. [string]. *)
Theorem index_and_call_members type c m c' :
  includeStandardObject type c = Returned m c' ->
  exists es impl c0 own numberIndex stringIndex calls cm ts c1 c2,
    includeInheritedTypes type c = Returned (es, impl) c0
    /\ m = TInterface es cm (own ++ numberIndex ++ stringIndex ++ calls) ts None
    /\ Forall (fun p => isPropNode p = true) own
    /\ (if emitsIndex getNumberIndexType (es ++ impl) type
        then exists v, numberIndex = [indexMember TNumber (declaredNumberIndexInfo type) v]
        else numberIndex = [])
    /\ (if emitsIndex getStringIndexType (es ++ impl) type
        then exists v, stringIndex = [indexMember TString (declaredStringIndexInfo type) v]
        else stringIndex = [])
    /\ runsInOrder getFunctionType (default [] (getCallSignatures type)) calls c1 c2
    /\ (forall (i : nat) sign,
          default [] (getCallSignatures type) !! i = Some sign ->
          exists f ci ci', calls !! i = Some f /\ getFunctionType sign ci = Returned f ci')
    /\ Forall (fun f => isFunctionNode f = true) calls
    /\ length calls = length (default [] (getCallSignatures type))
    /\ (forall getIndex,
          emitsIndex getIndex (es ++ impl) type = true <->
          exists indexType,
            getIndex type = Some indexType
            /\ forall b e, b ∈ es ++ impl -> externalOf b = Some e ->
                 getIndex e <> Some indexType).
Proof.
  unfold includeStandardObject. intros Hrun. run_inv.
  destruct a as [es impl]. simpl in *.
  repeat match goal with
         | Hi : includeIndexMember _ _ _ _ _ _ = Returned _ _ |- _ =>
             apply includeIndexMember_spec in Hi
         end.
  match goal with
  | Homap : mapM getPropType _ _ = Returned ?own _,
    Hcalls : match getCallSignatures type with _ => _ end ?ca = Returned ?calls ?cb |- _ =>
      assert (Hruns : runsInOrder getFunctionType (default [] (getCallSignatures type))
                        calls ca cb)
        by (destruct (getCallSignatures type) as [signs|]; simpl;
            [apply mapM_runsInOrder; exact Hcalls | run_inv; constructor]);
      clear Hcalls;
      exists es, impl, c0, own; do 2 eexists; exists calls; do 2 eexists; exists ca, cb;
      split; [eassumption|]; split; [reflexivity|]; split;
      [apply mapM_runsInOrder in Homap;
       eapply runsInOrder_Forall; [|exact Homap]; intros; eapply getPropType_prop; eassumption|]
  end.
  split; [|split; [|split; [|split; [|split; [|split]]]]].
  - match goal with
    | Hn : (emitsIndex getNumberIndexType _ _ = true /\ _) \/ _ |- _ =>
        destruct Hn as [[-> (it & v & _ & _ & ->)] | [-> [-> _]]]; eauto
    end.
  - match goal with
    | Hn : (emitsIndex getStringIndexType _ _ = true /\ _) \/ _ |- _ =>
        destruct Hn as [[-> (it & v & _ & _ & ->)] | [-> [-> _]]]; eauto
    end.
  - exact Hruns.
  - intros i sign Hi. eapply runsInOrder_lookup; eassumption.
  - eapply runsInOrder_Forall; [|exact Hruns]; intros;
      eapply getFunctionType_function; eassumption.
  - eapply runsInOrder_length; exact Hruns.
  - intros getIndex. apply emitsIndex_spec.
Qed.

End Claims.
Lemma isRefNode_kind (m : TypeModel) : isRefNode m = true <-> kind m = "ref".
Proof. destruct m; simpl; split; (reflexivity || discriminate). Qed.

(** C10.  [includeExportedType] classifies the type and then writes the
    node under the name of the type's symbol exactly when the node is not a
    [ref]; when the node is a [ref] the call adds nothing to what the
    classification did, and the classification itself leaves every entry that
    was registered before the call as it was. *)
Theorem includeExportedType_registry `{Orc : Oracle} `{Hp : Helpers} (fuel : nat) type c :
  (forall u c',
     @includeExportedType _ _ (walk fuel) type c = Returned u c' ->
     exists sym node c1,
       symbol type = Some sym
       /\ runIncludeType fuel type c = Returned node c1
       /\ refs c ⊆ refs c1
       /\ (kind node = "ref" -> c' = c1)
       /\ (kind node <> "ref" ->
             refs c' = <[symbolName sym := Some node]> (refs c1)
             /\ usedImports c' = usedImports c1))
  /\ (forall sym node c1,
        symbol type = Some sym ->
        runIncludeType fuel type c = Returned node c1 ->
        exists c', @includeExportedType _ _ (walk fuel) type c = Returned tt c').
Proof.
  unfold includeExportedType, runIncludeType. split.
  - intros u c' Hrun. run_inv.
    match goal with
    | Hs : symbol type = Some ?s, Ht : includeType type c = Returned ?n ?c1 |- _ =>
        exists s, n, c1; split; [exact Hs|]; split; [exact Ht|]; split;
        [exact (includeType_grows _ (walk_grows fuel) type _ _ _ Ht)|]
    end.
    destruct (isRefNode a0) eqn:E; simpl in Hrun.
    + run_inv. split; [reflexivity|].
      intros Hk. apply isRefNode_kind in E. contradiction.
    + apply setRef_Returned in Hrun as [? ?]. split; [|auto].
      intros Hk%isRefNode_kind. congruence.
  - intros sym node c1 Hs Ht. unfold bind, need. rewrite Hs. simpl.
    unfold ret at 1. rewrite Ht.
    destruct (negb (isRefNode node)); simpl; eauto.
Qed.

(** ** [Pair<number, string>] and [Pair<number, boolean>] *)

Section GenericsRuns.
Import Demo Generics.

Lemma normalizeTypeParameters_trims_witness :
  (Z.of_nat (length [TNumber; TString]) <= MAX_SAFE_INTEGER)%Z
  /\ @normalizeTypeParameters (oracle heap) (helpers heap) pairNumberString (Some pairDecl)
       [TNumber; TString] (Some "Pair") registered = Returned [TNumber] registered
  /\ @normalizeTypeParameters (oracle heap) (helpers heap) pairNumberBoolean (Some pairDecl)
       [TNumber; TBoolean] (Some "Pair") registered = Returned [TNumber; TBoolean] registered.
Proof.
  assert (H2 : (Z.of_nat 2 <= MAX_SAFE_INTEGER)%Z) by (vm_compute; discriminate).
  split; [exact H2|]. split.
  - refine (proj1 (proj2 (@normalizeTypeParameters_trims (oracle heap) (helpers heap)
              pairNumberString (Some pairDecl) [TNumber; TString] (Some "Pair") registered
              H2) 5%nat 6%nat 7%nat TNumber TString _ _ eq_refl eq_refl eq_refl) eq_refl);
      discriminate.
  - refine (proj2 (proj2 (@normalizeTypeParameters_trims (oracle heap) (helpers heap)
              pairNumberBoolean (Some pairDecl) [TNumber; TBoolean] (Some "Pair") registered
              H2) 5%nat 6%nat 7%nat TNumber TBoolean _ _ eq_refl eq_refl eq_refl) eq_refl);
      discriminate.
Defined.

(** C2.  The truncation reads its bound from the registry entry of the
    target, not from the declaration, and so misses the declared parameter
    count in two ways.  The reference to the library interface [Result<T>],
    which is never registered, keeps the [this] type the checker supplies as
    a second argument, although [Result] declares one parameter.  And while
    [Node<T>] is under construction its entry is the placeholder, whose
    [types] list is empty, so the reference to [Node<T>] in its own body
    loses every argument: the node registered for [Node] has the property
    [next: Node]. *)
Theorem type_argument_bound_read_from_registry :
  (let O := oracle heap in
   let args := [TNumber; TRef [] (Some "Result") (Some resultThis)] in
   resultOf (@normalizeTypeParameters O (helpers heap) resultWithThis (Some resultDecl) args
               (Some "Result") (emptyContext heap)) = Some args
   /\ length (default [] (typeParameters resultDecl)) = 1%nat
   /\ normalizeAsSpecified resultWithThis (Some resultDecl) args = [TNumber]
   /\ resultOf (@runIncludeType O (helpers heap) 10 resultWithThis (emptyContext heap))
      = Some (TRef args (Some "Result") (Some resultWithThis)))
  /\ (let O := oracle Recursive.heap in
      let Hs := helpers Recursive.heap in
      let args := [TRef [] (Some "T") None; TRef [] (Some "Node") None] in
      let underConstruction := contextOf Recursive.heap {["Node" := Some (placeholder "Node")]} in
      resultOf (@normalizeTypeParameters O Hs Recursive.nodeType (Some Recursive.nodeDecl) args
                  (Some "Node") underConstruction) = Some []
      /\ length (default [] (typeParameters Recursive.nodeDecl)) = 1%nat
      /\ normalizeAsSpecified Recursive.nodeType (Some Recursive.nodeDecl) args
         = [TRef [] (Some "T") None]
      /\ registryOf (@runIncludeType O Hs 10 Recursive.nodeType (emptyContext Recursive.heap))
         = Some [("Node",
                  Some (TInterface [] (Some "")
                          [TProp "next" "" (Some 103%nat) false (Some "")
                             (TRef [] (Some "Node") None)]
                          [Some (TTypeParameter (TRef [] (Some "T") None) None None)] None));
                 ("T", None)]).
Proof. vm_compute. repeat split; reflexivity. Qed.

End GenericsRuns.


(** ** The registry discipline of [makeRef] and [makeAliasRef] *)

(** case analysis on every run a goal inspects *)
Ltac cases_on_outcomes :=
  repeat match goal with
         | |- context [if ?b then _ else _] => destruct b
         | |- context [match ?m ?c with Returned _ _ => _ | TypeError => _ | Exhausted => _ end] =>
             destruct (m c)
         end;
  try reflexivity.

Section Registry.
Context `{Orc : Oracle} `{Hp : Helpers} `{W : !Walk}.
Hypothesis HW : WalkGrows W.

Lemma includeRef_ref type refName external c m c' :
  includeRef type refName external c = Returned m c' ->
  exists ts, m = TRef ts refName external.
Proof. unfold includeRef. intros Hrun. run_inv. eauto. Qed.

Lemma makeRef_absent type name cb c :
  refs c !! name = None ->
  makeRef type name cb c =
    (ty <- refTarget type ;;
     node <- cb ty ;;
     setRef name node ;;;
     includeRef type (Some name) None) (stored name (Some (placeholder name)) c).
Proof.
  intros Hnone. unfold makeRef, refTarget, bind, getRefs, setRef, stored.
  rewrite Hnone. cases_on_outcomes.
Qed.

Lemma makeRef_present type name cb c :
  is_Some (refs c !! name) ->
  makeRef type name cb c = includeRef type (Some name) None c.
Proof.
  intros [v Hv]. unfold makeRef, bind at 1, getRefs. rewrite Hv. reflexivity.
Qed.

Lemma makeRef_registered type name cb c m c' :
  (forall x, grows (cb x)) ->
  makeRef type name cb c = Returned m c' ->
  (exists ts, m = TRef ts (Some name) None) /\ is_Some (refs c' !! name).
Proof.
  intros Hcb Hrun. destruct (refs c !! name) as [v|] eqn:E.
  - pose proof (makeRef_grows HW type name cb Hcb c m c' Hrun) as Hsub.
    rewrite makeRef_present in Hrun by eauto.
    split; [eapply includeRef_ref; eassumption|].
    exists v. eapply lookup_weaken; eassumption.
  - rewrite makeRef_absent in Hrun by assumption. run_inv.
    match goal with
    | Hs : setRef _ _ _ = Returned _ _, Hr : includeRef _ _ _ _ = Returned _ _ |- _ =>
        apply setRef_Returned in Hs as [Hs _];
        pose proof (includeRef_grows HW _ _ _ _ _ _ Hr) as Hsub;
        split; [eapply includeRef_ref; exact Hr|]
    end.
    eexists. eapply lookup_weaken; [|exact Hsub].
    match goal with Hs : refs _ = _ |- _ => rewrite Hs end.
    apply lookup_insert_eq.
Qed.

Lemma makeAliasRef_start type name decl c :
  aliasDeclaration type = Some decl ->
  makeAliasRef type name c =
    match includeExternal decl c with
    | Returned ext c0 =>
        match ext with
        | Some (TRef _ refName _) => aliasRef type decl refName c0
        | _ =>
            match refs c0 !! name with
            | None =>
                (node <- buildAlias decl ;; setRef name node ;;;
                 aliasRef type decl (Some name)) (stored name (Some (placeholder name)) c0)
            | Some _ => aliasRef type decl (Some name) c0
            end
        end
    | TypeError => TypeError
    | Exhausted => Exhausted
    end.
Proof.
  unfold aliasDeclaration, first. intros Hdecl.
  destruct (aliasSymbol type) as [asym|] eqn:E1; [simpl in Hdecl|discriminate].
  destruct (declarations asym) as [[|d ds]|] eqn:E2; try discriminate.
  injection Hdecl as ->.
  unfold makeAliasRef, bind at 1. rewrite E1. simpl.
  unfold bind at 1. rewrite E2. simpl. unfold bind at 1. simpl. unfold bind at 1.
  destruct (includeExternal decl c) as [ext c0| |]; [|reflexivity|reflexivity].
  assert (Hreg : (name0 <- (rs <- getRefs ;;
                          match rs !! name with
                          | None =>
                              setRef name (Some (placeholder name)) ;;;
                              ts <- match typeParameters decl with
                                    | Some l => mapM includeTypeParameter l
                                    | None => ret []
                                    end ;;
                              child <- includeAnonymous (getTypeAtLocation decl) ;;
                              setRef name (Some (TAlias (getComment (symbol decl)) ts child))
                          | Some _ => ret tt
                          end ;;; ret (Some name)) ;;
                 types <- match aliasTypeArguments type with
                          | Some l => mapM includeType l
                          | None => ret []
                          end ;;
                 ts <- normalizeTypeParameters type (Some decl) types name0 ;;
                 ret (TRef ts name0 None)) c0
                = match refs c0 !! name with
                  | None =>
                      (node <- buildAlias decl ;; setRef name node ;;;
                       aliasRef type decl (Some name))
                        (stored name (Some (placeholder name)) c0)
                  | Some _ => aliasRef type decl (Some name) c0
                  end).
  { unfold bind at 1. unfold bind at 1. unfold bind at 1. unfold getRefs.
    destruct (refs c0 !! name) as [v|]; [reflexivity|].
    unfold bind at 1. unfold setRef at 1. fold (stored name (Some (placeholder name)) c0).
    unfold buildAlias, bind.
    destruct (match typeParameters decl with
              | Some l => mapM includeTypeParameter l
              | None => ret []
              end (stored name (Some (placeholder name)) c0)) as [ts c1| |];
      [|reflexivity|reflexivity].
    destruct (includeAnonymous (getTypeAtLocation decl) c1) as [child c2| |]; reflexivity. }
  destruct ext as [m|]; [destruct m|]; solve [exact Hreg | reflexivity].
Qed.

Lemma filter_none {A} (P : A -> Prop) `{forall x, Decision (P x)} (l : list A) :
  (forall x, x ∈ l -> ~ P x) -> filter P l = [].
Proof.
  induction l as [|x l IH]; intros Hl; [reflexivity|].
  rewrite filter_cons_False by (apply Hl; left).
  apply IH. intros y Hy. apply Hl. right. exact Hy.
Qed.

Lemma entriesFor_one (name : string) (rs : gmap string (option TypeModel)) v :
  rs !! name = Some v -> entriesFor name rs = [(name, v)].
Proof.
  intros Hv. unfold entriesFor.
  assert (Hperm : map_to_list rs ≡ₚ (name, v) :: map_to_list (delete name rs)).
  { rewrite <- (insert_delete_id rs name v Hv) at 1.
    apply map_to_list_insert, lookup_delete_eq. }
  assert (Hlen : filter (fun kv : string * option TypeModel => kv.1 = name)
                   (map_to_list rs) ≡ₚ [(name, v)]).
  { rewrite Hperm, filter_cons_True by reflexivity.
    assert (Hnil : filter (fun kv : string * option TypeModel => kv.1 = name)
                     (map_to_list (delete name rs)) = []).
    { apply filter_none. intros [k w] Hkw%elem_of_map_to_list. simpl. intros ->.
      rewrite lookup_delete_eq in Hkw. discriminate. }
    rewrite Hnil. reflexivity. }
  apply Permutation_singleton_r in Hlen. exact Hlen.
Qed.

Lemma aliasRef_ref type decl name c m c' :
  aliasRef type decl name c = Returned m c' -> exists ts, m = TRef ts name None.
Proof. unfold aliasRef. intros Hrun. run_inv. eauto. Qed.

Lemma aliasRef_grows type decl name : grows (aliasRef type decl name).
Proof.
  unfold aliasRef. grows_auto;
    first [apply rec_includeType_grows; exact HW | apply normalizeTypeParameters_grows].
Qed.

Lemma makeAliasRef_registered type name decl ext c c0 m c' :
  aliasDeclaration type = Some decl ->
  includeExternal decl c = Returned ext c0 ->
  isExternalRef ext = false ->
  makeAliasRef type name c = Returned m c' ->
  (exists ts, m = TRef ts (Some name) None) /\ is_Some (refs c' !! name).
Proof.
  intros Hdecl Hext Hnot Hrun.
  rewrite (makeAliasRef_start _ _ _ _ Hdecl), Hext in Hrun.
  assert (Hcase : match refs c0 !! name with
                  | None =>
                      (node <- buildAlias decl ;; setRef name node ;;;
                       aliasRef type decl (Some name))
                        (stored name (Some (placeholder name)) c0)
                  | Some _ => aliasRef type decl (Some name) c0
                  end = Returned m c').
  { destruct ext as [x|]; [destruct x; try exact Hrun; discriminate Hnot | exact Hrun]. }
  clear Hrun. destruct (refs c0 !! name) as [v|] eqn:E.
  - split; [eapply aliasRef_ref; exact Hcase|].
    exists v. eapply lookup_weaken; [exact E|]. eapply aliasRef_grows. exact Hcase.
  - run_inv.
    match goal with
    | Hs : setRef _ _ _ = Returned _ _, Hr : aliasRef _ _ _ _ = Returned _ _ |- _ =>
        apply setRef_Returned in Hs as [Hs _];
        pose proof (aliasRef_grows _ _ _ _ _ _ Hr) as Hsub;
        split; [eapply aliasRef_ref; exact Hr|];
        eexists; eapply lookup_weaken; [|exact Hsub]; rewrite Hs
    end.
    apply lookup_insert_eq.
Qed.

End Registry.

Lemma includeExternal_None `{Orc : Oracle} `{Hp : Helpers} `{W : !Walk} type c c' :
  includeExternal type c = Returned None c' -> c' = c.
Proof.
  unfold includeExternal. intros Hrun.
  repeat match type of Hrun with
         | (if ?b then _ else _) _ = _ => destruct b
         end;
    try (apply includeHiddenAnonymous_None in Hrun; exact Hrun);
    run_inv; try discriminate; reflexivity.
Qed.

(** C1 (amended).  A request for a named type reaches [makeRef] when the
    type is not answered through its alias and the external resolution
    gives nothing for it, and [makeAliasRef] when it is answered through its
    alias.  A name that is not yet in the registry is constructed with its
    placeholder [ref] already stored under the name: [makeRef] (and
    [makeAliasRef], for an alias whose declaration is not resolved to an
    external [ref]) stores the placeholder, runs the body builders in the
    context that holds it, and then overwrites it with the built node.  A
    request for a name that is present, the placeholder included, does not
    construct anything and answers with a [ref] to the name.  Hence two
    requests for the same name answer with [ref] nodes of the same
    [refName], and the registry holds exactly one entry for the name, which
    the second request leaves as it is. *)
Theorem named_type_registered_once `{Orc : Oracle} `{Hp : Helpers} (fuel : nat)
    type name c :
  let W := walk fuel in
  (forall nm c0,
     truthyName nm = true -> keyOf nm = name ->
     isDefined (aliasSymbol type) && aliasDiffers type = false ->
     includeExternal type c = Returned None c0 ->
     isAnonymous nm = false -> isAnonymousObject type = false ->
     getTypeModelBody type nm c = makeRef type name includeNamed c)
  /\ (forall nm,
        truthyName nm = true -> keyOf nm = name ->
        isDefined (aliasSymbol type) && aliasDiffers type = true ->
        getTypeModelBody type nm c = makeAliasRef type name c)
  /\ (refs c !! name = None ->
        makeRef type name includeNamed c =
          (ty <- refTarget type ;;
           node <- includeNamed ty ;;
           setRef name node ;;;
           includeRef type (Some name) None) (stored name (Some (placeholder name)) c))
  /\ (is_Some (refs c !! name) ->
        makeRef type name includeNamed c = includeRef type (Some name) None c)
  /\ (forall m c',
        makeRef type name includeNamed c = Returned m c' ->
        (exists ts, m = TRef ts (Some name) None)
        /\ (exists v, entriesFor name (refs c') = [(name, v)])
        /\ forall type' m' c'',
             makeRef type' name includeNamed c' = Returned m' c'' ->
             refNameOf m' = refNameOf m
             /\ entriesFor name (refs c'') = entriesFor name (refs c'))
  /\ (forall decl ext c0,
        aliasDeclaration type = Some decl ->
        includeExternal decl c = Returned ext c0 ->
        isExternalRef ext = false ->
        (refs c0 !! name = None ->
           makeAliasRef type name c =
             (node <- buildAlias decl ;;
              setRef name node ;;;
              aliasRef type decl (Some name)) (stored name (Some (placeholder name)) c0))
        /\ (is_Some (refs c0 !! name) ->
              makeAliasRef type name c = aliasRef type decl (Some name) c0)
        /\ forall m c',
             makeAliasRef type name c = Returned m c' ->
             (exists ts, m = TRef ts (Some name) None)
             /\ (exists v, entriesFor name (refs c') = [(name, v)])
             /\ forall ext' c1 m' c'',
                  includeExternal decl c' = Returned ext' c1 ->
                  isExternalRef ext' = false ->
                  makeAliasRef type name c' = Returned m' c'' ->
                  refNameOf m' = refNameOf m
                  /\ entriesFor name (refs c'') = entriesFor name (refs c')).
Proof.
  intros W. pose proof (walk_grows fuel) as HW. fold W in HW.
  assert (Hnamed : forall x, grows (includeNamed x)) by (intros x; apply includeNamed_grows, HW).
  split; [|split; [|split; [|split; [|split]]]].
  - intros nm c0 Hnm <- Halias Hext Hanon Hobj.
    pose proof (includeExternal_None _ _ _ Hext) as ->.
    unfold getTypeModelBody. rewrite Hnm, Halias. unfold bind at 1.
    rewrite Hext, Hanon, Hobj. reflexivity.
  - intros nm Hnm <- Halias. unfold getTypeModelBody. rewrite Hnm, Halias. reflexivity.
  - apply makeRef_absent.
  - apply makeRef_present.
  - intros m c' Hrun.
    destruct (makeRef_registered HW _ _ _ _ _ _ Hnamed Hrun) as [[ts ->] [v Hv]].
    split; [eauto|]. split; [exists v; apply entriesFor_one, Hv|].
    intros type' m' c'' Hrun'.
    destruct (makeRef_registered HW _ _ _ _ _ _ Hnamed Hrun') as [[ts' ->] _].
    split; [reflexivity|].
    pose proof (makeRef_grows HW _ _ _ Hnamed _ _ _ Hrun') as Hsub.
    rewrite (entriesFor_one _ _ _ Hv).
    apply entriesFor_one. eapply lookup_weaken; eassumption.
  - intros decl ext c0 Hdecl Hext Hnot. split; [|split].
    + intros Hnone. rewrite (makeAliasRef_start _ _ _ _ Hdecl), Hext, Hnone.
      destruct ext as [x|]; [destruct x; try reflexivity; discriminate Hnot | reflexivity].
    + intros [v Hv]. rewrite (makeAliasRef_start _ _ _ _ Hdecl), Hext, Hv.
      destruct ext as [x|]; [destruct x; try reflexivity; discriminate Hnot | reflexivity].
    + intros m c' Hrun.
      destruct (makeAliasRef_registered HW _ _ _ _ _ _ _ _ Hdecl Hext Hnot Hrun)
        as [[ts ->] [v Hv]].
      split; [eauto|]. split; [exists v; apply entriesFor_one, Hv|].
      intros ext' c1 m' c'' Hext' Hnot' Hrun'.
      destruct (makeAliasRef_registered HW _ _ _ _ _ _ _ _ Hdecl Hext' Hnot' Hrun')
        as [[ts' ->] _].
      split; [reflexivity|].
      pose proof (makeAliasRef_grows HW _ _ _ _ _ Hrun') as Hsub.
      rewrite (entriesFor_one _ _ _ Hv).
      apply entriesFor_one. eapply lookup_weaken; eassumption.
Qed.

Lemma includeNamed_None `{Orc : Oracle} `{Hp : Helpers} `{W : !Walk} type c c' :
  includeNamed type c = Returned None c' -> c' = c /\ isObjectType type = false.
Proof.
  unfold includeNamed, orElse. intros Hrun.
  apply bind_Returned in Hrun as (r1 & c1 & Hb & Hrun).
  destruct r1 as [x|]; [apply ret_Returned in Hrun as [? _]; discriminate|].
  apply bind_Returned in Hrun as (r2 & c2 & Ho & Hrun).
  destruct r2 as [x|]; [apply ret_Returned in Hrun as [? _]; discriminate|].
  apply includeBasic_None in Hb as ->.
  apply includeObject_None in Ho as [-> Hobj].
  apply includeReference_None in Hrun as ->.
  auto.
Qed.

Lemma stored_stored `{Hp : Helpers} (name : string) (v w : option TypeModel)
    (c : DeclVisitorContext) :
  stored name v (stored name w c) = stored name v c.
Proof. unfold stored. simpl. f_equal. apply insert_insert_eq. Qed.

Lemma dropDefaults_nil (i : nat) (defaults args : list (option nat)) :
  dropDefaults i defaults args [] = [].
Proof.
  induction i as [|i IH]; simpl; [reflexivity|].
  destruct (negb _ || negb _); [reflexivity | exact IH].
Qed.

Lemma includeRef_plain `{Orc : Oracle} `{Hp : Helpers} `{W : !Walk} type refName external c :
  typeArguments type = None ->
  (symbol type = None
   \/ exists sym ds, symbol type = Some sym /\ declarations sym = Some ds) ->
  includeRef type refName external c = Returned (TRef [] refName external) c.
Proof.
  intros Hargs Hsym. unfold includeRef, getTypeArguments, normalizeTypeParameters.
  rewrite Hargs.
  destruct Hsym as [-> | (sym & ds & -> & Hds)];
    unfold bind, need, ret, getRefs; rewrite ?Hds; cbn [length popDownTo];
    rewrite dropDefaults_nil; reflexivity.
Qed.

(** C4 (amended).  A type none of the stages of the anonymous chain
    recognizes (primitive/literal classifier, combinator builder,
    hidden-anonymous resolution, object shape builder) is classified as an
    explicit [unidentified] node, without failing and without touching the
    context.  The chain for named types (primitive/literal classifier,
    object shape builder, alias-declaration reference) has no such last
    case: when none of its stages recognizes the type it gives no node, and
    [makeRef] then registers the name with no node and goes on as
    [includeRef] does in that registry: whenever that returns, the answer is
    a [ref] to the name; it does return, with a [ref] without arguments, for
    a type without type arguments whose symbol, if it has one, has
    declarations; and it throws for a type whose symbol has none. *)
Theorem unrecognized_type_fallback `{Orc : Oracle} `{Hp : Helpers} (fuel : nat) type c :
  let W := walk fuel in
  (forall c1 c2 c3 c4,
     includeBasic type c = Returned None c1 ->
     includeCombinator type c1 = Returned None c2 ->
     includeHiddenAnonymous type c2 = Returned None c3 ->
     includeObject type c3 = Returned None c4 ->
     c4 = c /\ includeAnonymousBody type c = Returned TUnidentified c)
  /\ (forall c1 c2 c3,
        includeBasic type c = Returned None c1 ->
        includeObject type c1 = Returned None c2 ->
        includeReference type c2 = Returned None c3 ->
        c3 = c /\ includeNamed type c = Returned None c)
  /\ (forall name cx,
        refs c !! name = None ->
        includeNamed type (stored name (Some (placeholder name)) c) = Returned None cx ->
        makeRef type name includeNamed c
        = includeRef type (Some name) None (stored name None c)
        /\ (forall m c',
              makeRef type name includeNamed c = Returned m c' ->
              (exists ts, m = TRef ts (Some name) None) /\ refs c' !! name = Some None)
        /\ (typeArguments type = None ->
            (symbol type = None
             \/ exists sym ds, symbol type = Some sym /\ declarations sym = Some ds) ->
            makeRef type name includeNamed c
            = Returned (TRef [] (Some name) None) (stored name None c))
        /\ (forall sym,
              symbol type = Some sym -> declarations sym = None ->
              makeRef type name includeNamed c = TypeError)).
Proof.
  intros W. pose proof (walk_grows fuel) as HW. fold W in HW. split; [|split].
  - intros c1 c2 c3 c4 Hb Hc Hh Ho.
    pose proof (includeBasic_None _ _ _ Hb) as ->.
    pose proof (includeCombinator_None _ _ _ Hc) as ->.
    pose proof (includeHiddenAnonymous_None _ _ _ Hh) as ->.
    destruct (includeObject_None _ _ _ Ho) as [-> _].
    split; [reflexivity|].
    unfold includeAnonymousBody, orElse, bind. rewrite Hb, Hc, Hh, Ho. reflexivity.
  - intros c1 c2 c3 Hb Ho Hr.
    pose proof (includeBasic_None _ _ _ Hb) as ->.
    destruct (includeObject_None _ _ _ Ho) as [-> Hobj].
    pose proof (includeReference_None _ _ _ Hr) as ->.
    split; [reflexivity|].
    unfold includeNamed, orElse, bind. rewrite Hb, Ho, Hr. reflexivity.
  - intros name cx Hnone Hnamed.
    destruct (includeNamed_None _ _ _ Hnamed) as [-> Hobj].
    assert (Heq : makeRef type name includeNamed c
                  = includeRef type (Some name) None (stored name None c)).
    { rewrite makeRef_absent by assumption.
      unfold refTarget. rewrite Hobj. simpl.
      rewrite bind_ret_l. unfold bind at 1. rewrite Hnamed.
      unfold bind at 1, setRef at 1.
      fold (stored name None (stored name (Some (placeholder name)) c)).
      rewrite stored_stored. reflexivity. }
    split; [exact Heq|]. split; [|split].
    + intros m c' Hrun. rewrite Heq in Hrun.
      split; [eapply includeRef_ref; exact Hrun|].
      eapply lookup_weaken; [|eapply (includeRef_grows HW); exact Hrun].
      apply lookup_insert_eq.
    + intros Hargs Hsym. rewrite Heq. apply includeRef_plain; assumption.
    + intros sym Hs Hd. rewrite Heq. unfold includeRef, bind. rewrite Hs. simpl.
      rewrite Hd. reflexivity.
Qed.

Lemma resultOf_Returned {h A} (o : @Outcome (Demo.helpers h) A) (a : A) :
  Demo.resultOf o = Some a -> exists c, o = Returned a c.
Proof. destruct o as [b c| |]; simpl; [intros [= ->]; eauto | discriminate | discriminate]. Qed.

Section TypeParameterRun.
Import Demo Generics.

(** C4, as stated, fails for named types: the type parameter [T], which no
    stage recognizes, is registered with no node, not with an
    [unidentified] node. *)
Lemma named_type_without_unidentified :
  resultOf (@includeNamed (oracle heap) (helpers heap) (@walk (oracle heap) (helpers heap) 5) tType (emptyContext heap))
    = Some None
  /\ resultOf (@runIncludeType (oracle heap) (helpers heap) 6 tType (emptyContext heap))
     = Some (TRef [] (Some "T") None)
  /\ registryOf (@runIncludeType (oracle heap) (helpers heap) 6 tType (emptyContext heap))
     = Some [("T", None)].
Proof. vm_compute. repeat split; reflexivity. Qed.

Lemma unrecognized_type_fallback_witness :
  refs (emptyContext heap) !! "T" = None
  /\ @makeRef (oracle heap) (helpers heap) (@walk (oracle heap) (helpers heap) 5) tType "T"
       (@includeNamed (oracle heap) (helpers heap) (@walk (oracle heap) (helpers heap) 5))
       (emptyContext heap)
     = Returned (TRef [] (Some "T") None) (stored "T" None (emptyContext heap))
  /\ refs (stored "T" None (emptyContext heap)) !! "T" = Some None.
Proof.
  assert (H1 : refs (emptyContext heap) !! "T" = None) by reflexivity.
  assert (H2 : resultOf (@includeNamed (oracle heap) (helpers heap) (@walk (oracle heap) (helpers heap) 5) tType
                           (stored "T" (Some (placeholder "T")) (emptyContext heap)))
               = Some None) by (vm_compute; reflexivity).
  apply resultOf_Returned in H2 as [cx H2].
  destruct (proj2 (proj2 (@unrecognized_type_fallback (oracle heap) (helpers heap) 5
                            tType (emptyContext heap))) "T" cx H1 H2)
    as (_ & Href & Hplain & _).
  assert (H3 : @makeRef (oracle heap) (helpers heap) (@walk (oracle heap) (helpers heap) 5)
                 tType "T"
                 (@includeNamed (oracle heap) (helpers heap)
                    (@walk (oracle heap) (helpers heap) 5))
                 (emptyContext heap)
               = Returned (TRef [] (Some "T") None) (stored "T" None (emptyContext heap))).
  { apply Hplain; [reflexivity|]. right. exists tSymbol, [tDecl]. split; reflexivity. }
  split; [exact H1|]. split; [exact H3|].
  exact (proj2 (Href _ _ H3)).
Defined.

End TypeParameterRun.

(** * The claims on concrete programs *)

Section InheritanceRuns.
Import Demo Inheritance.

Let O := oracle heap.
Let Hs := helpers heap.
Let W3 := @walk O Hs 3.
Let c0 := emptyContext heap.

(** C3.  On [interface Base { a: string }] and
    [interface Derived extends Base { b: string }] the walk registers
    [Derived] with both [b] and the inherited [a] as own properties: the
    node registered for [Base] has the kind [interface], which
    [isClassOrObject] does not accept, and the [ref] to [Base] carries no
    oracle type, so [getAllPropIds] collects no id from it. *)
Theorem interface_base_members_emitted_again :
  registryOf (@runIncludeType O Hs 10 derivedType c0)
  = Some [("Base",
           Some (TInterface [] (Some "")
                   [TProp "a" "" (Some 103%nat) false (Some "") TString] [] None));
          ("Derived",
           Some (TInterface [TRef [] (Some "Base") None] (Some "")
                   [TProp "b" "" (Some 104%nat) false (Some "") TString;
                    TProp "a" "" (Some 103%nat) false (Some "") TString] [] None))]
  /\ isClassOrObject
       (Some (TInterface [] (Some "")
                [TProp "a" "" (Some 103%nat) false (Some "") TString] [] None)) = false
  /\ resultOf (@getAllPropIdsBody O Hs W3 [TRef [] (Some "Base") None]
                 (contextOf heap
                    {[ "Base" := Some (TInterface [] (Some "")
                                         [TProp "a" "" (Some 103%nat) false (Some "") TString]
                                         [] None) ]}))
     = Some [].
Proof. vm_compute. repeat split; reflexivity. Qed.

Lemma includeObject_dispatch_witness :
  @isObjectType Hs derivedType = true
  /\ @includeObject O Hs W3 derivedType
     = (r <- @includeStandardObject O Hs W3 derivedType ;; ret (Some r)).
Proof.
  assert (H1 : @isObjectType Hs derivedType = true) by (vm_compute; reflexivity).
  assert (H2 : @objectFlags O derivedType <> Some ObjectFlags.Mapped)
    by (vm_compute; discriminate).
  assert (H3 : @objectFlags O derivedType
               <> Some (Z.lor ObjectFlags.Class ObjectFlags.Reference))
    by (vm_compute; discriminate).
  split; [exact H1|].
  exact (proj1 (proj1 (proj2 (proj2 (@includeObject_dispatch O Hs W3 derivedType H1)))
                  H2 H3)).
Defined.

Lemma includeBasic_first_match_witness :
  is_Some (@isUnion O stringType)
  /\ @includeBasic O Hs W3 stringType c0 = Returned (Some TString) c0.
Proof.
  assert (H1 : is_Some (@isUnion O stringType)) by (exists false; vm_compute; reflexivity).
  assert (H2 : @firstMatch O Hs stringType = Some IsString) by (vm_compute; reflexivity).
  split; [exact H1|].
  pose proof (proj1 (@includeBasic_first_match O Hs W3 stringType c0 H1)) as E.
  rewrite H2 in E. exact E.
Defined.

Lemma includeExportedType_registry_witness :
  exists sym c',
    @symbol O derivedType = Some sym
    /\ @includeExportedType O Hs (@walk O Hs 10) derivedType c0 = Returned tt c'
    /\ refs c0 ⊆ refs c'.
Proof.
  assert (H1 : @symbol O derivedType = Some derivedSymbol) by (vm_compute; reflexivity).
  assert (H2 : resultOf (@runIncludeType O Hs 10 derivedType c0)
               = Some (TRef [] (Some "Derived") None)) by (vm_compute; reflexivity).
  apply resultOf_Returned in H2 as [c1 H2].
  destruct (proj2 (@includeExportedType_registry O Hs 10 derivedType c0) _ _ _ H1 H2)
    as [c' Hrun].
  destruct (proj1 (@includeExportedType_registry O Hs 10 derivedType c0) _ _ Hrun)
    as (sym & node & c1' & Hsym & Hnode & Hsub & Href & _).
  exists sym, c'. split; [exact Hsym|]. split; [exact Hrun|].
  rewrite H2 in Hnode. injection Hnode as <- <-.
  rewrite (Href eq_refl). exact Hsub.
Defined.

End InheritanceRuns.

Section StructuralRuns.
Import Demo Structural.

Let O := oracle heap.
Let Hs := helpers heap.
Let W5 := @walk O Hs 10.
Let c0 := emptyContext heap.

Lemma union_tuple_order_witness :
  @isTupleType Hs tupleType = true
  /\ (exists c' elements ts,
        @includeCombinator O Hs W5 tupleType c0
          = Returned (Some (TTuple [TString; TNumber; TBoolean])) c'
        /\ @typeArguments O tupleType = Some elements
        /\ Some (TTuple [TString; TNumber; TBoolean]) = Some (TTuple ts)
        /\ runsInOrder (@includeType Hs W5) elements ts c0 c')
  /\ (exists c' members ts,
        @includeCombinator O Hs W5 unionType c0
          = Returned (Some (TUnion [TString; TNumber; TBoolean])) c'
        /\ @types O unionType = Some members
        /\ Some (TUnion [TString; TNumber; TBoolean]) = Some (TUnion ts)
        /\ runsInOrder (@includeType Hs W5) members ts c0 c').
Proof.
  assert (H1 : @isTupleType Hs tupleType = true) by (vm_compute; reflexivity).
  assert (H2 : resultOf (@includeCombinator O Hs W5 tupleType c0)
               = Some (Some (TTuple [TString; TNumber; TBoolean])))
    by (vm_compute; reflexivity).
  assert (H3 : @isTupleType Hs unionType = false) by (vm_compute; reflexivity).
  assert (H4 : @isReferenceType Hs unionType = false) by (vm_compute; reflexivity).
  assert (H5 : @isUnion O unionType = Some true) by (vm_compute; reflexivity).
  assert (H6 : resultOf (@includeCombinator O Hs W5 unionType c0)
               = Some (Some (TUnion [TString; TNumber; TBoolean])))
    by (vm_compute; reflexivity).
  apply resultOf_Returned in H2 as [c2 H2]. apply resultOf_Returned in H6 as [c6 H6].
  split; [exact H1|]. split.
  - destruct (proj1 (proj1 (@union_tuple_order O Hs W5 tupleType c0 _ c2) H1) H2)
      as (elements & ts & Ha & Hb & Hc).
    exists c2, elements, ts. auto.
  - destruct (proj1 (proj1 (proj2 (@union_tuple_order O Hs W5 unionType c0 _ c6)) H3 H4 H5) H6)
      as (members & ts & Ha & Hb & Hc).
    exists c6, members, ts. auto.
Defined.

Lemma mapped_type_shape_witness :
  (@isObjectType Hs mappedType = true
   /\ @objectFlags O mappedType = Some ObjectFlags.Mapped
   /\ exists c' node index,
        @includeMappedObject O Hs W5 mappedType c0
          = Returned (TInterface [] (Some "") [] []
                        (Some (TMapped "K" (Some (TRef [] (Some "Keys") None)) true TNumber))) c'
        /\ @mappedDeclaration O mappedType = Some node
        /\ @typeParameter O node = Some index
        /\ isDefined (@questionToken O node) = true)
  /\ (let O' := oracle MappedTypes.heap in
      let Hs' := helpers MappedTypes.heap in
      @type_ O' MappedTypes.bareNode = None
      /\ exists c',
           @includeMappedObject O' Hs' (@walk O' Hs' 10) MappedTypes.bareType
             (emptyContext MappedTypes.heap)
           = Returned (TInterface [] (Some "") [] []
                         (Some (TMapped "K" (Some (TRef [] (Some "Keys") None)) false TAny))) c').
Proof.
  split.
  - assert (H1 : @isObjectType Hs mappedType = true) by (vm_compute; reflexivity).
    assert (H2 : @objectFlags O mappedType = Some ObjectFlags.Mapped)
      by (vm_compute; reflexivity).
    assert (H3 : resultOf (@includeMappedObject O Hs W5 mappedType c0)
                 = Some (TInterface [] (Some "") [] []
                           (Some (TMapped "K" (Some (TRef [] (Some "Keys") None)) true TNumber))))
      by (vm_compute; reflexivity).
    apply resultOf_Returned in H3 as [c' H3].
    split; [exact H1|]. split; [exact H2|].
    destruct (proj1 (proj1 (proj2 (@mapped_type_shape O Hs W5 mappedType c0 _ c'))) H3)
      as (node & index & isym & decl & k & v & c1 & Hn & Hi & _ & _ & _ & _ & Hm).
    exists c', node, index. split; [exact H3|]. split; [exact Hn|]. split; [exact Hi|].
    congruence.
  - intros O' Hs'. split; [reflexivity|].
    assert (Hk : resultOf (@includeConstraint O' Hs' (@walk O' Hs' 10) MappedTypes.kDecl
                             (emptyContext MappedTypes.heap))
                 = Some (Some (TRef [] (Some "Keys") None))) by (vm_compute; reflexivity).
    apply resultOf_Returned in Hk as [c1 Hk].
    assert (Hv : resultOf (@includeType Hs' (@walk O' Hs' 10) (@checkerErrorType O') c1)
                 = Some TAny).
    { assert (Hboth : resultOf
                ((k <- @includeConstraint O' Hs' (@walk O' Hs' 10) MappedTypes.kDecl ;;
                  @includeType Hs' (@walk O' Hs' 10) (@checkerErrorType O'))
                   (emptyContext MappedTypes.heap)) = Some TAny) by (vm_compute; reflexivity).
      unfold bind in Hboth. rewrite Hk in Hboth. exact Hboth. }
    apply resultOf_Returned in Hv as [c' Hv].
    exists c'.
    exact (proj2 (proj2 (@mapped_type_shape O' Hs' (@walk O' Hs' 10) MappedTypes.bareType
                           (emptyContext MappedTypes.heap) TAny c'))
             MappedTypes.bareNode eq_refl eq_refl MappedTypes.bareNode MappedTypes.kDecl
             MappedTypes.kSymbol _ _ _ eq_refl eq_refl eq_refl Hk Hv).
Defined.

(** C8, as stated, fails for a mapped type whose object flags are not
    [Mapped] alone: the instantiation [Partial<Point>] carries
    [Mapped | Instantiated] and is built as a standard object shape, with
    its property and without a [mapped] descriptor. *)
Lemma instantiated_mapped_type_without_descriptor :
  let O' := oracle MappedTypes.heap in
  let Hs' := helpers MappedTypes.heap in
  @isObjectType Hs' MappedTypes.partialPoint = true
  /\ hasFlag (default 0 (@objectFlags O' MappedTypes.partialPoint)) ObjectFlags.Mapped = true
  /\ resultOf (@includeObject O' Hs' (@walk O' Hs' 10) MappedTypes.partialPoint
                 (emptyContext MappedTypes.heap))
     = Some (Some (TInterface [] (Some "")
                     [TProp "x" "" (Some 105%nat) true (Some "") TNumber] [] None)).
Proof. vm_compute. repeat split; reflexivity. Qed.

End StructuralRuns.

Section IndexedRuns.
Import Demo Indexed.

Let O := oracle heap.
Let Hs := helpers heap.
Let W5 := @walk O Hs 10.
Let c0 := emptyContext heap.

(** C6.  An index signature inherited from a base that is registered
    by the walk is emitted once more: [Sub] extends [Dict], which defines
    the string index signature [Sub] has, but the [ref] to [Dict] that
    [makeRef] builds carries no oracle type, so the test against the
    inherited bases skips it and the node built for [Sub] holds the [index]
    member again. *)
Lemma inherited_index_emitted_again :
  registryOf (@runIncludeType O Hs 10 subType c0)
  = Some [("Sub",
           Some (TInterface [TRef [] (Some "Dict") None] (Some "")
                   [TIndex [TParameter "index" "" false false TString] false TString;
                    TFunction [] [] TString None] [] None));
          ("Dict",
           Some (TInterface [] (Some "")
                   [TIndex [TParameter "key" "" false false TString] false TString;
                    TFunction [] [] TString None] [] None))]
  /\ @getTypeAtLocation O dictExpression = dictType
  /\ @getStringIndexType O dictType = Some stringType
  /\ @getStringIndexType O subType = Some stringType.
Proof. vm_compute. repeat split; reflexivity. Qed.

Lemma index_and_call_members_witness :
  exists c' es cm ps ts,
    @includeStandardObject O Hs W5 dictType c0
      = Returned (TInterface [] (Some "")
                    [TIndex [TParameter "key" "" false false TString] false TString;
                     TFunction [] [] TString None] [] None) c'
    /\ TInterface [] (Some "")
         [TIndex [TParameter "key" "" false false TString] false TString;
          TFunction [] [] TString None] [] None
       = TInterface es cm ps ts None
    /\ exists f ci ci',
         @getFunctionType O Hs W5 callSignature ci = Returned f ci' /\ f ∈ ps.
Proof.
  assert (H1 : resultOf (@includeStandardObject O Hs W5 dictType c0)
               = Some (TInterface [] (Some "")
                         [TIndex [TParameter "key" "" false false TString] false TString;
                          TFunction [] [] TString None] [] None))
    by (vm_compute; reflexivity).
  apply resultOf_Returned in H1 as [c' H1].
  destruct (@index_and_call_members O Hs W5 dictType c0 _ c' H1)
    as (es & impl & c1 & own & ni & si & calls & cm & ts & ca & cb & _ & Hm & _ & _ & _ & _
        & Hnth & _).
  exists c', es, cm, (own ++ ni ++ si ++ calls), ts. split; [exact H1|]. split; [exact Hm|].
  destruct (Hnth 0%nat callSignature eq_refl) as (f & ci & ci' & Hf & Hrun).
  exists f, ci, ci'. split; [exact Hrun|].
  rewrite !elem_of_app. right. right. right. eapply list_elem_of_lookup_2. exact Hf.
Defined.

End IndexedRuns.

Section RegistryRuns.
Import Demo.

(** C1, as stated, fails for a named type the external resolution answers:
    the interface [Result] of the base library is requested twice and
    answered with a [ref] of that name both times, and the registry never
    holds an entry for the name. *)
Lemma external_named_type_not_registered :
  let O := oracle Generics.heap in
  let Hs := helpers Generics.heap in
  let W := @walk O Hs 10 in
  let twice := (first <- @getTypeModelBody O Hs W Generics.resultType (Some "Result") ;;
                second <- @getTypeModelBody O Hs W Generics.resultType (Some "Result") ;;
                ret (first, second)) (emptyContext Generics.heap) in
  resultOf twice
  = Some (TRef [TRef [] (Some "T") None] (Some "Result") (Some Generics.resultType),
          TRef [TRef [] (Some "T") None] (Some "Result") (Some Generics.resultType))
  /\ registryOf twice = Some [("T", None)]
  /\ match twice with
     | Returned _ c => Some (entriesFor "Result" (refs c))
     | _ => None
     end = Some [].
Proof. vm_compute. repeat split; reflexivity. Qed.

Lemma named_type_registered_once_witness :
  (let O := oracle Inheritance.heap in
   let Hs := helpers Inheritance.heap in
   let W := @walk O Hs 10 in
   let c0 := emptyContext Inheritance.heap in
   @getTypeModelBody O Hs W Inheritance.baseType (Some "Base") c0
   = @makeRef O Hs W Inheritance.baseType "Base" (@includeNamed O Hs W) c0
   /\ exists ts c',
        @makeRef O Hs W Inheritance.baseType "Base" (@includeNamed O Hs W) c0
        = Returned (TRef ts (Some "Base") None) c'
        /\ exists v, entriesFor "Base" (refs c') = [("Base", v)])
  /\ (let O := oracle Structural.heap in
      let Hs := helpers Structural.heap in
      let W := @walk O Hs 10 in
      let c0 := emptyContext Structural.heap in
      @getTypeModelBody O Hs W Structural.keysType (Some "Keys") c0
      = @makeAliasRef O Hs W Structural.keysType "Keys" c0
      /\ exists ts c',
           @makeAliasRef O Hs W Structural.keysType "Keys" c0
           = Returned (TRef ts (Some "Keys") None) c'
           /\ exists v, entriesFor "Keys" (refs c') = [("Keys", v)]).
Proof.
  split.
  - intros O Hs W c0.
    pose proof (@named_type_registered_once O Hs 10 Inheritance.baseType "Base" c0)
      as (Hroute & _ & _ & _ & Hmake & _).
    assert (Hext : resultOf (@includeExternal O Hs W Inheritance.baseType c0) = Some None)
      by (vm_compute; reflexivity).
    apply resultOf_Returned in Hext as [cE Hext].
    assert (H2 : resultOf (@makeRef O Hs W Inheritance.baseType "Base" (@includeNamed O Hs W) c0)
                 = Some (TRef [] (Some "Base") None)) by (vm_compute; reflexivity).
    apply resultOf_Returned in H2 as [c' H2].
    split.
    + exact (Hroute (Some "Base") cE eq_refl eq_refl eq_refl Hext eq_refl eq_refl).
    + exists [], c'. split; [exact H2|]. exact (proj1 (proj2 (Hmake _ _ H2))).
  - intros O Hs W c0.
    pose proof (@named_type_registered_once O Hs 10 Structural.keysType "Keys" c0)
      as (_ & Hroute & _ & _ & _ & Halias).
    assert (Hext : resultOf (@includeExternal O Hs W Structural.keysDecl c0) = Some None)
      by (vm_compute; reflexivity).
    apply resultOf_Returned in Hext as [cE Hext].
    assert (H2 : resultOf (@makeAliasRef O Hs W Structural.keysType "Keys" c0)
                 = Some (TRef [] (Some "Keys") None)) by (vm_compute; reflexivity).
    apply resultOf_Returned in H2 as [c' H2].
    split.
    + exact (Hroute (Some "Keys") eq_refl eq_refl eq_refl).
    + exists [], c'. split; [exact H2|].
      exact (proj1 (proj2 (proj2 (proj2 (Halias Structural.keysDecl None cE eq_refl Hext
                                           eq_refl)) _ _ H2))).
Defined.

End RegistryRuns.

(** * Further properties of the walk *)

Section Further.
Context `{Orc : Oracle} `{Hp : Helpers} `{W : !Walk}.

(** ** Trimming never reorders or invents arguments *)

Lemma pop_prefix {A} (l : list A) : pop l `prefix_of` l.
Proof. rewrite pop_take. exists (drop (length l - 1) l). symmetry. apply take_drop. Qed.

Lemma popDownTo_prefix (n : nat) (maxTypes : Z) (types : list TypeModel) :
  popDownTo n maxTypes types `prefix_of` types.
Proof.
  revert types. induction n as [|n IH]; intros types; simpl; [reflexivity|].
  destruct (Z.of_nat (length types) >? maxTypes)%Z; [|reflexivity].
  etransitivity; [apply IH | apply pop_prefix].
Qed.

Lemma dropDefaults_prefix (i : nat) defaults args (types : list TypeModel) :
  dropDefaults i defaults args types `prefix_of` types.
Proof.
  revert types. induction i as [|i IH]; intros types; simpl; [reflexivity|].
  destruct (negb _ || negb _); [reflexivity|].
  etransitivity; [apply IH | apply pop_prefix].
Qed.

Lemma normalizeTypeParameters_run type decl types refName c :
  exists ts,
    normalizeTypeParameters type decl types refName c = Returned ts c
    /\ ts `prefix_of` types.
Proof.
  eexists. split; [reflexivity|].
  etransitivity; [apply dropDefaults_prefix | apply popDownTo_prefix].
Qed.

(** X1.  [normalizeTypeParameters] always returns, leaves the context as
    it is, and answers with a prefix of the supplied arguments: it only ever
    drops arguments from the end.  With no argument supplied the answer is
    empty, whatever the declaration and the registry say. *)
Theorem normalizeTypeParameters_prefix type decl types refName c :
  exists ts,
    normalizeTypeParameters type decl types refName c = Returned ts c
    /\ ts `prefix_of` types
    /\ (types = [] -> ts = []).
Proof.
  destruct (normalizeTypeParameters_run type decl types refName c) as (ts & Hrun & Hpre).
  exists ts. split; [exact Hrun|]. split; [exact Hpre|].
  intros ->. apply prefix_nil_inv in Hpre. exact Hpre.
Qed.

(** X2.  The [ref] built by [includeRef] has the name and the oracle type
    it was asked for, and its arguments are a prefix of the classifications
    of [type.typeArguments], taken in order.  Because the optional chaining
    of [type.symbol?.declarations[0]] stops at [symbol] only, a type whose
    symbol has no [declarations] makes [includeRef] throw. *)
Theorem includeRef_arguments type refName external c :
  (forall m c',
     includeRef type refName external c = Returned m c' ->
     exists classified ts,
       runsInOrder includeType (default [] (typeArguments type)) classified c c'
       /\ ts `prefix_of` classified
       /\ m = TRef ts refName external)
  /\ (forall sym,
        symbol type = Some sym -> declarations sym = None ->
        includeRef type refName external c = TypeError).
Proof.
  split.
  - unfold includeRef, getTypeArguments. intros m c' Hrun.
    apply bind_Returned in Hrun as (decl & c1 & Hdecl & Hrun).
    assert (c1 = c) as ->.
    { destruct (symbol type); run_inv; reflexivity. }
    apply bind_Returned in Hrun as (classified & c2 & Hargs & Hrun).
    apply bind_Returned in Hrun as (ts & c3 & Hnorm & Hrun).
    apply ret_Returned in Hrun as [-> ->].
    destruct (normalizeTypeParameters_run type decl classified refName c2)
      as (ts' & Hrun' & Hpre).
    rewrite Hrun' in Hnorm. injection Hnorm as <- <-.
    exists classified, ts'. split; [|auto].
    destruct (typeArguments type) as [args|]; simpl.
    + apply mapM_runsInOrder. exact Hargs.
    + apply ret_Returned in Hargs as [-> ->]. constructor.
  - intros sym Hs Hd. unfold includeRef, bind. rewrite Hs. simpl. rewrite Hd. reflexivity.
Qed.

(** ** Type parameters, parameters and constructors *)

Lemma getTypeParameters_length type c l c' :
  getTypeParameters type c = Returned l c' ->
  length l = length (default [] (typeParameters type)).
Proof.
  unfold getTypeParameters. destruct (typeParameters type) as [ps|]; simpl; intros Hrun.
  - apply mapM_runsInOrder in Hrun. eapply runsInOrder_length. exact Hrun.
  - apply ret_Returned in Hrun as [-> _]. reflexivity.
Qed.

(** X3.  The nodes built for an interface and for a class carry one
    type-parameter slot per declared type parameter ([type.typeParameters]),
    also for a parameter without symbol, whose slot is [undefined]; so the
    [types] length read by the argument trimming is the declared parameter
    count once the node is built. *)
Theorem object_node_types_count type c m c' :
  (includeStandardObject type c = Returned m c' \/ includeClassObject type c = Returned m c') ->
  typesLength m = Some (Z.of_nat (length (default [] (typeParameters type)))).
Proof.
  assert (Hstd : forall c m c', includeStandardObject type c = Returned m c' ->
            exists es cm ps ts, m = TInterface es cm ps ts None
              /\ length ts = length (default [] (typeParameters type))).
  { clear. intros c m c'. unfold includeStandardObject. intros Hrun. run_inv.
    match goal with
    | Ht : getTypeParameters _ _ = Returned _ _ |- _ =>
        apply getTypeParameters_length in Ht; eauto 10
    end. }
  intros [Hrun|Hrun].
  - apply Hstd in Hrun as (es & cm & ps & ts & -> & Hlen). simpl. rewrite Hlen. reflexivity.
  - unfold includeClassObject in Hrun.
    apply bind_Returned in Hrun as (obj & c1 & Hobj & Hrun).
    apply Hstd in Hobj as (es & cm & ps & ts & -> & Hlen).
    run_inv. simpl. rewrite Hlen. reflexivity.
Qed.

Lemma getFunctionType_shape sign c m c' :
  getFunctionType sign c = Returned m c' ->
  exists ts ps r c1 c2,
    m = TFunction ts ps r None
    /\ getTypeParameters sign c = Returned ts c1
    /\ getFunctionParameters (map Some (getParameters sign)) c1 = Returned ps c2
    /\ includeType (getReturnType sign) c2 = Returned r c'.
Proof. unfold getFunctionType. intros Hrun. run_inv. eauto 10. Qed.

(** X4.  A function node lists one [parameter] node per parameter symbol of
    the signature, in the order of the signature: the [i]-th node carries the
    name of the [i]-th symbol, no modifiers, the spread and optional flags
    of the symbol's value declaration ([dotDotDotToken] resp.
    [questionToken] present), and the classification of the declaration's
    type node.  A parameter without type annotation is classified as the
    type the checker gives for a missing node.  A parameter symbol without
    value declaration keeps [getFunctionType] from returning at all. *)
Theorem function_parameters_in_order sign c :
  (forall m c',
     getFunctionType sign c = Returned m c' ->
     exists ts ps r,
       m = TFunction ts ps r None
       /\ length ts = length (default [] (typeParameters sign))
       /\ length ps = length (getParameters sign)
       /\ forall (i : nat) p,
            getParameters sign !! i = Some p ->
            exists decl v ci ci',
              valueDeclaration p = Some decl
              /\ getParameterType (type_ decl) ci = Returned v ci'
              /\ ps !! i = Some (TParameter (symbolName p) "" (isDefined (dotDotDotToken decl))
                                   (isDefined (questionToken decl)) v))
  /\ (isIdentifierType None = false -> isInferType None = false ->
      isKeyOfType None = false -> isUnionType None = false ->
      getParameterType None c = includeAnonymous checkerErrorType c)
  /\ (forall p,
        p ∈ getParameters sign -> valueDeclaration p = None ->
        forall m c', getFunctionType sign c <> Returned m c').
Proof.
  assert (Hmain : forall m c',
     getFunctionType sign c = Returned m c' ->
     exists ts ps r,
       m = TFunction ts ps r None
       /\ length ts = length (default [] (typeParameters sign))
       /\ length ps = length (getParameters sign)
       /\ forall (i : nat) p,
            getParameters sign !! i = Some p ->
            exists decl v ci ci',
              valueDeclaration p = Some decl
              /\ getParameterType (type_ decl) ci = Returned v ci'
              /\ ps !! i = Some (TParameter (symbolName p) "" (isDefined (dotDotDotToken decl))
                                   (isDefined (questionToken decl)) v)).
  { intros m c' (ts & ps & r & c1 & c2 & -> & Hts & Hps & _)%getFunctionType_shape.
    exists ts, ps, r. split; [reflexivity|].
    split; [eapply getTypeParameters_length; exact Hts|].
    unfold getFunctionParameters in Hps. apply mapM_runsInOrder in Hps.
    split; [erewrite runsInOrder_length by exact Hps; apply length_map|].
    intros i p Hi.
    assert (Hi' : map Some (getParameters sign) !! i = Some (Some p))
      by (rewrite list_lookup_fmap, Hi; reflexivity).
    destruct (runsInOrder_lookup _ _ _ _ _ _ _ Hps Hi') as (y & ci & ci' & Hy & Hrun).
    simpl in Hrun.
    apply bind_Returned in Hrun as (p' & c3 & [<- ->]%ret_Returned & Hrun).
    apply bind_Returned in Hrun as (decl & c4 & [Hdecl ->]%need_Returned & Hrun).
    apply bind_Returned in Hrun as (v & c5 & Hv & Hrun).
    apply ret_Returned in Hrun as [Hnode Hc]. subst y.
    exists decl, v. do 2 eexists. split; [exact Hdecl|]. split; [exact Hv | exact Hy]. }
  split; [exact Hmain|]. split.
  - intros H1 H2 H3 H4.
    unfold getParameterType, includeAnonymousNode, includeNode.
    rewrite H1, H2, H3, H4. rewrite bind_ret_l. reflexivity.
  - intros p Hin Hnone m c' Hrun.
    apply Hmain in Hrun as (ts & ps & r & _ & _ & _ & Hall).
    apply list_elem_of_lookup in Hin as [i Hi].
    destruct (Hall i p Hi) as (decl & v & ci & ci' & Hdecl & _). congruence.
Qed.

Lemma getConstructorTypes_spec type c l c' :
  getConstructorTypes type c = Returned l c' ->
  length l = length (default [] (getConstructors type))
  /\ Forall (fun m => kind m = "constructor") l.
Proof.
  unfold getConstructorTypes. intros Hrun.
  destruct (getConstructors type) as [ctors|]; simpl.
  - apply mapM_runsInOrder in Hrun. split.
    + eapply runsInOrder_length. exact Hrun.
    + eapply runsInOrder_Forall; [|exact Hrun].
      intros ctor c1 y c2 Hy. simpl in Hy.
      apply bind_Returned in Hy as (sg & c3 & _ & Hy).
      apply bind_Returned in Hy as (f & c4 & Hf & Hy).
      apply ret_Returned in Hy as [-> _].
      apply getFunctionType_shape in Hf as (ts & ps & r & _ & _ & -> & _). reflexivity.
  - apply ret_Returned in Hrun as [-> _]. split; [reflexivity | constructor].
Qed.

(** X5.  [getConstructorTypes] answers with one node per constructor
    declaration, each of them the function node of the declaration's
    signature retagged as [constructor]; a type without constructor
    declarations gives the empty list and leaves the context alone. *)
Theorem constructors_retagged type c :
  (forall l c',
     getConstructorTypes type c = Returned l c' ->
     length l = length (default [] (getConstructors type))
     /\ Forall (fun m => kind m = "constructor") l)
  /\ (getConstructors type = None -> getConstructorTypes type c = Returned [] c).
Proof.
  split.
  - intros l c'. apply getConstructorTypes_spec.
  - unfold getConstructorTypes. intros ->. reflexivity.
Qed.

(** ** Members of object shapes *)

Lemma getPropType_id prop c m c' :
  getPropType prop c = Returned m c' -> memberId m = propId prop /\ isPropNode m = true.
Proof. unfold getPropType. intros Hrun. run_inv. auto. Qed.

Lemma runsInOrder_map {A B C} (f : A -> M B) (g : B -> C) (h : A -> C) xs ys c c' :
  (forall x c0 y c1, f x c0 = Returned y c1 -> g y = h x) ->
  runsInOrder f xs ys c c' -> map g ys = map h xs.
Proof. intros Hf. induction 1; simpl; [reflexivity|]. f_equal; eauto. Qed.

Lemma own_properties_filtered targets props own c c' :
  runsInOrder getPropType
    (List.filter (fun prop => negb (includes targets (propId prop))) props) own c c' ->
  map memberId own = List.filter (fun i => negb (includes targets i)) (map propId props)
  /\ Forall (fun p => isPropNode p = true /\ memberId p ∉ targets) own.
Proof.
  intros Hown. split.
  - transitivity (map propId (List.filter (fun prop => negb (includes targets (propId prop)))
                                props)).
    + eapply runsInOrder_map; [|exact Hown].
      intros x ? y ? Hy. apply getPropType_id in Hy as [Hy _]. exact Hy.
    + clear. induction props as [|p props IH]; simpl; [reflexivity|].
      destruct (negb (includes targets (propId p))); simpl; rewrite IH; reflexivity.
  - apply Forall_forall. intros p Hpin.
    apply list_elem_of_lookup in Hpin as [i Hi].
    assert (Hlen := runsInOrder_length _ _ _ _ _ Hown).
    destruct (lookup_lt_is_Some_2
                (List.filter (fun prop => negb (includes targets (propId prop))) props) i)
      as [x Hx].
    { rewrite <- Hlen. eapply lookup_lt_Some. exact Hi. }
    destruct (runsInOrder_lookup _ _ _ _ _ _ _ Hown Hx) as (y & ci & ci' & Hy & Hrun).
    rewrite Hi in Hy. injection Hy as <-.
    apply getPropType_id in Hrun as [Hid Hprop]. split; [exact Hprop|].
    rewrite Hid.
    assert (Hin : In x (List.filter (fun prop => negb (includes targets (propId prop))) props)).
    { apply list_elem_of_In. eapply list_elem_of_lookup_2. exact Hx. }
    apply filter_In in Hin as [_ Hneg]. apply negb_true_iff in Hneg.
    unfold includes in Hneg. apply bool_decide_eq_false_1 in Hneg. exact Hneg.
Qed.

Lemma includeStandardObject_parts type c m c' :
  includeStandardObject type c = Returned m c' ->
  exists es impl c0 targets c1 props own rest c2,
    includeInheritedTypes type c = Returned (es, impl) c0
    /\ getAllPropIds (es ++ impl) c0 = Returned targets c1
    /\ getProperties type = Some props
    /\ runsInOrder getPropType
         (List.filter (fun prop => negb (includes targets (propId prop))) props) own c1 c2
    /\ propsOf m = own ++ rest
    /\ Forall (fun p => isPropNode p = false) rest.
Proof.
  unfold includeStandardObject. intros Hrun.
  apply bind_Returned in Hrun as ([es impl] & c0 & Hinh & Hrun).
  apply bind_Returned in Hrun as (targets & c1 & Hids & Hrun).
  apply bind_Returned in Hrun as (props & c2 & [Hprops ->]%need_Returned & Hrun).
  apply bind_Returned in Hrun as (own & c3 & Hown & Hrun).
  apply bind_Returned in Hrun as (ni & c4 & Hni & Hrun).
  apply bind_Returned in Hrun as (si & c5 & Hsi & Hrun).
  apply bind_Returned in Hrun as (calls & c6 & Hcalls & Hrun).
  apply bind_Returned in Hrun as (ts & c7 & Hts & Hrun).
  apply ret_Returned in Hrun as [-> ->]. simpl in *.
  exists es, impl, c0, targets, c1, props, own, (ni ++ si ++ calls), c3.
  apply mapM_runsInOrder in Hown.
  repeat split; try assumption.
  apply Forall_app. split; [|apply Forall_app; split].
  - apply includeIndexMember_spec in Hni
      as [[_ (it & v & _ & _ & ->)] | [_ [-> _]]]; repeat constructor.
  - apply includeIndexMember_spec in Hsi
      as [[_ (it & v & _ & _ & ->)] | [_ [-> _]]]; repeat constructor.
  - destruct (getCallSignatures type) as [signs|].
    + apply mapM_runsInOrder in Hcalls.
      eapply runsInOrder_Forall; [|exact Hcalls].
      intros x ? y ? (? & ? & ? & ? & ? & -> & _)%getFunctionType_shape. reflexivity.
    + apply ret_Returned in Hcalls as [-> _]. constructor.
Qed.

(** X6.  The own properties of the node [includeStandardObject] builds
    are, in the oracle's order, the members of [type.getProperties()] whose
    identity id ([id], or the target's [id] when that is unset or [0]) is
    not among the ids [getAllPropIds] collected from the heritage; no own
    property carries a collected id, and the index and call members come
    after them. *)
Theorem own_properties_exclude_collected_ids type c m c' :
  includeStandardObject type c = Returned m c' ->
  exists es impl c0 targets c1 props own rest,
    includeInheritedTypes type c = Returned (es, impl) c0
    /\ getAllPropIds (es ++ impl) c0 = Returned targets c1
    /\ getProperties type = Some props
    /\ propsOf m = own ++ rest
    /\ map memberId own
       = List.filter (fun i => negb (includes targets i)) (map propId props)
    /\ Forall (fun p => isPropNode p = true /\ memberId p ∉ targets) own
    /\ Forall (fun p => isPropNode p = false) rest.
Proof.
  intros Hrun.
  destruct (includeStandardObject_parts _ _ _ _ Hrun)
    as (es & impl & c0 & targets & c1 & props & own & rest & c2
        & Hinh & Hids & Hprops & Hown & Hsplit & Hrest).
  destruct (own_properties_filtered _ _ _ _ _ Hown) as [Hmap Hall].
  exists es, impl, c0, targets, c1, props, own, rest.
  split; [exact Hinh|]. split; [exact Hids|]. split; [exact Hprops|].
  split; [exact Hsplit|]. split; [exact Hmap|]. split; [exact Hall | exact Hrest].
Qed.

(** X7.  A class node holds the members of the standard object shape
    first, then one [prop] node per exported member of the class symbol
    that is not the prototype, in the order of the exports and built from
    the symbol of the member's value declaration, then the nodes
    [getConstructorTypes] gives for the type, one per constructor
    declaration; its [extends] are those of the standard shape and its
    [implements] come from the heritage clauses. *)
Theorem class_members_in_order type c m c' :
  includeClassObject type c = Returned m c' ->
  exists es cm standard ts c1 es' impl c2 sym statics c3 ctors,
    includeStandardObject type c = Returned (TInterface es cm standard ts None) c1
    /\ includeInheritedTypes type c1 = Returned (es', impl) c2
    /\ symbol type = Some sym
    /\ m = TClass es cm (standard ++ statics ++ ctors) ts impl
    /\ Forall (fun p => isPropNode p = true) statics
    /\ length statics
       = length (List.filter (fun s => negb (hasFlag (symbolFlags s) SymbolFlags.Prototype))
                   (getExportsOfModule sym))
    /\ (forall (i : nat) member,
          List.filter (fun s => negb (hasFlag (symbolFlags s) SymbolFlags.Prototype))
            (getExportsOfModule sym) !! i = Some member ->
          exists decl s p ci ci',
            valueDeclaration member = Some decl
            /\ symbol decl = Some s
            /\ statics !! i = Some p
            /\ getPropType s ci = Returned p ci')
    /\ getConstructorTypes type c3 = Returned ctors c'
    /\ length ctors = length (default [] (getConstructors type))
    /\ Forall (fun k => kind k = "constructor") ctors.
Proof.
  unfold includeClassObject. intros Hrun.
  apply bind_Returned in Hrun as (obj & c1 & Hobj & Hrun).
  apply bind_Returned in Hrun as ([es' impl] & c2 & Hinh & Hrun).
  apply bind_Returned in Hrun as (sym & c3 & [Hsym ->]%need_Returned & Hrun).
  apply bind_Returned in Hrun as (statics & c4 & Hst & Hrun).
  apply bind_Returned in Hrun as (ctors & c5 & Hct & Hrun).
  apply ret_Returned in Hrun as [-> ->].
  destruct (includeStandardObject_interface _ _ _ _ Hobj) as (es & cm & ps & ts & ->).
  simpl. exists es, cm, ps, ts, c1, es', impl, c2, sym, statics, c4, ctors.
  apply mapM_runsInOrder in Hst.
  destruct (getConstructorTypes_spec _ _ _ _ Hct) as [Hlen Hkind].
  split; [exact Hobj|]. split; [exact Hinh|]. split; [exact Hsym|]. split; [reflexivity|].
  split; [|split; [|split; [|split; [exact Hct|split; [exact Hlen | exact Hkind]]]]].
  - eapply runsInOrder_Forall; [|exact Hst].
    intros x ? y ? Hy. simpl in Hy.
    apply bind_Returned in Hy as (? & ? & _ & Hy).
    apply bind_Returned in Hy as (? & ? & _ & Hy).
    apply getPropType_id in Hy as [_ Hy]. exact Hy.
  - eapply runsInOrder_length. exact Hst.
  - intros i member Hi.
    destruct (runsInOrder_lookup _ _ _ _ _ _ _ Hst Hi) as (p & ci & ci' & Hp' & Hy).
    simpl in Hy.
    apply bind_Returned in Hy as (decl & cd & [Hdecl ->]%need_Returned & Hy).
    apply bind_Returned in Hy as (s & cs & [Hs ->]%need_Returned & Hy).
    exists decl, s, p, ci, ci'. auto.
Qed.

(** ** Heritage *)

Lemma heritageItem_ref t c m c' :
  heritageItem t c = Returned m c' ->
  isIdentifier (expression t) = true -> isRefNode m = true.
Proof.
  unfold heritageItem. intros Hrun Hid.
  apply bind_Returned in Hrun as (res & c1 & _ & Hrun). rewrite Hid in Hrun.
  destruct (isRefNode res) eqn:E; simpl in Hrun; run_inv; [exact E | reflexivity].
Qed.

Lemma includeHeritage_refs clauses result c es impl c' :
  includeHeritage clauses result c = Returned (es, impl) c' ->
  (forall clause ts t,
     clause ∈ clauses -> types clause = Some ts -> t ∈ ts ->
     isIdentifier (expression t) = true) ->
  Forall (fun m => isRefNode m = true) (fst result ++ snd result) ->
  Forall (fun m => isRefNode m = true) (es ++ impl).
Proof.
  revert result c. induction clauses as [|clause rest IH]; intros result c Hrun Hids Hacc;
    simpl in Hrun.
  - apply ret_Returned in Hrun as [<- _]. exact Hacc.
  - apply bind_Returned in Hrun as (items & c1 & Hitems & Hrun).
    assert (Hitems' : Forall (fun m => isRefNode m = true) items).
    { destruct (types clause) as [ts|] eqn:E.
      - apply mapM_runsInOrder in Hitems. clear Hrun.
        assert (Hts : forall t, t ∈ ts -> isIdentifier (expression t) = true)
          by (intros t Ht; eapply Hids; [left | exact E | exact Ht]).
        clear E. induction Hitems as [|t ts y ys ? ? ? Hy _ IHr]; constructor.
        + eapply heritageItem_ref; [exact Hy | apply Hts; left].
        + apply IHr. intros t' Ht'. apply Hts. right. exact Ht'.
      - apply ret_Returned in Hitems as [-> _]. constructor. }
    eapply IH; [exact Hrun | |].
    + intros cl ts t Hcl. apply Hids. right. exact Hcl.
    + apply Forall_app in Hacc as [Ha Hb].
      repeat match goal with |- context [if ?b then _ else _] => destruct b end; simpl;
        rewrite ?Forall_app; auto.
Qed.

(** X8.  The heritage computation looks only at interface and class
    declarations: for a type without declaration, or with a declaration of
    another kind, it answers with no [extends] and no [implements] and does
    not touch the context.  When every heritage expression of the
    declaration is a bare identifier, every entry of [extends] and
    [implements] is a [ref]: the classification of the base when that is a
    [ref], and otherwise the [ref] synthesized from the identifier. *)
Theorem heritage_entries_are_refs type c :
  ((declarationOf (symbol type) = None
    \/ exists decl, declarationOf (symbol type) = Some decl
                    /\ isInterfaceDeclaration decl = false
                    /\ isClassDeclaration decl = false) ->
   includeInheritedTypes type c = Returned ([], []) c)
  /\ (forall decl es impl c',
        declarationOf (symbol type) = Some decl ->
        (forall clause ts t,
           clause ∈ default [] (heritageClauses decl) -> types clause = Some ts -> t ∈ ts ->
           isIdentifier (expression t) = true) ->
        includeInheritedTypes type c = Returned (es, impl) c' ->
        Forall (fun m => isRefNode m = true) (es ++ impl)).
Proof.
  unfold includeInheritedTypes. split.
  - intros [-> | (decl & -> & -> & ->)]; reflexivity.
  - intros decl es impl c' -> Hids Hrun.
    destruct (isInterfaceDeclaration decl || isClassDeclaration decl).
    + eapply includeHeritage_refs; [exact Hrun | exact Hids | constructor].
    + apply ret_Returned in Hrun as [E _]. inversion E. constructor.
Qed.

(** ** Named types *)

Lemma makeAliasRef_ref type name c m c' :
  makeAliasRef type name c = Returned m c' -> isRefNode m = true.
Proof. unfold makeAliasRef. intros Hrun. run_inv. reflexivity. Qed.

Lemma includeRef_isRef type refName external c m c' :
  includeRef type refName external c = Returned m c' -> isRefNode m = true.
Proof. unfold includeRef. intros Hrun. run_inv. reflexivity. Qed.

Lemma makeRef_isRef type name cb c m c' :
  makeRef type name cb c = Returned m c' -> isRefNode m = true.
Proof.
  unfold makeRef. intros Hrun.
  apply bind_Returned in Hrun as (rs & c1 & _ & Hrun).
  apply bind_Returned in Hrun as (u & c2 & _ & Hrun).
  eapply includeRef_isRef. exact Hrun.
Qed.

Lemma includeExternal_isRef type c m c' :
  isAnonymous (symbolName <$> symbol type) = false ->
  includeExternal type c = Returned (Some m) c' -> isRefNode m = true.
Proof.
  unfold includeExternal. intros Hanon Hrun. rewrite Hanon in Hrun.
  repeat match type of Hrun with
         | (if ?b then _ else _) _ = _ => destruct b
         end;
    try (apply ret_Returned in Hrun as [[=] _]).
  all: repeat match type of Hrun with
              | bind _ _ _ = Returned _ _ =>
                  let a := fresh "a" in let c1 := fresh "c" in let Hs := fresh "Hstep" in
                  apply bind_Returned in Hrun as (a & c1 & Hs & Hrun)
              end;
    apply ret_Returned in Hrun as [[= <-] _];
    match goal with
    | Hs : includeRef _ _ _ _ = Returned _ _ |- _ => eapply includeRef_isRef; exact Hs
    end.
Qed.

(** X9.  A type that reaches [getTypeModel] with a name, when neither that
    name nor the name of its symbol is one of the anonymous names and the
    type is not an anonymous object, is always answered with a [ref] node:
    through its alias, through the external resolution, or through the
    registry. *)
Theorem named_type_answered_with_ref type name c m c' :
  truthyName name = true ->
  isAnonymous name = false ->
  isAnonymous (symbolName <$> symbol type) = false ->
  isAnonymousObject type = false ->
  getTypeModelBody type name c = Returned m c' ->
  kind m = "ref".
Proof.
  intros Hname Hanon Hsym Hobj Hrun. apply isRefNode_kind.
  unfold getTypeModelBody in Hrun. rewrite Hname, Hanon, Hobj in Hrun. simpl in Hrun.
  destruct (isDefined (aliasSymbol type) && aliasDiffers type).
  - eapply makeAliasRef_ref. exact Hrun.
  - apply bind_Returned in Hrun as (ext & c1 & Hext & Hrun).
    destruct ext as [x|].
    + apply ret_Returned in Hrun as [-> _]. eapply includeExternal_isRef; eassumption.
    + eapply makeRef_isRef. exact Hrun.
Qed.

(** ** Exported functions and aliases *)

(** X10.  [includeExportedFunction] registers, under the given name and
    over whatever was registered there, the function node of the first call
    signature of the declaration's type, with the documentation comment of
    the declaration's symbol; further signatures (overloads) are not looked
    at.  A declaration whose type has no call signature makes it throw. *)
Theorem includeExportedFunction_registers func name c :
  (forall u c',
     includeExportedFunction func name c = Returned u c' ->
     exists sign overloads ts ps r c1,
       getCallSignatures (getTypeAtLocation func) = Some (sign :: overloads)
       /\ getFunctionType sign c = Returned (TFunction ts ps r None) c1
       /\ refs c' = <[name := Some (TFunction ts ps r (getComment (symbol func)))]> (refs c1)
       /\ usedImports c' = usedImports c1)
  /\ (getCallSignatures (getTypeAtLocation func) = None
      \/ getCallSignatures (getTypeAtLocation func) = Some [] ->
      includeExportedFunction func name c = TypeError).
Proof.
  unfold includeExportedFunction. split.
  - intros u c' Hrun.
    apply bind_Returned in Hrun as (signs & c0 & [Hsigns ->]%need_Returned & Hrun).
    apply bind_Returned in Hrun as (sign & c0 & [Hsign ->]%need_Returned & Hrun).
    apply bind_Returned in Hrun as (f & c1 & Hf & Hrun).
    apply setRef_Returned in Hrun as [Hrefs Himports].
    destruct signs as [|s overloads]; [discriminate|]. injection Hsign as ->.
    destruct (getFunctionType_shape _ _ _ _ Hf) as (ts & ps & r & _ & _ & -> & _).
    exists sign, overloads, ts, ps, r, c1. auto.
  - intros [E|E]; unfold bind; rewrite E; reflexivity.
Qed.

(** X11.  For a type alias declaration, [includeExportedTypeAlias] stores,
    under the text of the declaration's name and over whatever was
    registered there, exactly the [alias] node that the alias stage of the
    named chain ([includeReference]) builds for the declaration. *)
Theorem includeExportedTypeAlias_stores_reference `{Names : DeclarationNames}
    variable id c c' :
  declarationName variable = Some id ->
  nodeKind variable = Some TypeAliasDeclaration ->
  includeExportedTypeAlias variable c = Returned tt c' <->
  exists node c1,
    includeReference variable c = Returned (Some node) c1
    /\ kind node = "alias"
    /\ c' = stored (keyOf (text id)) (Some node) c1.
Proof.
  intros Hid Hkind. unfold includeExportedTypeAlias, includeReference.
  rewrite Hid, (bool_decide_eq_true_2 _ Hkind). simpl. rewrite bind_ret_l. split.
  - intros Hrun.
    apply bind_Returned in Hrun as (ts & c1 & Hts & Hrun).
    apply bind_Returned in Hrun as (child & c2 & Hchild & Hrun).
    exists (TAlias (getComment (symbol variable)) ts child), c2.
    split; [|split; [reflexivity|]].
    + unfold bind. rewrite Hts, Hchild. reflexivity.
    + unfold setRef in Hrun. injection Hrun as <-. reflexivity.
  - intros (node & c1 & Hrun & _ & ->).
    apply bind_Returned in Hrun as (ts & c2 & Hts & Hrun).
    apply bind_Returned in Hrun as (child & c3 & Hchild & Hrun).
    apply ret_Returned in Hrun as [[= ->] ->].
    unfold bind. rewrite Hts, Hchild. reflexivity.
Qed.

(** ** Enumerations *)

(** X12.  For a type whose first matching case is the enum-literal union,
    the [enumLiteral] node lists one [member] node per member of the union,
    in the order of the union, each carrying the name and the documentation
    comment of the member's symbol; its [const] flag is set exactly when the
    flags of the enum's symbol are [ConstEnum] and nothing else. *)
Theorem enum_members_in_order type c m c' :
  firstMatch type = Some IsEnumLiteralUnion ->
  includeBasic type c = Returned m c' ->
  exists sym members values,
    symbol type = Some sym
    /\ types type = Some members
    /\ m = Some (TEnumLiteral (symbolFlags sym =? SymbolFlags.ConstEnum)
                   (getComment (Some sym)) values)
    /\ length values = length members
    /\ forall (i : nat) member,
         members !! i = Some member ->
         exists msym v,
           symbol member = Some msym
           /\ values !! i = Some (TMember (symbolName msym) v (getComment (Some msym))).
Proof.
  unfold firstMatch, basicPriority, includeBasic, andIsUnion.
  cbn [List.find recognizes]. intros Hfirst Hrun.
  do 5 (match type of Hfirst with
        | (if ?b then _ else _) = _ => destruct b; [discriminate Hfirst|]
        end).
  destruct (hasFlag (flags type) TypeFlags.EnumLiteral); simpl in Hfirst.
  - destruct (isUnion type) as [[|]|] eqn:Hu.
    + apply bind_Returned in Hrun as (b & c0 & [Hb ->]%need_Returned & Hrun).
      injection Hb as <-.
      apply bind_Returned in Hrun as (sym & c0 & [Hsym ->]%need_Returned & Hrun).
      apply bind_Returned in Hrun as (members & c0 & [Hmem ->]%need_Returned & Hrun).
      apply bind_Returned in Hrun as (values & c1 & Hvals & Hrun).
      apply ret_Returned in Hrun as [-> ->].
      apply mapM_runsInOrder in Hvals.
      exists sym, members, values. rewrite Hsym.
      split; [reflexivity|]. split; [exact Hmem|]. split; [reflexivity|]. split.
      * eapply runsInOrder_length. exact Hvals.
      * intros i member Hi.
        destruct (runsInOrder_lookup _ _ _ _ _ _ _ Hvals Hi) as (y & ci & ci' & Hy & Hm).
        unfold includeMember in Hm.
        apply bind_Returned in Hm as (msym & c2 & [Hms ->]%need_Returned & Hm).
        apply bind_Returned in Hm as (v & c3 & _ & Hm).
        apply ret_Returned in Hm as [-> _].
        exists msym, v. rewrite Hms in Hy. split; [exact Hms|exact Hy].
    + exfalso. revert Hfirst.
      rewrite (bool_decide_eq_false_2 (Some false = Some true)) by discriminate.
      destruct (hasFlag (flags type) TypeFlags.Enum); simpl;
        repeat match goal with
               | |- (if ?b then _ else _) = _ -> _ => destruct b
               end; discriminate.
    + exfalso. revert Hfirst.
      rewrite (bool_decide_eq_false_2 (None = Some true)) by discriminate.
      destruct (hasFlag (flags type) TypeFlags.Enum); simpl;
        repeat match goal with
               | |- (if ?b then _ else _) = _ -> _ => destruct b
               end; discriminate.
  - exfalso. revert Hfirst.
    repeat match goal with
           | |- (if ?b then _ else _) = _ -> _ => destruct b
           end; discriminate.
Qed.

End Further.

(** ** At every depth of the walk *)

(** X13.  Whatever the walk is asked to classify, and at whatever depth,
    an entry that is in the registry when the request starts is still there,
    unchanged, when the request returns; so the set of registered names only
    grows.  An exported function changes at most the entry of its own
    name. *)
Theorem registry_only_grows `{Orc : Oracle} `{Hp : Helpers} (fuel : nat) type name c :
  let W := walk fuel in
  (forall m c',
     includeType type c = Returned m c'
     \/ getTypeModel type name c = Returned m c'
     \/ includeAnonymous type c = Returned m c' ->
     refs c ⊆ refs c' /\ dom (refs c) ⊆ dom (refs c'))
  /\ (forall func n u c' k v,
        includeExportedFunction func n c = Returned u c' ->
        k <> n -> refs c !! k = Some v -> refs c' !! k = Some v).
Proof.
  intros W. pose proof (walk_grows fuel) as HW. fold W in HW. split.
  - intros m c' Hrun.
    assert (Hsub : refs c ⊆ refs c').
    { destruct Hrun as [Hrun|[Hrun|Hrun]]; revert Hrun; apply HW. }
    split; [exact Hsub | apply subseteq_dom, Hsub].
  - intros func n u c' k v Hrun Hne Hk.
    unfold includeExportedFunction in Hrun.
    apply bind_Returned in Hrun as (signs & c0 & [_ ->]%need_Returned & Hrun).
    apply bind_Returned in Hrun as (sign & c0 & [_ ->]%need_Returned & Hrun).
    apply bind_Returned in Hrun as (f & c1 & Hf & Hrun).
    apply setRef_Returned in Hrun as [-> _].
    rewrite lookup_insert_ne by congruence.
    eapply lookup_weaken; [exact Hk|]. eapply getFunctionType_grows; eassumption.
Qed.

Lemma getAllPropIds_readonly `{Orc : Oracle} `{Hp : Helpers} (fuel : nat) types c ids c' :
  @getAllPropIds _ (walk fuel) types c = Returned ids c' -> c' = c.
Proof.
  revert types c ids c'. induction fuel as [|n IH]; intros types c ids c'; simpl;
    [discriminate|].
  revert c ids c'. induction types as [|t types IHt]; intros c ids c' Hrun; simpl in Hrun.
  - apply ret_Returned in Hrun as [_ ->]. reflexivity.
  - apply bind_Returned in Hrun as (rs & c0 & [-> ->]%getRefs_Returned & Hrun).
    apply bind_Returned in Hrun as (here & c1 & Hhere & Hrun).
    apply bind_Returned in Hrun as (more & c2 & Hmore & Hrun).
    apply ret_Returned in Hrun as [_ ->].
    apply IHt in Hmore as ->.
    destruct (isClassOrObject _).
    + apply bind_Returned in Hhere as (inh & c3 & Hinh & Hhere).
      apply ret_Returned in Hhere as [_ ->]. eapply IH. exact Hinh.
    + destruct (externalOf t); apply ret_Returned in Hhere as [_ ->]; reflexivity.
Qed.

Lemma getAllPropIds_members `{Orc : Oracle} `{Hp : Helpers} (fuel : nat) types c ids c' :
  @getAllPropIds _ (walk (S fuel)) types c = Returned ids c' ->
  forall t, t ∈ types ->
    (forall base,
       mjoin (refs c !! keyOf (refNameOf t)) = Some base -> kind base = "class" ->
       (forall p, p ∈ propsOf base -> truthyId (memberId p) = true -> memberId p ∈ ids)
       /\ exists inherited,
            @getAllPropIds _ (walk fuel) (extendsOf base) c = Returned inherited c
            /\ forall i, i ∈ inherited -> i ∈ ids)
    /\ (forall e props,
          isClassOrObject (mjoin (refs c !! keyOf (refNameOf t))) = false ->
          externalOf t = Some e -> getProperties e = Some props ->
          forall s, s ∈ props -> propId s ∈ ids).
Proof.
  simpl. revert ids c'.
  induction types as [|t0 types IHt]; intros ids c' Hrun t Ht; [inversion Ht|].
  simpl in Hrun.
  apply bind_Returned in Hrun as (rs & c0 & [-> ->]%getRefs_Returned & Hrun).
  apply bind_Returned in Hrun as (here & c1 & Hhere & Hrun).
  apply bind_Returned in Hrun as (more & c2 & Hmore & Hrun).
  apply ret_Returned in Hrun as [-> ->].
  assert (c1 = c) as ->.
  { destruct (isClassOrObject _).
    - apply bind_Returned in Hhere as (inh & c3 & Hinh & Hhere).
      apply ret_Returned in Hhere as [_ ->].
      eapply getAllPropIds_readonly. exact Hinh.
    - destruct (externalOf t0); apply ret_Returned in Hhere as [_ ->]; reflexivity. }
  apply elem_of_cons in Ht as [->|Ht].
  - split.
    + intros base Hbase Hkind.
      assert (Hclass : isClassOrObject (mjoin (refs c !! keyOf (refNameOf t0))) = true).
      { rewrite Hbase. simpl. rewrite Hkind. reflexivity. }
      rewrite Hclass, Hbase in Hhere. simpl in Hhere.
      apply bind_Returned in Hhere as (inh & c3 & Hinh & Hhere).
      apply ret_Returned in Hhere as [-> Hc]. subst c3.
      split.
      * intros p Hpin Htruthy. apply elem_of_app. left. apply elem_of_app. left.
        apply list_elem_of_In. apply filter_In. split; [|exact Htruthy].
        apply in_map. apply list_elem_of_In. exact Hpin.
      * exists inh. split; [exact Hinh|].
        intros i Hi. apply elem_of_app. left. apply elem_of_app. right. exact Hi.
    + intros e props Hnot He Hprops s Hs.
      rewrite Hnot, He, Hprops in Hhere. simpl in Hhere.
      apply ret_Returned in Hhere as [-> _].
      apply elem_of_app. left. apply list_elem_of_In, in_map, list_elem_of_In. exact Hs.
  - destruct (IHt _ _ Hmore t Ht) as [Hclass Hext]. split.
    + intros base Hbase Hkind. destruct (Hclass base Hbase Hkind) as [Hown (inh & Hinh & Hsub)].
      split; [intros p Hpin Htr; apply elem_of_app; right; eauto|].
      exists inh. split; [exact Hinh|]. intros i Hi. apply elem_of_app. right. eauto.
    + intros e props Hnot He Hprops s Hs. apply elem_of_app. right. eauto.
Qed.

(** X14.  [getAllPropIds] only reads the registry: it returns in the
    context it was started in.  Its answer holds, for every inherited [ref]
    whose name is registered with a [class] node, the id of every member of
    that node that has a non-zero id, and all the ids collected, one level
    down, from the node's own [extends]; and for every other [ref] that
    carries its oracle type, the identity id of every property of that
    type. *)
Theorem getAllPropIds_collects `{Orc : Oracle} `{Hp : Helpers} (fuel : nat) types c ids c' :
  @getAllPropIds _ (walk (S fuel)) types c = Returned ids c' ->
  c' = c
  /\ forall t, t ∈ types ->
       (forall base,
          mjoin (refs c !! keyOf (refNameOf t)) = Some base -> kind base = "class" ->
          (forall p, p ∈ propsOf base -> truthyId (memberId p) = true -> memberId p ∈ ids)
          /\ exists inherited,
               @getAllPropIds _ (walk fuel) (extendsOf base) c = Returned inherited c
               /\ forall i, i ∈ inherited -> i ∈ ids)
       /\ (forall e props,
             isClassOrObject (mjoin (refs c !! keyOf (refNameOf t))) = false ->
             externalOf t = Some e -> getProperties e = Some props ->
             forall s, s ∈ props -> propId s ∈ ids).
Proof.
  intros Hrun. split.
  - eapply getAllPropIds_readonly. exact Hrun.
  - eapply getAllPropIds_members. exact Hrun.
Qed.

(** X15.  Members inherited from a registered class are not repeated: when
    an entry of the heritage of [type] names a class node of the registry,
    no own property of the node built for [type] has the id of a member of
    that class; and when an entry is a [ref] to a type that is not
    registered as a class or object, no own property has the identity id of
    a property of the [ref]'s oracle type. *)
Theorem inherited_members_not_repeated `{Orc : Oracle} `{Hp : Helpers} (fuel : nat)
    type c m c' :
  @includeStandardObject _ _ (walk (S fuel)) type c = Returned m c' ->
  exists es impl c0,
    @includeInheritedTypes _ _ (walk (S fuel)) type c = Returned (es, impl) c0
    /\ (forall t base p q,
          t ∈ es ++ impl ->
          mjoin (refs c0 !! keyOf (refNameOf t)) = Some base -> kind base = "class" ->
          p ∈ propsOf base -> truthyId (memberId p) = true ->
          q ∈ propsOf m -> isPropNode q = true ->
          memberId q <> memberId p)
    /\ (forall t e props s q,
          t ∈ es ++ impl ->
          isClassOrObject (mjoin (refs c0 !! keyOf (refNameOf t))) = false ->
          externalOf t = Some e -> getProperties e = Some props -> s ∈ props ->
          q ∈ propsOf m -> isPropNode q = true ->
          memberId q <> propId s).
Proof.
  intros Hrun.
  destruct (includeStandardObject_parts _ _ _ _ Hrun)
    as (es & impl & c0 & targets & c1 & props & own & rest & c2
        & Hinh & Hids & _ & Hruns & Hprops & Hrest).
  destruct (own_properties_filtered _ _ _ _ _ Hruns) as [_ Hown].
  pose proof (getAllPropIds_members fuel _ _ _ _ Hids) as Hall.
  assert (Hq : forall q, q ∈ propsOf m -> isPropNode q = true -> memberId q ∉ targets).
  { intros q Hin Hprop. rewrite Hprops in Hin. apply elem_of_app in Hin as [Hin|Hin].
    - rewrite Forall_forall in Hown. apply Hown. exact Hin.
    - rewrite Forall_forall in Hrest. apply Hrest in Hin. congruence. }
  exists es, impl, c0. split; [exact Hinh|]. split.
  - intros t base p q Ht Hbase Hkind Hp' Htruthy Hin Hprop Heq.
    apply (Hq q Hin Hprop). rewrite Heq.
    destruct (Hall t Ht) as [Hclass _].
    destruct (Hclass base Hbase Hkind) as [Hmem _]. apply Hmem; assumption.
  - intros t e ps s q Ht Hnot He Hps Hs Hin Hprop Heq.
    apply (Hq q Hin Hprop). rewrite Heq.
    destruct (Hall t Ht) as [_ Hext]. eapply Hext; eassumption.
Qed.

(** * The further properties on concrete programs *)

Lemma returned_of_result `{Hp : Helpers} {A} (o : Outcome A) :
  isDefined (resultIn o) = true -> exists a c, o = Returned a c.
Proof. destruct o as [a c| |]; simpl; [eauto | discriminate | discriminate]. Qed.

Section GenericsFurther.
Import Demo Generics.
Let O := oracle heap.
Let Hs := helpers heap.
Let W := @walk O Hs 5.

Lemma normalizeTypeParameters_prefix_witness :
  exists ts,
    @normalizeTypeParameters O Hs pairNumberString (Some pairDecl) [] (Some "Pair") registered
      = Returned ts registered
    /\ ts = [].
Proof.
  destruct (@normalizeTypeParameters_prefix O Hs pairNumberString (Some pairDecl) []
              (Some "Pair") registered) as (ts & Hrun & _ & Hnil).
  exists ts. split; [exact Hrun | exact (Hnil eq_refl)].
Defined.

Lemma includeRef_arguments_witness :
  exists classified ts c',
    @includeRef O Hs W pairNumberString (Some "Pair") None registered
      = Returned (TRef ts (Some "Pair") None) c'
    /\ runsInOrder (@includeType Hs W) [numberType; stringType] classified registered c'
    /\ ts `prefix_of` classified.
Proof.
  destruct (@returned_of_result Hs _
              (@includeRef O Hs W pairNumberString (Some "Pair") None registered))
    as (m & c' & Hrun); [vm_compute; reflexivity|].
  destruct (proj1 (@includeRef_arguments O Hs W pairNumberString (Some "Pair") None registered)
              m c' Hrun) as (classified & ts & Hruns & Hpre & ->).
  exists classified, ts, c'. split; [exact Hrun|]. split; [exact Hruns | exact Hpre].
Defined.

Lemma object_node_types_count_witness :
  exists m c',
    @includeStandardObject O Hs W pairType (emptyContext heap) = Returned m c'
    /\ typesLength m = Some 2%Z.
Proof.
  destruct (@returned_of_result Hs _
              (@includeStandardObject O Hs W pairType (emptyContext heap)))
    as (m & c' & Hrun); [vm_compute; reflexivity|].
  exists m, c'. split; [exact Hrun|].
  exact (@object_node_types_count O Hs W pairType (emptyContext heap) m c' (or_introl Hrun)).
Defined.

End GenericsFurther.

Section ExportsFurther.
Import Demo Exports.
Let O := oracle heap.
Let Hs := helpers heap.
Let W := @walk O Hs 5.

Lemma function_parameters_in_order_witness :
  (exists ts ps r c',
     @getFunctionType O Hs W greetSignature (emptyContext heap)
       = Returned (TFunction ts ps r None) c'
     /\ length ps = 2%nat
     /\ (exists v, ps !! 0%nat = Some (TParameter "name" "" false false v))
     /\ (exists v, ps !! 1%nat = Some (TParameter "rest" "" true false v)))
  /\ (@type_ O valueDecl = None
      /\ @getParameterType O Hs W None (emptyContext heap)
         = @includeAnonymous Hs W (@checkerErrorType O) (emptyContext heap)
      /\ exists c',
           @getFunctionType O Hs W echoSignature (emptyContext heap)
             = Returned (TFunction [] [TParameter "value" "" false false TAny] TString None) c'
           /\ length [TParameter "value" "" false false TAny] = 1%nat)
  /\ (forall m c',
        @getFunctionType O Hs W orphanSignature (emptyContext heap) <> Returned m c').
Proof.
  pose proof (@function_parameters_in_order O Hs W) as Hthm. split; [|split].
  - destruct (@returned_of_result Hs _
                (@getFunctionType O Hs W greetSignature (emptyContext heap)))
      as (m & c' & Hrun); [vm_compute; reflexivity|].
    destruct (proj1 (Hthm greetSignature (emptyContext heap)) m c' Hrun)
      as (ts & ps & r & -> & _ & Hlen & Hall).
    exists ts, ps, r, c'. split; [exact Hrun|]. split; [exact Hlen|]. split.
    + destruct (Hall 0%nat nameSymbol eq_refl) as (decl & v & ci & ci' & Hdecl & _ & Hp0).
      injection Hdecl as <-. exists v. exact Hp0.
    + destruct (Hall 1%nat restSymbol eq_refl) as (decl & v & ci & ci' & Hdecl & _ & Hp1).
      injection Hdecl as <-. exists v. exact Hp1.
  - split; [reflexivity|]. split.
    + apply (proj1 (proj2 (Hthm echoSignature (emptyContext heap)))); reflexivity.
    + assert (Hres : resultOf (@getFunctionType O Hs W echoSignature (emptyContext heap))
                     = Some (TFunction [] [TParameter "value" "" false false TAny] TString None))
        by (vm_compute; reflexivity).
      apply resultOf_Returned in Hres as [c' Hrun].
      destruct (proj1 (Hthm echoSignature (emptyContext heap)) _ c' Hrun)
        as (ts & ps & r & Hm & _ & Hlen & _).
      injection Hm as <- <- <-.
      exists c'. split; [exact Hrun | exact Hlen].
  - apply (proj2 (proj2 (Hthm orphanSignature (emptyContext heap))) orphanParameter).
    + apply list_elem_of_In. left. reflexivity.
    + reflexivity.
Defined.

Lemma includeExportedFunction_registers_witness :
  (exists ts ps r c1 c',
     @includeExportedFunction O Hs W greetDecl "greet" (emptyContext heap) = Returned tt c'
     /\ @getFunctionType O Hs W greetSignature (emptyContext heap)
        = Returned (TFunction ts ps r None) c1
     /\ refs c' = <["greet" := Some (TFunction ts ps r (@getComment O (Some greetSymbol)))]>
                    (refs c1))
  /\ (exists ts ps r c1 c',
        @includeExportedFunction O Hs W echoDecl "echo" (emptyContext heap) = Returned tt c'
        /\ @getFunctionType O Hs W echoSignature (emptyContext heap)
           = Returned (TFunction ts ps r None) c1
        /\ refs c' = <["echo" := Some (TFunction ts ps r (@getComment O (Some echoSymbol)))]>
                       (refs c1))
  /\ @includeExportedFunction O Hs W idDecl "Id" (emptyContext heap) = TypeError.
Proof.
  pose proof (@includeExportedFunction_registers O Hs W) as Hthm. split; [|split].
  - destruct (@returned_of_result Hs _
                (@includeExportedFunction O Hs W greetDecl "greet" (emptyContext heap)))
      as ([] & c' & Hrun); [vm_compute; reflexivity|].
    destruct (proj1 (Hthm greetDecl "greet" (emptyContext heap)) tt c' Hrun)
      as (sign & overloads & ts & ps & r & c1 & Hsigns & Hf & Hrefs & _).
    injection Hsigns as <- <-.
    exists ts, ps, r, c1, c'. split; [exact Hrun|]. split; [exact Hf | exact Hrefs].
  - destruct (@returned_of_result Hs _
                (@includeExportedFunction O Hs W echoDecl "echo" (emptyContext heap)))
      as ([] & c' & Hrun); [vm_compute; reflexivity|].
    destruct (proj1 (Hthm echoDecl "echo" (emptyContext heap)) tt c' Hrun)
      as (sign & overloads & ts & ps & r & c1 & Hsigns & Hf & Hrefs & _).
    injection Hsigns as <- <-.
    exists ts, ps, r, c1, c'. split; [exact Hrun|]. split; [exact Hf | exact Hrefs].
  - apply (proj2 (Hthm idDecl "Id" (emptyContext heap))). left. reflexivity.
Defined.

Lemma includeExportedTypeAlias_stores_reference_witness :
  exists node c1 c',
    @includeExportedTypeAlias O Hs W (demoNames heap) idDecl (emptyContext heap)
      = Returned tt c'
    /\ @includeReference O Hs W idDecl (emptyContext heap) = Returned (Some node) c1
    /\ kind node = "alias"
    /\ c' = stored "Id" (Some node) c1.
Proof.
  destruct (@returned_of_result Hs _
              (@includeExportedTypeAlias O Hs W (demoNames heap) idDecl (emptyContext heap)))
    as ([] & c' & Hrun); [vm_compute; reflexivity|].
  destruct (proj1 (@includeExportedTypeAlias_stores_reference O Hs W (demoNames heap)
                     idDecl idIdentifier (emptyContext heap) c' eq_refl eq_refl) Hrun)
    as (node & c1 & Href & Hkind & Hc).
  exists node, c1, c'. split; [exact Hrun|]. split; [exact Href|].
  split; [exact Hkind | exact Hc].
Defined.

End ExportsFurther.

Section ClassesFurther.
Import Demo Classes.
Let O := oracle heap.
Let Hs := Classes.helpers heap.
Let W := @walk O Hs 10.

Lemma constructors_retagged_witness :
  (exists l c',
     @getConstructorTypes O Hs W animalType emptyContext = Returned l c'
     /\ length l = 1%nat
     /\ Forall (fun m => kind m = "constructor") l)
  /\ @getConstructorTypes O Hs W dogType emptyContext = Returned [] emptyContext.
Proof.
  pose proof (@constructors_retagged O Hs W) as Hthm. split.
  - destruct (@returned_of_result Hs _ (@getConstructorTypes O Hs W animalType emptyContext))
      as (l & c' & Hrun); [vm_compute; reflexivity|].
    destruct (proj1 (Hthm animalType emptyContext) l c' Hrun) as [Hlen Hall].
    exists l, c'. split; [exact Hrun|]. split; [exact Hlen | exact Hall].
  - apply (proj2 (Hthm dogType emptyContext)). reflexivity.
Defined.

Lemma own_properties_exclude_collected_ids_witness :
  exists m c' targets own rest,
    @includeStandardObject O Hs W dogType emptyContext = Returned m c'
    /\ propsOf m = own ++ rest
    /\ map memberId own
       = List.filter (fun i => negb (includes targets i)) [Some 104%nat; Some 103%nat]
    /\ Forall (fun p => isPropNode p = true /\ memberId p ∉ targets) own
    /\ Forall (fun p => isPropNode p = false) rest.
Proof.
  destruct (@returned_of_result Hs _ (@includeStandardObject O Hs W dogType emptyContext))
    as (m & c' & Hrun); [vm_compute; reflexivity|].
  destruct (@own_properties_exclude_collected_ids O Hs W dogType emptyContext m c' Hrun)
    as (es & impl & c0 & targets & c1 & props & own & rest
        & _ & _ & Hprops & Hsplit & Hids & Hown & Hrest).
  injection Hprops as <-.
  exists m, c', targets, own, rest. split; [exact Hrun|]. split; [exact Hsplit|].
  split; [exact Hids|]. split; [exact Hown | exact Hrest].
Defined.

Lemma class_members_in_order_witness :
  (exists es cm standard ts impl statics ctors c',
     @includeClassObject O Hs W dogType emptyContext
       = Returned (TClass es cm (standard ++ statics ++ ctors) ts impl) c'
     /\ Forall (fun p => isPropNode p = true) statics
     /\ length statics = 1%nat
     /\ length ctors = 0%nat)
  /\ (exists es cm standard ts impl statics ctors c3 c',
        @includeClassObject O Hs W animalType emptyContext
          = Returned (TClass es cm (standard ++ statics ++ ctors) ts impl) c'
        /\ length statics = 0%nat
        /\ @getConstructorTypes O Hs W animalType c3 = Returned ctors c'
        /\ length ctors = 1%nat
        /\ Forall (fun k => kind k = "constructor") ctors).
Proof.
  split.
  - destruct (@returned_of_result Hs _ (@includeClassObject O Hs W dogType emptyContext))
      as (m & c' & Hrun); [vm_compute; reflexivity|].
    destruct (@class_members_in_order O Hs W dogType emptyContext m c' Hrun)
      as (es & cm & standard & ts & c1 & es' & impl & c2 & sym & statics & c3 & ctors
          & _ & _ & Hsym & -> & Hst & Hlen & _ & _ & Hctors & _).
    injection Hsym as <-.
    exists es, cm, standard, ts, impl, statics, ctors, c'.
    split; [exact Hrun|]. split; [exact Hst|]. split; [exact Hlen | exact Hctors].
  - destruct (@returned_of_result Hs _ (@includeClassObject O Hs W animalType emptyContext))
      as (m & c' & Hrun); [vm_compute; reflexivity|].
    destruct (@class_members_in_order O Hs W animalType emptyContext m c' Hrun)
      as (es & cm & standard & ts & c1 & es' & impl & c2 & sym & statics & c3 & ctors
          & _ & _ & Hsym & -> & _ & Hlen & _ & Hct & Hctors & Hkind).
    injection Hsym as <-.
    exists es, cm, standard, ts, impl, statics, ctors, c3, c'.
    split; [exact Hrun|]. split; [exact Hlen|]. split; [exact Hct|].
    split; [exact Hctors | exact Hkind].
Defined.

Lemma getAllPropIds_collects_witness :
  exists ids,
    @getAllPropIds Hs (@walk O Hs 3) [TRef [] (Some "Animal") None] animalRegistered
      = Returned ids animalRegistered
    /\ Some 103%nat ∈ ids.
Proof.
  destruct (@returned_of_result Hs _
              (@getAllPropIds Hs (@walk O Hs 3) [TRef [] (Some "Animal") None]
                 animalRegistered))
    as (ids & c' & Hrun); [vm_compute; reflexivity|].
  destruct (@getAllPropIds_collects O Hs 2 [TRef [] (Some "Animal") None] animalRegistered
              ids c' Hrun) as [-> Hall].
  exists ids. split; [exact Hrun|].
  assert (Hbase : mjoin (refs animalRegistered !! keyOf (Some "Animal")) = Some animalNode)
    by (vm_compute; reflexivity).
  destruct (Hall (TRef [] (Some "Animal") None)) as [Hclass _]; [left|].
  destruct (Hclass animalNode Hbase eq_refl) as [Hmem _].
  apply (Hmem (TProp "name" "" (Some 103%nat) false (Some "") TString)); [left | reflexivity].
Defined.

Lemma inherited_members_not_repeated_witness :
  exists m c',
    @includeStandardObject O Hs (@walk O Hs 10) dogType emptyContext = Returned m c'
    /\ forall q, q ∈ propsOf m -> isPropNode q = true -> memberId q <> Some 103%nat.
Proof.
  destruct (@returned_of_result Hs _
              (@includeStandardObject O Hs (@walk O Hs 10) dogType emptyContext))
    as (m & c' & Hrun); [vm_compute; reflexivity|].
  exists m, c'. split; [exact Hrun|].
  destruct (@inherited_members_not_repeated O Hs 9 dogType emptyContext m c' Hrun)
    as (es & impl & c0 & Hinh & Hclass & _).
  assert (Hreg : match @includeInheritedTypes O Hs (@walk O Hs 10) dogType emptyContext with
                 | Returned p c => Some (p, mjoin (refs c !! "Animal"))
                 | _ => None
                 end = Some (([TRef [] (Some "Animal") None], []), Some animalNode))
    by (vm_compute; reflexivity).
  rewrite Hinh in Hreg. injection Hreg as -> -> Hbase.
  intros q Hq Hprop.
  apply (Hclass (TRef [] (Some "Animal") None) animalNode
           (TProp "name" "" (Some 103%nat) false (Some "") TString) q);
    [left | exact Hbase | reflexivity | left | reflexivity | exact Hq | exact Hprop].
Defined.

End ClassesFurther.

Section InheritanceFurther.
Import Demo Inheritance.
Let O := oracle heap.
Let Hs := helpers heap.
Let W := @walk O Hs 10.

Lemma heritage_entries_are_refs_witness :
  @includeInheritedTypes O Hs W stringType (emptyContext heap)
    = Returned ([], []) (emptyContext heap)
  /\ exists es impl c',
       @includeInheritedTypes O Hs W derivedType (emptyContext heap) = Returned (es, impl) c'
       /\ Forall (fun m => isRefNode m = true) (es ++ impl).
Proof.
  pose proof (@heritage_entries_are_refs O Hs W) as Hthm. split.
  - apply (proj1 (Hthm stringType (emptyContext heap))). left. reflexivity.
  - destruct (@returned_of_result Hs _
                (@includeInheritedTypes O Hs W derivedType (emptyContext heap)))
      as ([es impl] & c' & Hrun); [vm_compute; reflexivity|].
    exists es, impl, c'. split; [exact Hrun|].
    apply (proj2 (Hthm derivedType (emptyContext heap)) derivedDecl es impl c' eq_refl);
      [|exact Hrun].
    intros clause ts t Hclause Hts Ht.
    change (clause ∈ [extendsClause]) in Hclause.
    apply list_elem_of_singleton in Hclause. subst clause.
    change (Some [baseExpression] = Some ts) in Hts. injection Hts as <-.
    apply list_elem_of_singleton in Ht. subst t.
    vm_compute. reflexivity.
Defined.

Lemma named_type_answered_with_ref_witness :
  exists m c',
    @getTypeModelBody O Hs W derivedType (Some "Derived") (emptyContext heap) = Returned m c'
    /\ kind m = "ref".
Proof.
  destruct (@returned_of_result Hs _
              (@getTypeModelBody O Hs W derivedType (Some "Derived") (emptyContext heap)))
    as (m & c' & Hrun); [vm_compute; reflexivity|].
  exists m, c'. split; [exact Hrun|].
  exact (@named_type_answered_with_ref O Hs W derivedType (Some "Derived")
           (emptyContext heap) m c' eq_refl eq_refl eq_refl eq_refl Hrun).
Defined.

End InheritanceFurther.

Section EnumsFurther.
Import Demo Enums.
Let O := oracle heap.
Let Hs := helpers heap.
Let W := @walk O Hs 5.

Lemma enum_members_in_order_witness :
  exists comment values r g c',
    @includeBasic O Hs W colorType (emptyContext heap)
      = Returned (Some (TEnumLiteral false comment values)) c'
    /\ length values = 2%nat
    /\ values !! 0%nat = Some (TMember "Red" r (Some ""))
    /\ values !! 1%nat = Some (TMember "Green" g (Some "")).
Proof.
  destruct (@returned_of_result Hs _ (@includeBasic O Hs W colorType (emptyContext heap)))
    as (m & c' & Hrun); [vm_compute; reflexivity|].
  destruct (@enum_members_in_order O Hs W colorType (emptyContext heap) m c' eq_refl Hrun)
    as (sym & members & values & Hsym & Hmembers & -> & Hlen & Hall).
  injection Hsym as <-. injection Hmembers as <-.
  destruct (Hall 0%nat redType eq_refl) as (rs & r & Hrs & Hr). injection Hrs as <-.
  destruct (Hall 1%nat greenType eq_refl) as (gs & g & Hgs & Hg). injection Hgs as <-.
  exists (@getComment O (Some colorSymbol)), values, r, g, c'.
  split; [exact Hrun|]. split; [exact Hlen|]. split; [exact Hr | exact Hg].
Defined.

End EnumsFurther.

Section RegistryFurther.
Import Demo Exports.
Let O := oracle heap.
Let Hs := helpers heap.

Lemma registry_only_grows_witness :
  let c := contextOf heap {["Id" := Some (TAlias (Some "") [] TString)]} in
  (exists m c',
     @includeType Hs (@walk O Hs 5) stringType c = Returned m c' /\ refs c ⊆ refs c')
  /\ exists c',
       @includeExportedFunction O Hs (@walk O Hs 5) greetDecl "greet" c = Returned tt c'
       /\ refs c' !! "Id" = Some (Some (TAlias (Some "") [] TString)).
Proof.
  intros c.
  pose proof (@registry_only_grows O Hs 5 stringType None c) as [Hgrow Hfun]. split.
  - destruct (@returned_of_result Hs _ (@includeType Hs (@walk O Hs 5) stringType c))
      as (m & c' & Hrun); [vm_compute; reflexivity|].
    exists m, c'. split; [exact Hrun|]. exact (proj1 (Hgrow m c' (or_introl Hrun))).
  - destruct (@returned_of_result Hs _
                (@includeExportedFunction O Hs (@walk O Hs 5) greetDecl "greet" c))
      as ([] & c' & Hrun); [vm_compute; reflexivity|].
    exists c'. split; [exact Hrun|].
    apply (Hfun greetDecl "greet" tt c' "Id" _ Hrun); [discriminate|].
    vm_compute. reflexivity.
Defined.

End RegistryFurther.
